(** * Maker-only volume bot: price oracle, pricing policy, order lifecycle,
      trend tracker and statistics

    A shallow embedding of [volume_bot_maker_only_v3.py] and of the closing leg
    of [shorter.py].

    Conventions of the embedding.
    - A Python [float] is an IEEE 754 binary64 number: Rocq's primitive
      [float], with the same rounding, signed zeros, infinities and NaN.
    - A Python [int] is a [Z].
    - [time.time()] is read as a number of whole seconds, a [Z]; [time.sleep d]
      moves the clock forward by [d] seconds.
    - A Python exception is a value of [exn]; a computation that may raise
      returns a [result].
    - [print_flush] writes to the console only and is left out. *)

From Stdlib Require Import ZArith List Bool Lia Floats.
From Stdlib Require String.
From Equations Require Import Equations.
Import ListNotations.
Import String.StringSyntax.
Delimit Scope string_scope with string.

Set Warnings "-inexact-float".

(** ** Python primitives *)

Module Py.

(** The exceptions the modelled code can meet; all of them are subclasses of
    Python's [Exception]. *)
Inductive exn : Type :=
| GatewayError
| ZeroDivisionError
| StatisticsError
| TypeError
| IndexError
| RejectedOrder.

Inductive result (A : Type) : Type :=
| Ok (a : A)
| Raise (e : exn).
Arguments Ok {A} a.
Arguments Raise {A} e.

Definition bind {A B : Type} (m : result A) (k : A -> result B) : result B :=
  match m with
  | Ok a => k a
  | Raise e => Raise e
  end.

(** [try: body / except Exception: handler]. *)
Definition try_except {A : Type} (body : result A) (handler : exn -> A) : A :=
  match body with
  | Ok a => a
  | Raise e => handler e
  end.

(** Truth value of a float: every float but the two zeros is true. *)
Definition truthy (x : float) : bool := negb (PrimFloat.eqb x 0%float).

(** Truth value of a value that is [None] or a float. *)
Definition truthy_opt (o : option float) : bool :=
  match o with
  | None => false
  | Some x => truthy x
  end.

(** Truth value of a list: non-empty. *)
Definition nonempty {A : Type} (l : list A) : bool :=
  match l with
  | [] => false
  | _ :: _ => true
  end.

(** [x > y] and [x >= y] on floats. *)
Definition gtb (x y : float) : bool := PrimFloat.ltb y x.
Definition geb (x y : float) : bool := PrimFloat.leb y x.

(** [x >= y] where either side may be [None]: Python 3 raises [TypeError]
    when it is. *)
Definition geb_opt (x y : option float) : result bool :=
  match x, y with
  | Some a, Some b => Ok (geb a b)
  | _, _ => Raise TypeError
  end.

(** [max(a, b)]: the first argument unless the second is greater. *)
Definition max (a b : float) : float :=
  if gtb b a then b else a.

(** [x / y]: true division raises on a zero divisor. *)
Definition div (x y : float) : result float :=
  if PrimFloat.eqb y 0%float then Raise ZeroDivisionError
  else Ok (PrimFloat.div x y).

(** [sum(l)]: starts from the integer 0 and adds from the left, each
    addition rounded (CPython up to 3.11; later versions compensate the
    rounding errors, which can move the last bit of the result). *)
Definition sum (l : list float) : float :=
  fold_left PrimFloat.add l 0%float.

(** A value that is [None] or a float, used as an operand of [+] or [-]:
    [None] raises. *)
Definition number (o : option float) : result float :=
  match o with
  | Some x => Ok x
  | None => Raise TypeError
  end.

(** [float(n)] for a small non-negative [int]. *)
Definition of_int (n : Z) : float := PrimFloat.of_uint63 (Uint63.of_Z n).

(** [sorted(l)], as [list.sort] of CPython 3.11 runs on a list of fewer than 64
    floats (the code sorts at most ten prices): the comparisons are [<] on
    floats, the run the list starts with is found by [count_run] and reversed
    when it is strictly descending, and each later element is put in its
    place by [binarysort]. A NaN compares false with everything, so a list
    that holds one may come out unordered, the very way it does in CPython. *)

(** [count_run], after the first two elements: how many more elements go on
    the run. *)
Fixpoint run_length (descending : bool) (previous : float) (l : list float) : nat :=
  match l with
  | [] => 0
  | x :: l' =>
      if Bool.eqb (PrimFloat.ltb x previous) descending
      then S (run_length descending x l')
      else 0
  end.

(** [count_run]: the length of the first run, and whether it is strictly
    descending. *)
Definition count_run (data : list float) : nat * bool :=
  match data with
  | a :: b :: rest =>
      let descending := PrimFloat.ltb b a in
      (2 + run_length descending b rest, descending)
  | _ => (length data, false)
  end.

(** The search loop of [binarysort]: the place of [pivot] between the
    indices [l] and [r] of the sorted [run]. *)
Fixpoint bisect (fuel : nat) (pivot : float) (run : list float) (l r : nat) : nat :=
  match fuel with
  | O => l
  | S fuel' =>
      if Nat.ltb l r then
        let p := l + (r - l) / 2 in
        if PrimFloat.ltb pivot (nth p run 0%float)
        then bisect fuel' pivot run l p
        else bisect fuel' pivot run (p + 1) r
      else l
  end.

(** One step of [binarysort]: [pivot] goes into [run] at the place found. *)
Definition binary_insert (run : list float) (pivot : float) : list float :=
  let l := bisect (length run) pivot run 0 (length run) in
  firstn l run ++ pivot :: skipn l run.

Definition sorted (data : list float) : list float :=
  let '(n, descending) := count_run data in
  let run := firstn n data in
  let run := if descending then rev run else run in
  fold_left binary_insert (skipn n data) run.

(** [statistics.median(data)]. *)
Definition median (data : list float) : result float :=
  let data := sorted data in
  let n := length data in
  if Nat.eqb n 0 then Raise StatisticsError
  else if Nat.eqb (n mod 2) 1 then Ok (nth (n / 2) data 0%float)
  else
    let i := n / 2 in
    Ok (PrimFloat.div (PrimFloat.add (nth (i - 1) data 0%float) (nth i data 0%float)) 2%float).

(** [l[-k:]]. *)
Definition last_n {A : Type} (k : nat) (l : list A) : list A :=
  skipn (length l - k) l.

(** [zip(l1, l2)] is [List.combine]; [l[:k]] is [firstn k l]; [l[1:]] is
    [tl l]. *)

End Py.

Import Py.

Notation "x <- m ;; k" := (Py.bind m (fun x => k))
  (at level 61, m at next level, right associativity).

(** ** MarketTrendTracker (volume_bot_maker_only_v3.py) *)

Module MarketTrendTracker.

Record t : Type := mk {
  price_history : list (Z * float);
  consecutive_losses : Z;
  last_cooldown_time : Z;
  total_cooldowns : Z
}.

(** [__init__] *)
Definition init : t := mk [] 0 0 0.

(** [add_price_point(price)], called when the clock shows [now]. *)
Definition add_price_point (self : t) (now : Z) (price : float) : t :=
  let history := price_history self ++ [(now, price)] in
  let cutoff := (now - 1800)%Z in
  mk (filter (fun tp => (cutoff <? fst tp)%Z) history)
     (consecutive_losses self) (last_cooldown_time self) (total_cooldowns self).

(** [sum(1 for i in range(1, len(recent_prices))
         if recent_prices[i] < recent_prices[i-1])] *)
Definition downtrend_count (recent_prices : list float) : Z :=
  Z.of_nat (length (filter
    (fun i => PrimFloat.ltb (nth i recent_prices 0%float) (nth (i - 1) recent_prices 0%float))
    (seq 1 (length recent_prices - 1)))).

(** [is_downtrend()] *)
Definition is_downtrend (self : t) : bool :=
  if (Z.of_nat (length (price_history self)) <? 3)%Z then false
  else
    let recent_prices := map snd (Py.last_n 5 (price_history self)) in
    if (Z.of_nat (length recent_prices) <? 3)%Z then false
    else (Z.of_nat (length recent_prices) - 1 <=? downtrend_count recent_prices)%Z.

(** [record_cycle_result(pnl)] *)
Definition record_cycle_result (self : t) (pnl : float) : t :=
  if PrimFloat.ltb pnl (-0.50)%float then
    mk (price_history self) (consecutive_losses self + 1)
       (last_cooldown_time self) (total_cooldowns self)
  else
    mk (price_history self) 0 (last_cooldown_time self) (total_cooldowns self).

(** [should_cooldown()] *)
Definition should_cooldown (self : t) : bool :=
  (3 <=? consecutive_losses self)%Z.

(** The waiting loop of [do_cooldown]:
    [while time.time() < cooldown_end: ...; time.sleep(10)].
    It returns the clock at which the loop is left. *)
Equations? cooldown_wait (now cooldown_end : Z) : Z
  by wf (Z.to_nat (cooldown_end - now)) lt :=
  cooldown_wait now cooldown_end with Z_lt_dec now cooldown_end => {
    | left _ => cooldown_wait (now + 10) cooldown_end;
    | right _ => now }.
Proof. lia. Qed.

(** [do_cooldown(duration_minutes)], entered when the clock shows [now];
    it returns the tracker and the clock at which it is left. *)
Definition do_cooldown (self : t) (now : Z) (duration_minutes : Z) : t * Z :=
  let total := (total_cooldowns self + 1)%Z in
  let last := now in
  let cooldown_end := (now + duration_minutes * 60)%Z in
  let now' := cooldown_wait now cooldown_end in
  (mk (price_history self) 0 last total, now').

End MarketTrendTracker.

(** ** TradingStats (volume_bot_maker_only_v3.py) *)

Module TradingStats.

(** One entry of [cycle_details]. *)
Record cycle_detail : Type := mk_detail {
  d_success : bool;
  d_buy_price : float;
  d_sell_price : float;
  d_quantity : float;
  d_pnl : float;
  d_buy_adjustments : Z;
  d_sell_adjustments : Z;
  d_fees_paid : float;
  d_volume : float
}.

Record t : Type := mk {
  start_time : Z;
  start_balance : float;
  end_balance : float;
  completed_cycles : Z;
  failed_buys : Z;
  failed_sells : Z;
  total_buy_adjustments : Z;
  total_sell_adjustments : Z;
  total_volume : float;
  total_fees_paid : float;
  profitable_cycles : Z;
  losing_cycles : Z;
  total_cooldowns : Z;
  cycle_details : list cycle_detail
}.

(** [__init__], when the clock shows [now]. *)
Definition init (now : Z) : t :=
  mk now 0 0 0 0 0 0 0 0 0 0 0 0 [].

(** [add_cycle(success, buy_price, sell_price, quantity, pnl,
               buy_adjustments, sell_adjustments, fees_paid)] *)
Definition add_cycle (self : t) (success : bool)
    (buy_price sell_price quantity pnl : float)
    (buy_adjustments sell_adjustments : Z) (fees_paid : float) : t :=
  let volume := PrimFloat.mul (PrimFloat.add buy_price sell_price) quantity in
  let details := cycle_details self ++
    [mk_detail success buy_price sell_price quantity pnl
       buy_adjustments sell_adjustments fees_paid
       (if success then volume else 0%float)] in
  let completed := if success then (completed_cycles self + 1)%Z else completed_cycles self in
  let tvolume := if success then PrimFloat.add (total_volume self) volume else total_volume self in
  let tfees := if success then PrimFloat.add (total_fees_paid self) fees_paid else total_fees_paid self in
  let profitable :=
    if success then
      if Py.gtb pnl 0%float then (profitable_cycles self + 1)%Z else profitable_cycles self
    else profitable_cycles self in
  let losing :=
    if success then
      if Py.gtb pnl 0%float then losing_cycles self else (losing_cycles self + 1)%Z
    else losing_cycles self in
  mk (start_time self) (start_balance self) (end_balance self)
     completed (failed_buys self) (failed_sells self)
     (total_buy_adjustments self + buy_adjustments)
     (total_sell_adjustments self + sell_adjustments)
     tvolume tfees profitable losing (total_cooldowns self) details.

End TradingStats.

(** ** PriceOracle (volume_bot_maker_only_v3.py; shorter.py has the same two
       functions) *)

Module Oracle.

(** [filter_outlier_prices(prices, max_deviation_percent)] *)
Definition filter_outlier_prices (prices : list float)
    (max_deviation_percent : float) : result (list float) :=
  if Nat.leb (length prices) 2 then Ok prices
  else
    median_price <- Py.median prices ;;
    let max_deviation :=
      PrimFloat.mul median_price (PrimFloat.div max_deviation_percent 100%float) in
    let filtered :=
      filter (fun price =>
                let deviation := PrimFloat.abs (PrimFloat.sub price median_price) in
                PrimFloat.leb deviation max_deviation)
             prices in
    Ok (if Py.nonempty filtered then filtered else [nth 0 prices 0%float]).

(** One level of a side of the order book, already read with [float(...)]. *)
Record level : Type := mk_level {
  price : float;
  quantity : float
}.

Record orderbook : Type := mk_book {
  bid : list level;
  ask : list level
}.

(** What [hibachi.get_orderbook(...)] does: it raises, or it returns a
    snapshot. A level that [float(...)] cannot read raises inside the same
    [try] block and counts as the first case. *)
Definition gateway_reply : Type := result orderbook.

(** The size-weighted average of the top levels of one side, or the simple
    best price when the side is empty. *)
Definition weighted_price (top top_sizes : list float)
    (best_simple : option float) : result (option float) :=
  if Py.nonempty top && Py.nonempty top_sizes then
    let total_size := Py.sum top_sizes in
    w <- Py.div
           (Py.sum (map (fun ps => PrimFloat.mul (fst ps) (snd ps)) (combine top top_sizes)))
           total_size ;;
    Ok (Some w)
  else Ok best_simple.

(** "Use best prices but verify they're not outliers." *)
Definition checked_best (best_simple weighted : option float) : result (option float) :=
  match best_simple, weighted with
  | Some b, Some w =>
      if Py.truthy b && Py.truthy w then
        deviation <- Py.div (PrimFloat.abs (PrimFloat.sub b w)) w ;;
        if Py.gtb deviation 0.01%float then Ok weighted else Ok best_simple
      else Ok best_simple
  | _, _ => Ok best_simple
  end.

(** [statistics.median(prices[:5]) if len(prices) >= 3
     else prices[1] if len(prices) > 1 else prices[0]] *)
Definition median_fallback (prices : list float) : result float :=
  if Nat.leb 3 (length prices) then Py.median (firstn 5 prices)
  else if Nat.ltb 1 (length prices) then Ok (nth 1 prices 0%float)
  else
    match prices with
    | p :: _ => Ok p
    | [] => Raise IndexError
    end.

(** The body of the [try] block of [get_robust_market_prices]. *)
Definition robust_body (reply : gateway_reply) (depth : nat)
    : result (option float * option float) :=
  book <- reply ;;
  let bid_prices := map price (firstn depth (bid book)) in
  let bid_sizes := map quantity (firstn depth (bid book)) in
  let ask_prices := map price (firstn depth (ask book)) in
  let ask_sizes := map quantity (firstn depth (ask book)) in
  let best_bid_simple := hd_error bid_prices in
  let best_ask_simple := hd_error ask_prices in
  filtered_bids <- filter_outlier_prices (tl bid_prices) 1.5%float ;;
  filtered_asks <- filter_outlier_prices (tl ask_prices) 1.5%float ;;
  let top_bids := firstn 3 bid_prices in
  let top_bid_sizes := firstn 3 bid_sizes in
  let top_asks := firstn 3 ask_prices in
  let top_ask_sizes := firstn 3 ask_sizes in
  weighted_bid <- weighted_price top_bids top_bid_sizes best_bid_simple ;;
  weighted_ask <- weighted_price top_asks top_ask_sizes best_ask_simple ;;
  best_bid <- checked_best best_bid_simple weighted_bid ;;
  best_ask <- checked_best best_ask_simple weighted_ask ;;
  if Py.truthy_opt best_bid && Py.truthy_opt best_ask then
    inverted <- Py.geb_opt best_bid best_ask ;;
    if inverted then
      still <- Py.geb_opt weighted_bid weighted_ask ;;
      if still then
        mb <- median_fallback bid_prices ;;
        ma <- median_fallback ask_prices ;;
        Ok (Some mb, Some ma)
      else Ok (weighted_bid, weighted_ask)
    else Ok (best_bid, best_ask)
  else Ok (best_bid, best_ask).

(** [get_robust_market_prices(hibachi, symbol, depth)]: the body runs inside
    [try: ... except Exception: return None, None]. The result is kept in a
    [result] so that an escaping exception would show. *)
Definition get_robust_market_prices (reply : gateway_reply) (depth : nat)
    : result (option float * option float) :=
  Ok (Py.try_except (robust_body reply depth) (fun _ => (None, None))).

(** The callers' test of the result, [if not best_bid]: they take it for a
    quote whenever the bid is a number other than zero, whatever the ask, and
    for no quote otherwise. *)
Definition unavailable (r : option float * option float) : bool :=
  negb (Py.truthy_opt (fst r)).

Definition levels (l : list (float * float)) : list level :=
  map (fun ps => mk_level (fst ps) (snd ps)) l.

(** The default of the [depth] argument. *)
Definition default_depth : nat := 10.

End Oracle.

(** ** PricingPolicy of the closing leg

    The two chains of [place_maker_sell_order]. Their text is the same in
    [volume_bot_maker_only_v3.py] (lines 470-499 and 580-623) and in
    [shorter.py] (lines 411-434 and 511-547). Each returns the local variables
    [offset] and [current_price] as the chain leaves them. *)

Module SellPolicy.

Definition max_wait_time : Z := 1200.
Definition adjustment_interval : Z := 30.

(** The chain that prices the first order of the leg. *)
Definition initial (best_ask entry_price potential_pnl : float) : float * float :=
  if Py.geb potential_pnl 3.0%float then
    let offset := 1.50%float in (offset, PrimFloat.add best_ask offset)
  else if Py.geb potential_pnl 1.5%float then
    let offset := 0.80%float in (offset, PrimFloat.add best_ask offset)
  else if Py.geb potential_pnl 0.50%float then
    let offset := 0.30%float in (offset, PrimFloat.add best_ask offset)
  else if Py.geb potential_pnl (-0.20)%float then
    let offset := 0.20%float in
    (offset, Py.max (PrimFloat.add best_ask offset) (PrimFloat.add entry_price 0.10%float))
  else if Py.geb potential_pnl (-1.0)%float then
    let offset := 0.10%float in (offset, PrimFloat.add best_ask offset)
  else
    let offset := 0.05%float in (offset, PrimFloat.add best_ask offset).

(** The chain that prices the order again inside the loop; [offset] and
    [current_price] come in with the values they had before. *)
Definition reprice (elapsed : Z) (best_ask potential_pnl : float)
    (adjustment_count : Z) (offset : float) : float * float :=
  let n := Py.of_int adjustment_count in
  if (max_wait_time <=? elapsed)%Z then
    (offset, PrimFloat.add best_ask 0.01%float)
  else if Py.geb potential_pnl 3.0%float then
    let offset := Py.max (PrimFloat.sub 1.20%float (PrimFloat.mul n 0.15%float)) 0.50%float in
    (offset, PrimFloat.add best_ask offset)
  else if Py.geb potential_pnl 1.5%float then
    let offset := Py.max (PrimFloat.sub 0.60%float (PrimFloat.mul n 0.10%float)) 0.30%float in
    (offset, PrimFloat.add best_ask offset)
  else if Py.geb potential_pnl 0.50%float then
    let offset := Py.max (PrimFloat.sub 0.30%float (PrimFloat.mul n 0.05%float)) 0.15%float in
    (offset, PrimFloat.add best_ask offset)
  else if Py.geb potential_pnl 0.0%float then
    let offset := Py.max (PrimFloat.sub 0.15%float (PrimFloat.mul n 0.03%float)) 0.05%float in
    (offset, PrimFloat.add best_ask offset)
  else if Py.geb potential_pnl (-1.0)%float then
    let offset :=
      if (adjustment_count <=? 3)%Z
      then PrimFloat.sub 0.10%float (PrimFloat.mul n 0.02%float)
      else 0.02%float in
    (offset, PrimFloat.add best_ask offset)
  else
    let offset := 0.01%float in (offset, PrimFloat.add best_ask offset).

End SellPolicy.

(** ** OrderLifecycle of the closing leg: [place_maker_sell_order]

    The leg's local variables are a record; what the gateway and the clock
    answer during one turn of the [while True] loop is an [observation]. The
    trend tracker's [add_price_point] and the console bookkeeping
    ([last_update]) are left out. *)

Module Lifecycle.

Record leg : Type := mk_leg {
  order_id : Z;
  current_price : float;
  offset : float;
  adjustment_count : Z;
  order_start_time : Z;
  last_adjustment : Z
}.

Record observation : Type := mk_obs {
  now : Z;                                (* [time.time()] after [time.sleep(5)] *)
  order_status : result bool;             (* [get_order_details]: raises, or ["FILLED" in status] *)
  quote : option float * option float;    (* [get_robust_market_prices] *)
  placement : result Z;                   (* [place_limit_order]: raises, or the new order id *)
  placed_at : Z                           (* [time.time()] once the new order is placed *)
}.

Inductive outcome : Type :=
| Filled (price : float) (id : Z) (adjustments : Z)   (* [return True, current_price, order_id, adjustment_count] *)
| Resting (l : leg).                                  (* the loop goes round again *)

(** The code before the loop: quote, first price, first order. [None] is
    [return False, 0, None, 0]. *)
Definition start (pnl_of : option float -> option float -> result float)
    (entry_price : float) (q : option float * option float)
    (placement : result Z) (placed_at : Z) : result (option leg) :=
  let '(best_bid, best_ask) := q in
  if negb (Py.truthy_opt best_bid) then Ok None
  else
    potential_pnl <- pnl_of best_bid best_ask ;;
    ask <- Py.number best_ask ;;
    let '(offset, price) := SellPolicy.initial ask entry_price potential_pnl in
    match placement with
    | Ok id => Ok (Some (mk_leg id price offset 0 placed_at placed_at))
    | Raise _ => Ok None
    end.

(** The part of a turn below the trigger: count, cancel, refresh, re-price,
    re-submit. [pnl_of] is the file's formula for the potential P&L. *)
Definition adjust (pnl_of : option float -> option float -> result float)
    (l : leg) (o : observation) (elapsed : Z) : result outcome :=
  let count := (adjustment_count l + 1)%Z in
  let '(best_bid, best_ask) := quote o in
  if negb (Py.truthy_opt best_bid) then
    Ok (Resting (mk_leg (order_id l) (current_price l) (offset l) count
                        (order_start_time l) (last_adjustment l)))
  else
    potential_pnl <- pnl_of best_bid best_ask ;;
    ask <- Py.number best_ask ;;
    let '(offset', price') :=
      SellPolicy.reprice elapsed ask potential_pnl count (offset l) in
    match placement o with
    | Ok id => Ok (Resting (mk_leg id price' offset' count (order_start_time l) (placed_at o)))
    | Raise _ => Ok (Resting (mk_leg (order_id l) price' offset' count
                                     (order_start_time l) (last_adjustment l)))
    end.

(** One turn of the loop, given the file's trigger [adjust_due elapsed
    since_last_adj]. *)
Definition turn (adjust_due : Z -> Z -> bool)
    (pnl_of : option float -> option float -> result float)
    (l : leg) (o : observation) : result outcome :=
  let elapsed := (now o - order_start_time l)%Z in
  let since_last_adj := (now o - last_adjustment l)%Z in
  match order_status o with
  | Ok true => Ok (Filled (current_price l) (order_id l) (adjustment_count l))
  | _ =>
      if adjust_due elapsed since_last_adj then adjust pnl_of l o elapsed
      else Ok (Resting l)
  end.

(** volume_bot_maker_only_v3.py *)
Module V3.

(** [(best_ask - buy_price) * quantity] *)
Definition potential_pnl (buy_price quantity : float)
    (best_bid best_ask : option float) : result float :=
  a <- Py.number best_ask ;;
  Ok (PrimFloat.mul (PrimFloat.sub a buy_price) quantity).

(** [if since_last_adj >= adjustment_interval:] (line 550) *)
Definition adjust_due (elapsed since_last_adj : Z) : bool :=
  (SellPolicy.adjustment_interval <=? since_last_adj)%Z.

Definition place_maker_sell_order_turn (quantity buy_price : float)
    (l : leg) (o : observation) : result outcome :=
  turn adjust_due (potential_pnl buy_price quantity) l o.

End V3.

(** shorter.py *)
Module Shorter.

(** [(entry_price - best_bid) * quantity] for a short,
    [(best_ask - entry_price) * quantity] for a long. *)
Definition potential_pnl (is_short : bool) (entry_price quantity : float)
    (best_bid best_ask : option float) : result float :=
  if is_short then
    b <- Py.number best_bid ;;
    Ok (PrimFloat.mul (PrimFloat.sub entry_price b) quantity)
  else
    a <- Py.number best_ask ;;
    Ok (PrimFloat.mul (PrimFloat.sub a entry_price) quantity).

(** [if since_last_adj >= adjustment_interval or elapsed >= max_wait_time:]
    (line 481) *)
Definition adjust_due (elapsed since_last_adj : Z) : bool :=
  (SellPolicy.adjustment_interval <=? since_last_adj)%Z
  || (SellPolicy.max_wait_time <=? elapsed)%Z.

Definition place_maker_sell_order_turn (quantity entry_price : float)
    (is_short : bool) (l : leg) (o : observation) : result outcome :=
  turn adjust_due (potential_pnl is_short entry_price quantity) l o.

End Shorter.

End Lifecycle.

(** ** PricingPolicy of the opening leg: [place_maker_buy_order]

    The two places that price a buy order; their text is the same in
    [volume_bot_maker_only_v3.py] (lines 325-333 and 410-423) and in
    [shorter.py] (lines 287-290 and 356-363). *)

Module BuyPolicy.

Definition tick_size : float := 0.01.
Definition adjustment_interval : Z := 60.

(** The first order: 30 ticks below the bid in a downtrend, 20 otherwise. *)
Definition initial (downtrend : bool) (best_bid : float) : float * float :=
  let offset :=
    if downtrend then PrimFloat.mul tick_size (Py.of_int 30)
    else PrimFloat.mul tick_size (Py.of_int 20) in
  (offset, PrimFloat.sub best_bid offset).

(** The chain inside the loop; [offset] comes in with the value it had. *)
Definition reprice (best_bid : float) (adjustment_count : Z) (offset : float)
    : float * float :=
  if (adjustment_count <=? 3)%Z then
    let offset :=
      Py.max (PrimFloat.sub 0.20%float
                (PrimFloat.mul (Py.of_int adjustment_count) 0.05%float)) 0.05%float in
    (offset, PrimFloat.sub best_bid offset)
  else if (adjustment_count <=? 6)%Z then
    let offset := 0.01%float in (offset, PrimFloat.sub best_bid offset)
  else (offset, best_bid).

End BuyPolicy.

(** ** OrderLifecycle of the opening leg: [place_maker_buy_order]
       (volume_bot_maker_only_v3.py lines 303-439)

    The leg reads and extends the trend tracker; [quoted_at] is the clock
    when the fresh quote is recorded. *)

Module BuyLeg.

Import Lifecycle.

(** The code before the loop. [None] is [return False, 0, None, 0]. *)
Definition start (tracker : MarketTrendTracker.t)
    (q : option float * option float) (quoted_at : Z)
    (placement : result Z) (placed_at : Z)
    : result (option leg * MarketTrendTracker.t) :=
  let '(best_bid, best_ask) := q in
  if negb (Py.truthy_opt best_bid) then Ok (None, tracker)
  else
    bid <- Py.number best_bid ;;
    let tracker := MarketTrendTracker.add_price_point tracker quoted_at bid in
    let '(offset, price) :=
      BuyPolicy.initial (MarketTrendTracker.is_downtrend tracker) bid in
    ask <- Py.number best_ask ;;
    let spread := PrimFloat.sub ask bid in
    match placement with
    | Ok id => Ok (Some (mk_leg id price offset 0 placed_at placed_at), tracker)
    | Raise _ => Ok (None, tracker)
    end.

(** The adjusting step: count, cancel, refresh, record, re-price, re-submit.
    The line that prints the fresh quote formats [best_ask] as a number. *)
Definition adjust (tracker : MarketTrendTracker.t) (l : leg) (o : observation)
    (quoted_at : Z) : result (outcome * MarketTrendTracker.t) :=
  let count := (adjustment_count l + 1)%Z in
  let '(best_bid, best_ask) := quote o in
  if negb (Py.truthy_opt best_bid) then
    Ok (Resting (mk_leg (order_id l) (current_price l) (offset l) count
                        (order_start_time l) (last_adjustment l)), tracker)
  else
    bid <- Py.number best_bid ;;
    let tracker := MarketTrendTracker.add_price_point tracker quoted_at bid in
    ask <- Py.number best_ask ;;
    let '(offset', price') := BuyPolicy.reprice bid count (offset l) in
    match placement o with
    | Ok id =>
        Ok (Resting (mk_leg id price' offset' count (order_start_time l) (placed_at o)),
            tracker)
    | Raise _ =>
        Ok (Resting (mk_leg (order_id l) price' offset' count
                            (order_start_time l) (last_adjustment l)), tracker)
    end.

(** One turn of the [while True] loop. *)
Definition turn (tracker : MarketTrendTracker.t) (l : leg) (o : observation)
    (quoted_at : Z) : result (outcome * MarketTrendTracker.t) :=
  let since_last_adj := (now o - last_adjustment l)%Z in
  match order_status o with
  | Ok true => Ok (Filled (current_price l) (order_id l) (adjustment_count l), tracker)
  | _ =>
      if (BuyPolicy.adjustment_interval <=? since_last_adj)%Z
      then adjust tracker l o quoted_at
      else Ok (Resting l, tracker)
  end.

End BuyLeg.

(** ** The [while True] loop of a closing leg, run over the observations of
       its successive turns *)

Module Loop.

Import Lifecycle.

(** The loop stops at the first turn that returns; an exception that a turn
    lets through ends it too. With the observations used up the leg is still
    resting. *)
Fixpoint run (turn : leg -> observation -> result outcome)
    (l : leg) (observations : list observation) : result outcome :=
  match observations with
  | [] => Ok (Resting l)
  | o :: rest =>
      r <- turn l o ;;
      match r with
      | Filled price id adjustments => Ok (Filled price id adjustments)
      | Resting l' => run turn l' rest
      end
  end.

End Loop.

(** ** MarketDirectionTracker (shorter.py lines 29-72) *)

Module MarketDirectionTracker.

Record t : Type := mk {
  price_history : list (Z * float);
  current_direction : String.string;
  last_cycle_pnl : float
}.

(** [__init__] *)
Definition init : t := mk [] "LONG"%string 0.

(** [flip_direction()] *)
Definition flip_direction (self : t) : t :=
  mk (price_history self)
     (if String.eqb (current_direction self) "LONG"%string then "SHORT"%string else "LONG"%string)
     (last_cycle_pnl self).

(** [record_cycle_result(pnl)]; the boolean is the value returned. *)
Definition record_cycle_result (self : t) (pnl : float) : t * bool :=
  let self := mk (price_history self) (current_direction self) pnl in
  if PrimFloat.ltb pnl (-0.50)%float then (flip_direction self, true)
  else (self, false).

End MarketDirectionTracker.

(** ** TradingStats of shorter.py (lines 74-121) *)

Module DirectionalStats.

Record cycle_detail : Type := mk_detail {
  d_direction : String.string;
  d_buy_price : float;
  d_sell_price : float;
  d_quantity : float;
  d_pnl : float;
  d_buy_adjustments : Z;
  d_sell_adjustments : Z;
  d_fees_paid : float;
  d_volume : float
}.

Record t : Type := mk {
  start_time : Z;
  start_balance : float;
  end_balance : float;
  long_cycles : Z;
  short_cycles : Z;
  failed_buys : Z;
  failed_sells : Z;
  total_buy_adjustments : Z;
  total_sell_adjustments : Z;
  total_volume : float;
  total_fees_paid : float;
  profitable_cycles : Z;
  losing_cycles : Z;
  direction_flips : Z;
  cycle_details : list cycle_detail
}.

(** [__init__], when the clock shows [now]. *)
Definition init (now : Z) : t :=
  mk now 0 0 0 0 0 0 0 0 0 0 0 0 0 [].

(** [add_cycle(direction, buy_price, sell_price, quantity, pnl,
               buy_adjustments, sell_adjustments, fees_paid)] *)
Definition add_cycle (self : t) (direction : String.string)
    (buy_price sell_price quantity pnl : float)
    (buy_adjustments sell_adjustments : Z) (fees_paid : float) : t :=
  let volume := PrimFloat.mul (PrimFloat.add buy_price sell_price) quantity in
  let details := cycle_details self ++
    [mk_detail direction buy_price sell_price quantity pnl
       buy_adjustments sell_adjustments fees_paid volume] in
  let is_long := String.eqb direction "LONG"%string in
  mk (start_time self) (start_balance self) (end_balance self)
     (if is_long then (long_cycles self + 1)%Z else long_cycles self)
     (if is_long then short_cycles self else (short_cycles self + 1)%Z)
     (failed_buys self) (failed_sells self)
     (total_buy_adjustments self + buy_adjustments)
     (total_sell_adjustments self + sell_adjustments)
     (PrimFloat.add (total_volume self) volume)
     (PrimFloat.add (total_fees_paid self) fees_paid)
     (if Py.gtb pnl 0%float then (profitable_cycles self + 1)%Z else profitable_cycles self)
     (if Py.gtb pnl 0%float then losing_cycles self else (losing_cycles self + 1)%Z)
     (direction_flips self) details.

End DirectionalStats.

(** ** CycleController

    A leg is a loop over many gateway calls; to its caller it is what it
    returns and what it does to the tracker's price history (the legs call
    [add_price_point] and [is_downtrend] and nothing else on the tracker), or
    an exception it lets through. *)

Module Cycle.

(** [return success, price, order_id, adjustment_count]; the order id is not
    used by the callers. *)
Record leg_result : Type := mk_leg_result {
  success : bool;
  price : float;
  adjustments : Z
}.

Definition history : Type := list (Z * float).

Definition leg_run : Type := history -> result (leg_result * history).

(** What the callers read of [get_account_info()]: the balance, read with
    [float(...)], and the symbols of the open positions. *)
Record account : Type := mk_account {
  balance : float;
  positions : list String.string
}.

(** [any(pos.symbol == symbol for pos in account.positions)] *)
Definition has_position (symbol : String.string) (a : account) : bool :=
  existsb (fun s => String.eqb s symbol) (positions a).

(** The fee check on [get_account_trades().trades], each trade given by its
    fee ([None] for a fee that is missing or empty):
    [fee = float(last_trade.fee) if last_trade.fee else 0] and
    [if fee > 0: fees_paid += fee]. *)
Definition add_last_fee (trades : list (option float)) (fees_paid : float) : float :=
  match trades with
  | [] => fees_paid
  | last_trade :: _ =>
      let fee := match last_trade with Some f => f | None => 0%float end in
      if Py.gtb fee 0%float then PrimFloat.add fees_paid fee else fees_paid
  end.

(** [try: balance_before = float(get_account_info().balance)
     except: balance_before = 0] *)
Definition balance_or_zero (reply : result account) : float :=
  Py.try_except (a <- reply ;; Ok (balance a)) (fun _ => 0%float).

End Cycle.

(** *** [run_trading_cycle] of volume_bot_maker_only_v3.py (lines 641-759) *)

Module CycleV3.

Import Cycle.

(** What the gateway and the two legs answer during one cycle, in the order
    the cycle asks. *)
Record replies : Type := mk_replies {
  account_before : result account;
  buy_leg : leg_run;
  account_after_buy : result account;
  trades_after_buy : result (list (option float));
  sell_leg : float -> leg_run;            (* given [buy_price] *)
  account_after_sell : result account;
  trades_after_sell : result (list (option float))
}.

Definition with_history (tracker : MarketTrendTracker.t) (h : history)
    : MarketTrendTracker.t :=
  MarketTrendTracker.mk h (MarketTrendTracker.consecutive_losses tracker)
    (MarketTrendTracker.last_cooldown_time tracker)
    (MarketTrendTracker.total_cooldowns tracker).

Definition fail_buy (s : TradingStats.t) : TradingStats.t :=
  TradingStats.mk (TradingStats.start_time s) (TradingStats.start_balance s)
    (TradingStats.end_balance s) (TradingStats.completed_cycles s)
    (TradingStats.failed_buys s + 1) (TradingStats.failed_sells s)
    (TradingStats.total_buy_adjustments s) (TradingStats.total_sell_adjustments s)
    (TradingStats.total_volume s) (TradingStats.total_fees_paid s)
    (TradingStats.profitable_cycles s) (TradingStats.losing_cycles s)
    (TradingStats.total_cooldowns s) (TradingStats.cycle_details s).

Definition fail_sell (s : TradingStats.t) : TradingStats.t :=
  TradingStats.mk (TradingStats.start_time s) (TradingStats.start_balance s)
    (TradingStats.end_balance s) (TradingStats.completed_cycles s)
    (TradingStats.failed_buys s) (TradingStats.failed_sells s + 1)
    (TradingStats.total_buy_adjustments s) (TradingStats.total_sell_adjustments s)
    (TradingStats.total_volume s) (TradingStats.total_fees_paid s)
    (TradingStats.profitable_cycles s) (TradingStats.losing_cycles s)
    (TradingStats.total_cooldowns s) (TradingStats.cycle_details s).

(** The [try] block after the buy: [None] when no position is found,
    otherwise the fees seen so far. *)
Definition verify_position (symbol : String.string) (r : replies)
    : result (option float) :=
  a <- account_after_buy r ;;
  if negb (has_position symbol a) then Ok None
  else
    trades <- trades_after_buy r ;;
    Ok (Some (add_last_fee trades 0%float)).

(** The [try] block after the sell: the cycle's P&L, the fees, and the
    tracker after [record_cycle_result]. *)
Definition settle (balance_before fees_paid : float)
    (tracker : MarketTrendTracker.t) (r : replies)
    : result (float * float * MarketTrendTracker.t) :=
  a <- account_after_sell r ;;
  let cycle_pnl := PrimFloat.sub (balance a) balance_before in
  trades <- trades_after_sell r ;;
  let fees_paid := add_last_fee trades fees_paid in
  Ok (cycle_pnl, fees_paid, MarketTrendTracker.record_cycle_result tracker cycle_pnl).

(** [run_trading_cycle(hibachi, symbol, quantity, stats, trend_tracker)]:
    the value returned, with [stats] and [trend_tracker] as it leaves them. *)
Definition run_trading_cycle (symbol : String.string) (quantity : float)
    (stats : TradingStats.t) (tracker : MarketTrendTracker.t) (r : replies)
    : result (bool * TradingStats.t * MarketTrendTracker.t) :=
  let balance_before := balance_or_zero (account_before r) in
  bought <- buy_leg r (MarketTrendTracker.price_history tracker) ;;
  let '(buy, h) := bought in
  let tracker := with_history tracker h in
  if negb (success buy) then Ok (false, fail_buy stats, tracker)
  else
    match verify_position symbol r with
    | Ok None => Ok (false, fail_buy stats, tracker)
    | verified =>
        let fees_paid := match verified with Ok (Some f) => f | _ => 0%float end in
        sold <- sell_leg r (price buy) (MarketTrendTracker.price_history tracker) ;;
        let '(sell, h) := sold in
        let tracker := with_history tracker h in
        if negb (success sell) then Ok (false, fail_sell stats, tracker)
        else
          let '(cycle_pnl, fees_paid, tracker) :=
            Py.try_except (settle balance_before fees_paid tracker r)
                          (fun _ => (0%float, fees_paid, tracker)) in
          Ok (true,
              TradingStats.add_cycle stats true (price buy) (price sell) quantity
                cycle_pnl (adjustments buy) (adjustments sell) fees_paid,
              tracker)
    end.

End CycleV3.

(** *** [run_long_cycle], [run_short_cycle], [run_trading_cycle] and the body
        of the main loop of shorter.py (lines 564-740 and 801-830) *)

Module CycleShorter.

Import Cycle.

Record replies : Type := mk_replies {
  account_before : result account;
  quote : option float * option float;    (* [get_robust_market_prices], short cycle only *)
  buy_leg : leg_run;
  sell_leg : option float -> bool -> leg_run;   (* given [entry_price] and [is_short] *)
  account_verify : result account;
  account_after : result account
}.

Definition with_history (tracker : MarketDirectionTracker.t) (h : history)
    : MarketDirectionTracker.t :=
  MarketDirectionTracker.mk h (MarketDirectionTracker.current_direction tracker)
    (MarketDirectionTracker.last_cycle_pnl tracker).

Definition fail_buy (s : DirectionalStats.t) : DirectionalStats.t :=
  DirectionalStats.mk (DirectionalStats.start_time s) (DirectionalStats.start_balance s)
    (DirectionalStats.end_balance s) (DirectionalStats.long_cycles s)
    (DirectionalStats.short_cycles s)
    (DirectionalStats.failed_buys s + 1) (DirectionalStats.failed_sells s)
    (DirectionalStats.total_buy_adjustments s) (DirectionalStats.total_sell_adjustments s)
    (DirectionalStats.total_volume s) (DirectionalStats.total_fees_paid s)
    (DirectionalStats.profitable_cycles s) (DirectionalStats.losing_cycles s)
    (DirectionalStats.direction_flips s) (DirectionalStats.cycle_details s).

Definition fail_sell (s : DirectionalStats.t) : DirectionalStats.t :=
  DirectionalStats.mk (DirectionalStats.start_time s) (DirectionalStats.start_balance s)
    (DirectionalStats.end_balance s) (DirectionalStats.long_cycles s)
    (DirectionalStats.short_cycles s)
    (DirectionalStats.failed_buys s) (DirectionalStats.failed_sells s + 1)
    (DirectionalStats.total_buy_adjustments s) (DirectionalStats.total_sell_adjustments s)
    (DirectionalStats.total_volume s) (DirectionalStats.total_fees_paid s)
    (DirectionalStats.profitable_cycles s) (DirectionalStats.losing_cycles s)
    (DirectionalStats.direction_flips s) (DirectionalStats.cycle_details s).

Definition count_flip (s : DirectionalStats.t) : DirectionalStats.t :=
  DirectionalStats.mk (DirectionalStats.start_time s) (DirectionalStats.start_balance s)
    (DirectionalStats.end_balance s) (DirectionalStats.long_cycles s)
    (DirectionalStats.short_cycles s)
    (DirectionalStats.failed_buys s) (DirectionalStats.failed_sells s)
    (DirectionalStats.total_buy_adjustments s) (DirectionalStats.total_sell_adjustments s)
    (DirectionalStats.total_volume s) (DirectionalStats.total_fees_paid s)
    (DirectionalStats.profitable_cycles s) (DirectionalStats.losing_cycles s)
    (DirectionalStats.direction_flips s + 1) (DirectionalStats.cycle_details s).

(** The [try] block that looks for the position: [false] when the account
    was read and holds no position in [symbol]; an exception is printed and
    the cycle goes on. *)
Definition position_found (symbol : String.string) (r : replies) : bool :=
  Py.try_except (a <- account_verify r ;; Ok (has_position symbol a))
                (fun _ => true).

(** [try: cycle_pnl = float(get_account_info().balance) - balance_before
     except: cycle_pnl = 0] *)
Definition cycle_pnl (balance_before : float) (r : replies) : float :=
  Py.try_except
    (a <- account_after r ;; Ok (PrimFloat.sub (balance a) balance_before))
    (fun _ => 0%float).

Definition cycle_result : Type :=
  (bool * float * DirectionalStats.t * MarketDirectionTracker.t)%type.

(** [run_long_cycle] *)
Definition run_long_cycle (symbol : String.string) (quantity : float)
    (stats : DirectionalStats.t) (tracker : MarketDirectionTracker.t)
    (r : replies) : result cycle_result :=
  let balance_before := balance_or_zero (account_before r) in
  bought <- buy_leg r (MarketDirectionTracker.price_history tracker) ;;
  let '(buy, h) := bought in
  let tracker := with_history tracker h in
  if negb (success buy) then Ok (false, 0%float, fail_buy stats, tracker)
  else if negb (position_found symbol r) then
    Ok (false, 0%float, fail_buy stats, tracker)
  else
    sold <- sell_leg r (Some (price buy)) false
              (MarketDirectionTracker.price_history tracker) ;;
    let '(sell, h) := sold in
    let tracker := with_history tracker h in
    if negb (success sell) then Ok (false, 0%float, fail_sell stats, tracker)
    else
      let pnl := cycle_pnl balance_before r in
      Ok (true, pnl,
          DirectionalStats.add_cycle stats "LONG"%string (price buy) (price sell)
            quantity pnl (adjustments buy) (adjustments sell) 0%float,
          tracker).

(** [run_short_cycle] *)
Definition run_short_cycle (symbol : String.string) (quantity : float)
    (stats : DirectionalStats.t) (tracker : MarketDirectionTracker.t)
    (r : replies) : result cycle_result :=
  let balance_before := balance_or_zero (account_before r) in
  let '(best_bid, best_ask) := quote r in
  if negb (Py.truthy_opt best_bid) then Ok (false, 0%float, stats, tracker)
  else
    sold <- sell_leg r best_ask true (MarketDirectionTracker.price_history tracker) ;;
    let '(sell, h) := sold in
    let tracker := with_history tracker h in
    if negb (success sell) then Ok (false, 0%float, fail_sell stats, tracker)
    else if negb (position_found symbol r) then Ok (false, 0%float, stats, tracker)
    else
      bought <- buy_leg r (MarketDirectionTracker.price_history tracker) ;;
      let '(buy, h) := bought in
      let tracker := with_history tracker h in
      if negb (success buy) then Ok (false, 0%float, fail_buy stats, tracker)
      else
        let pnl := cycle_pnl balance_before r in
        Ok (true, pnl,
            DirectionalStats.add_cycle stats "SHORT"%string (price buy) (price sell)
              quantity pnl (adjustments buy) (adjustments sell) 0%float,
            tracker).

(** [run_trading_cycle] *)
Definition run_trading_cycle (symbol : String.string) (quantity : float)
    (stats : DirectionalStats.t) (tracker : MarketDirectionTracker.t)
    (r : replies) : result cycle_result :=
  if String.eqb (MarketDirectionTracker.current_direction tracker) "LONG"%string
  then run_long_cycle symbol quantity stats tracker r
  else run_short_cycle symbol quantity stats tracker r.

(** The body of the main loop from the cycle on: run it and, when it
    succeeded, record its result and count a flip. *)
Definition main_loop_body (symbol : String.string) (quantity : float)
    (stats : DirectionalStats.t) (tracker : MarketDirectionTracker.t)
    (r : replies) : result (DirectionalStats.t * MarketDirectionTracker.t) :=
  res <- run_trading_cycle symbol quantity stats tracker r ;;
  let '(success, pnl, stats, tracker) := res in
  if success then
    let '(tracker, flipped) := MarketDirectionTracker.record_cycle_result tracker pnl in
    Ok (if flipped then count_flip stats else stats, tracker)
  else Ok (stats, tracker).

(** A session: the loop body over the replies of its successive cycles. *)
Fixpoint session (symbol : String.string) (quantity : float)
    (stats : DirectionalStats.t) (tracker : MarketDirectionTracker.t)
    (cycles : list replies) : result (DirectionalStats.t * MarketDirectionTracker.t) :=
  match cycles with
  | [] => Ok (stats, tracker)
  | r :: rest =>
      st <- main_loop_body symbol quantity stats tracker r ;;
      session symbol quantity (fst st) (snd st) rest
  end.

End CycleShorter.

(** *** The body of the main loop of volume_bot_maker_only_v3.py
        (lines 823-853) *)

Module SessionV3.

(** One turn of the main loop: the clock at its start and what the cycle
    would be answered. *)
Record iteration : Type := mk_iteration {
  started_at : Z;
  cycle : CycleV3.replies
}.

(** [COOLDOWN_DURATION_MINUTES] *)
Definition cooldown_duration_minutes : Z := 10.

(** [stats.total_cooldowns = trend_tracker.total_cooldowns] *)
Definition set_total_cooldowns (s : TradingStats.t) (n : Z) : TradingStats.t :=
  TradingStats.mk (TradingStats.start_time s) (TradingStats.start_balance s)
    (TradingStats.end_balance s) (TradingStats.completed_cycles s)
    (TradingStats.failed_buys s) (TradingStats.failed_sells s)
    (TradingStats.total_buy_adjustments s) (TradingStats.total_sell_adjustments s)
    (TradingStats.total_volume s) (TradingStats.total_fees_paid s)
    (TradingStats.profitable_cycles s) (TradingStats.losing_cycles s)
    n (TradingStats.cycle_details s).

(** A turn that is not stopped by the balance check: a cooldown when one is
    due, a cycle otherwise. *)
Definition main_loop_body (symbol : String.string) (quantity : float)
    (stats : TradingStats.t) (tracker : MarketTrendTracker.t) (it : iteration)
    : result (TradingStats.t * MarketTrendTracker.t) :=
  if MarketTrendTracker.should_cooldown tracker then
    let tracker :=
      fst (MarketTrendTracker.do_cooldown tracker (started_at it)
             cooldown_duration_minutes) in
    Ok (set_total_cooldowns stats (MarketTrendTracker.total_cooldowns tracker), tracker)
  else
    res <- CycleV3.run_trading_cycle symbol quantity stats tracker (cycle it) ;;
    let '(_, stats, tracker) := res in
    Ok (stats, tracker).

Fixpoint session (symbol : String.string) (quantity : float)
    (stats : TradingStats.t) (tracker : MarketTrendTracker.t)
    (iterations : list iteration)
    : result (TradingStats.t * MarketTrendTracker.t) :=
  match iterations with
  | [] => Ok (stats, tracker)
  | it :: rest =>
      st <- main_loop_body symbol quantity stats tracker it ;;
      session symbol quantity (fst st) (snd st) rest
  end.

End SessionV3.

(** ** Vocabulary of the properties *)

Module Spec.

(** The prices [is_downtrend] looks at: those of the last five recorded
    points. *)
Definition recent_prices (self : MarketTrendTracker.t) : list float :=
  map snd (Py.last_n 5 (MarketTrendTracker.price_history self)).

(** The consecutive pairs (earlier, later) of a list. *)
Definition consecutive_pairs (l : list float) : list (float * float) :=
  combine l (tl l).

Definition strictly_decreasing (p : float * float) : bool :=
  PrimFloat.ltb (snd p) (fst p).

(** How many consecutive pairs are strictly decreasing. *)
Definition decreasing_pairs (l : list float) : nat :=
  length (filter strictly_decreasing (consecutive_pairs l)).

(** The test of the outlier filter's loop: [price] is within [pct] percent
    of the median [m]. *)
Definition within (m pct : float) (price : float) : bool :=
  PrimFloat.leb (PrimFloat.abs (PrimFloat.sub price m))
                (PrimFloat.mul m (PrimFloat.div pct 100%float)).

(** A book with an outlier on the bid side: bids 99.98 x 1, 99.50 x 2,
    80.00 x 5; asks 100.02 x 1, 100.5 x 2. *)
Definition outlier_book : Oracle.orderbook :=
  Oracle.mk_book
    (Oracle.levels [(99.98, 1); (99.50, 2); (80.00, 5)]%float)
    (Oracle.levels [(100.02, 1); (100.5, 2)]%float).

(** A crossed book, three levels a side: every bid is at or above every
    ask. *)
Definition crossed_book : Oracle.orderbook :=
  Oracle.mk_book
    (Oracle.levels [(100.5, 1); (100.25, 1); (100, 1)]%float)
    (Oracle.levels [(99.5, 1); (99.75, 1); (100, 1)]%float).

(** A closing leg at its forced-exit deadline: started at clock 0, priced
    for the 39th time at clock 1187, looked at again at clock 1200, so 1200
    seconds into the leg and 13 seconds after the last price. The order is
    still resting, the book quotes 99.9 / 100, and a new order would be
    accepted. *)
Definition deadline_leg : Lifecycle.leg :=
  Lifecycle.mk_leg 7 100.3 0.3 39 0 1187.

Definition deadline_observation : Lifecycle.observation :=
  Lifecycle.mk_obs 1200 (Ok false) (Some 99.9%float, Some 100%float) (Ok 8%Z) 1201.

(** A book with one bid and no ask, and a book with one ask and no bid. *)
Definition bids_only_book : Oracle.orderbook :=
  Oracle.mk_book (Oracle.levels [(100.5, 1)]%float) [].

Definition asks_only_book : Oracle.orderbook :=
  Oracle.mk_book [] (Oracle.levels [(100.75, 1)]%float).

(** The arguments of one call of [TradingStats.add_cycle]. *)
Record cycle_call : Type := mk_call {
  c_success : bool;
  c_buy_price : float;
  c_sell_price : float;
  c_quantity : float;
  c_pnl : float;
  c_buy_adjustments : Z;
  c_sell_adjustments : Z;
  c_fees_paid : float
}.

Definition apply_call (s : TradingStats.t) (c : cycle_call) : TradingStats.t :=
  TradingStats.add_cycle s (c_success c) (c_buy_price c) (c_sell_price c)
    (c_quantity c) (c_pnl c) (c_buy_adjustments c) (c_sell_adjustments c)
    (c_fees_paid c).

(** A sequence of [add_cycle] calls, first call first. *)
Definition run (s : TradingStats.t) (calls : list cycle_call) : TradingStats.t :=
  fold_left apply_call calls s.

(** [l1] is [l2] with some elements left out, the others in their order. *)
Inductive subsequence {A : Type} : list A -> list A -> Prop :=
| subsequence_nil : subsequence [] []
| subsequence_keep (x : A) (l1 l2 : list A) :
    subsequence l1 l2 -> subsequence (x :: l1) (x :: l2)
| subsequence_drop (x : A) (l1 l2 : list A) :
    subsequence l1 l2 -> subsequence l1 (x :: l2).

(** The sum of a list of integers. *)
Definition total (l : list Z) : Z := fold_right Z.add 0%Z l.

(** The number of calls of a session that report a success. *)
Definition successes (calls : list cycle_call) : Z :=
  Z.of_nat (length (filter c_success calls)).

(** A cycle result that [record_cycle_result] takes for a loss. *)
Definition is_loss (pnl : float) : bool := PrimFloat.ltb pnl (-0.50)%float.

(** [record_cycle_result] of shorter.py over the results of successive
    cycles. *)
Definition record_all (tracker : MarketDirectionTracker.t) (pnls : list float)
    : MarketDirectionTracker.t :=
  fold_left (fun t pnl => fst (MarketDirectionTracker.record_cycle_result t pnl))
            pnls tracker.

(** The arguments of one call of shorter.py's [add_cycle]. *)
Record directional_call : Type := mk_directional_call {
  dc_direction : String.string;
  dc_buy_price : float;
  dc_sell_price : float;
  dc_quantity : float;
  dc_pnl : float;
  dc_buy_adjustments : Z;
  dc_sell_adjustments : Z;
  dc_fees_paid : float
}.

Definition apply_directional_call (s : DirectionalStats.t) (c : directional_call)
    : DirectionalStats.t :=
  DirectionalStats.add_cycle s (dc_direction c) (dc_buy_price c) (dc_sell_price c)
    (dc_quantity c) (dc_pnl c) (dc_buy_adjustments c) (dc_sell_adjustments c)
    (dc_fees_paid c).

Definition run_directional (s : DirectionalStats.t) (calls : list directional_call)
    : DirectionalStats.t :=
  fold_left apply_directional_call calls s.

(** [f] holds at the [n] integers from [z] on. *)
Fixpoint all_from (f : Z -> bool) (z : Z) (n : nat) : bool :=
  match n with
  | O => true
  | S n' => f z && all_from f (z + 1) n'
  end.

(** The offsets the re-pricing chain of the closing leg can take at a given
    adjustment count, one per band, and one tick for the forced exit. *)
Definition sell_offsets (adjustment_count : Z) : list float :=
  let n := Py.of_int adjustment_count in
  [ 0.01%float;
    Py.max (PrimFloat.sub 1.20%float (PrimFloat.mul n 0.15%float)) 0.50%float;
    Py.max (PrimFloat.sub 0.60%float (PrimFloat.mul n 0.10%float)) 0.30%float;
    Py.max (PrimFloat.sub 0.30%float (PrimFloat.mul n 0.05%float)) 0.15%float;
    Py.max (PrimFloat.sub 0.15%float (PrimFloat.mul n 0.03%float)) 0.05%float;
    (if (adjustment_count <=? 3)%Z
     then PrimFloat.sub 0.10%float (PrimFloat.mul n 0.02%float)
     else 0.02%float) ].

(** An offset of at least one tick and at most 1.05. *)
Definition offset_in_range (d : float) : bool :=
  PrimFloat.leb 0.01%float d && PrimFloat.leb d 1.05%float.

(** What one cycle of volume_bot_maker_only_v3.py may do to the counters and
    to the tracker: count a failed buy, count a failed sell, or complete. *)
Definition cycle_effect (stats stats' : TradingStats.t)
    (tracker tracker' : MarketTrendTracker.t) (ok : bool) : Prop :=
  MarketTrendTracker.total_cooldowns tracker' = MarketTrendTracker.total_cooldowns tracker /\
  TradingStats.total_cooldowns stats' = TradingStats.total_cooldowns stats /\
  ((ok = false /\
    MarketTrendTracker.consecutive_losses tracker'
      = MarketTrendTracker.consecutive_losses tracker /\
    TradingStats.failed_buys stats' = (TradingStats.failed_buys stats + 1)%Z /\
    TradingStats.failed_sells stats' = TradingStats.failed_sells stats /\
    TradingStats.completed_cycles stats' = TradingStats.completed_cycles stats /\
    TradingStats.profitable_cycles stats' = TradingStats.profitable_cycles stats /\
    TradingStats.losing_cycles stats' = TradingStats.losing_cycles stats /\
    TradingStats.cycle_details stats' = TradingStats.cycle_details stats) \/
   (ok = false /\
    MarketTrendTracker.consecutive_losses tracker'
      = MarketTrendTracker.consecutive_losses tracker /\
    TradingStats.failed_buys stats' = TradingStats.failed_buys stats /\
    TradingStats.failed_sells stats' = (TradingStats.failed_sells stats + 1)%Z /\
    TradingStats.completed_cycles stats' = TradingStats.completed_cycles stats /\
    TradingStats.profitable_cycles stats' = TradingStats.profitable_cycles stats /\
    TradingStats.losing_cycles stats' = TradingStats.losing_cycles stats /\
    TradingStats.cycle_details stats' = TradingStats.cycle_details stats) \/
   (ok = true /\
    (MarketTrendTracker.consecutive_losses tracker'
       = MarketTrendTracker.consecutive_losses tracker \/
     MarketTrendTracker.consecutive_losses tracker'
       = (MarketTrendTracker.consecutive_losses tracker + 1)%Z \/
     MarketTrendTracker.consecutive_losses tracker' = 0%Z) /\
    TradingStats.failed_buys stats' = TradingStats.failed_buys stats /\
    TradingStats.failed_sells stats' = TradingStats.failed_sells stats /\
    TradingStats.completed_cycles stats' = (TradingStats.completed_cycles stats + 1)%Z /\
    (TradingStats.profitable_cycles stats' + TradingStats.losing_cycles stats'
     = TradingStats.profitable_cycles stats + TradingStats.losing_cycles stats + 1)%Z /\
    length (TradingStats.cycle_details stats')
    = S (length (TradingStats.cycle_details stats)))).

(** A leg that fills at [price] after [adjustments] adjustments, and a leg
    that cannot start; neither records a price. *)
Definition leg_filled (price : float) (adjustments : Z) : Cycle.leg_run :=
  fun h => Ok (Cycle.mk_leg_result true price adjustments, h).

Definition leg_not_started : Cycle.leg_run :=
  fun h => Ok (Cycle.mk_leg_result false 0 0, h).

(** A cycle of volume_bot_maker_only_v3.py that buys at 100 and sells at 101
    with the balance going from 1000 to [closing], no fee charged. *)
Definition cycle_closing_at (closing : float) : CycleV3.replies :=
  CycleV3.mk_replies
    (Ok (Cycle.mk_account 1000 []))
    (leg_filled 100 1)
    (Ok (Cycle.mk_account 960 ["ETH/USDT-P"%string]))
    (Ok [Some 0%float])
    (fun _ => leg_filled 101 2)
    (Ok (Cycle.mk_account closing []))
    (Ok [None]).

(** The same cycle with the opening balance unreadable. *)
Definition cycle_opening_unread (closing : float) : CycleV3.replies :=
  CycleV3.mk_replies
    (Raise GatewayError)
    (leg_filled 100 1)
    (Ok (Cycle.mk_account 960 ["ETH/USDT-P"%string]))
    (Ok [Some 0%float])
    (fun _ => leg_filled 101 2)
    (Ok (Cycle.mk_account closing []))
    (Ok [None]).

(** The same cycle with the closing balance unreadable. *)
Definition cycle_closing_unread : CycleV3.replies :=
  CycleV3.mk_replies
    (Ok (Cycle.mk_account 1000 []))
    (leg_filled 100 1)
    (Ok (Cycle.mk_account 960 ["ETH/USDT-P"%string]))
    (Ok [Some 0%float])
    (fun _ => leg_filled 101 2)
    (Raise GatewayError)
    (Ok [None]).

(** State of a session of volume_bot_maker_only_v3.py after [n] turns of its
    main loop. *)
Definition session_invariant (n : Z) (stats : TradingStats.t)
    (tracker : MarketTrendTracker.t) : Prop :=
  (0 <= MarketTrendTracker.consecutive_losses tracker <= 3)%Z /\
  TradingStats.total_cooldowns stats = MarketTrendTracker.total_cooldowns tracker /\
  (TradingStats.completed_cycles stats
   = TradingStats.profitable_cycles stats + TradingStats.losing_cycles stats)%Z /\
  Z.of_nat (length (TradingStats.cycle_details stats))
  = TradingStats.completed_cycles stats /\
  (TradingStats.completed_cycles stats + TradingStats.failed_buys stats
   + TradingStats.failed_sells stats + TradingStats.total_cooldowns stats = n)%Z.

(** What one cycle of shorter.py may do: nothing it counts as a cycle, or
    one more cycle logged; it never turns the direction, counts a flip or
    records a fee. *)
Definition directional_cycle_effect (stats stats' : DirectionalStats.t)
    (tracker tracker' : MarketDirectionTracker.t) (ok : bool) : Prop :=
  MarketDirectionTracker.current_direction tracker'
    = MarketDirectionTracker.current_direction tracker /\
  DirectionalStats.direction_flips stats' = DirectionalStats.direction_flips stats /\
  (if ok then
     (DirectionalStats.long_cycles stats' + DirectionalStats.short_cycles stats'
      = DirectionalStats.long_cycles stats + DirectionalStats.short_cycles stats + 1)%Z /\
     (DirectionalStats.profitable_cycles stats' + DirectionalStats.losing_cycles stats'
      = DirectionalStats.profitable_cycles stats
        + DirectionalStats.losing_cycles stats + 1)%Z /\
     length (DirectionalStats.cycle_details stats')
     = S (length (DirectionalStats.cycle_details stats)) /\
     DirectionalStats.total_fees_paid stats'
     = PrimFloat.add (DirectionalStats.total_fees_paid stats) 0%float
   else
     DirectionalStats.long_cycles stats' = DirectionalStats.long_cycles stats /\
     DirectionalStats.short_cycles stats' = DirectionalStats.short_cycles stats /\
     DirectionalStats.profitable_cycles stats' = DirectionalStats.profitable_cycles stats /\
     DirectionalStats.losing_cycles stats' = DirectionalStats.losing_cycles stats /\
     DirectionalStats.cycle_details stats' = DirectionalStats.cycle_details stats /\
     DirectionalStats.total_fees_paid stats' = DirectionalStats.total_fees_paid stats).

(** State of a session of shorter.py. *)
Definition directional_invariant (stats : DirectionalStats.t)
    (tracker : MarketDirectionTracker.t) : Prop :=
  MarketDirectionTracker.current_direction tracker
    = (if Z.even (DirectionalStats.direction_flips stats)
       then "LONG"%string else "SHORT"%string) /\
  (0 <= DirectionalStats.direction_flips stats
     <= DirectionalStats.long_cycles stats + DirectionalStats.short_cycles stats)%Z /\
  (DirectionalStats.long_cycles stats + DirectionalStats.short_cycles stats
   = DirectionalStats.profitable_cycles stats + DirectionalStats.losing_cycles stats)%Z /\
  Z.of_nat (length (DirectionalStats.cycle_details stats))
  = (DirectionalStats.long_cycles stats + DirectionalStats.short_cycles stats)%Z /\
  DirectionalStats.total_fees_paid stats = 0%float.

(** A long cycle of shorter.py that buys at 100 and sells at 101 with the
    balance going from 1000 to [closing]; as a short cycle it sells at 101
    and buys back at 100. *)
Definition directional_cycle_closing_at (closing : float) : CycleShorter.replies :=
  CycleShorter.mk_replies
    (Ok (Cycle.mk_account 1000 []))
    (Some 100.9%float, Some 101%float)
    (leg_filled 100 1)
    (fun _ _ => leg_filled 101 2)
    (Ok (Cycle.mk_account 960 ["ETH/USDT-P"%string]))
    (Ok (Cycle.mk_account closing [])).

End Spec.

(** * Properties *)

Import MarketTrendTracker.

(** ** Facts about float comparison *)

Lemma leb_zero_not_gtb (x : float) :
  PrimFloat.leb x 0%float = true -> Py.gtb x 0%float = false.
Proof.
  unfold Py.gtb. rewrite leb_spec, ltb_spec.
  change (Prim2SF 0%float) with (S754_zero false).
  destruct (Prim2SF x) as [s | s | | s m e];
    unfold SFleb, SFltb, SFcompare; try destruct s; simpl; congruence.
Qed.

Lemma float_neq (x y c : float) :
  PrimFloat.eqb x c = true -> PrimFloat.eqb y c = false -> x <> y.
Proof. intros Hx Hy E. subst y. congruence. Qed.

(** ** TrendTracker: loss streak and cooldown *)

Lemma cooldown_wait_reaches_end (now cooldown_end : Z) :
  (cooldown_end <= cooldown_wait now cooldown_end)%Z.
Proof.
  funelim (cooldown_wait now cooldown_end).
  - assumption.
  - lia.
Qed.

(** C5. [record_cycle_result pnl] adds one to the consecutive-loss counter
    exactly when [pnl < -0.50] and sets it to zero otherwise. From a counter
    at zero, the three results -0.60, -0.75, -0.55 make [should_cooldown]
    true; [do_cooldown] then returns (for every duration, and no earlier than
    the end of the pause) with the counter at zero. *)
Theorem record_cycle_result_streak_cooldown :
  (forall (self : MarketTrendTracker.t) (pnl : float),
      consecutive_losses (record_cycle_result self pnl) =
        if PrimFloat.ltb pnl (-0.50)%float
        then (consecutive_losses self + 1)%Z else 0%Z) /\
  (forall (history : list (Z * float)) (last cooldowns now minutes : Z),
      let s0 := MarketTrendTracker.mk history 0 last cooldowns in
      let s3 := record_cycle_result
                  (record_cycle_result (record_cycle_result s0 (-0.60)%float) (-0.75)%float)
                  (-0.55)%float in
      consecutive_losses s3 = 3%Z /\
      should_cooldown s3 = true /\
      consecutive_losses (fst (do_cooldown s3 now minutes)) = 0%Z /\
      should_cooldown (fst (do_cooldown s3 now minutes)) = false /\
      (now + minutes * 60 <= snd (do_cooldown s3 now minutes))%Z).
Proof.
  split.
  - intros self pnl. unfold record_cycle_result.
    destruct (PrimFloat.ltb pnl (-0.50)%float); reflexivity.
  - intros history last cooldowns now minutes s0 s3.
    assert (H3 : consecutive_losses s3 = 3%Z) by reflexivity.
    split; [exact H3 |].
    split; [unfold should_cooldown; rewrite H3; reflexivity |].
    split; [reflexivity |].
    split; [reflexivity |].
    unfold do_cooldown. simpl. apply cooldown_wait_reaches_end.
Qed.

(** ** TradingStats: the cycle counters *)

Lemma add_cycle_counters (s : TradingStats.t) (c : Spec.cycle_call) :
  (TradingStats.completed_cycles s
     = TradingStats.profitable_cycles s + TradingStats.losing_cycles s)%Z ->
  (TradingStats.completed_cycles (Spec.apply_call s c)
     = TradingStats.profitable_cycles (Spec.apply_call s c)
       + TradingStats.losing_cycles (Spec.apply_call s c))%Z.
Proof.
  intros H. unfold Spec.apply_call, TradingStats.add_cycle. simpl.
  destruct (Spec.c_success c); [destruct (Py.gtb (Spec.c_pnl c) 0%float) |]; lia.
Qed.

Lemma run_counters (calls : list Spec.cycle_call) (s : TradingStats.t) :
  (TradingStats.completed_cycles s
     = TradingStats.profitable_cycles s + TradingStats.losing_cycles s)%Z ->
  (TradingStats.completed_cycles (Spec.run s calls)
     = TradingStats.profitable_cycles (Spec.run s calls)
       + TradingStats.losing_cycles (Spec.run s calls))%Z.
Proof.
  revert s. induction calls as [| c calls IH]; intros s H; simpl.
  - exact H.
  - apply IH. apply add_cycle_counters. exact H.
Qed.

(** C9. From a fresh [TradingStats], after any sequence of [add_cycle] calls,
    [completed_cycles = profitable_cycles + losing_cycles]. A call with
    [success = True] adds one to [completed_cycles] and to exactly one of
    [profitable_cycles] (when [pnl > 0]) and [losing_cycles] (otherwise, so in
    particular when [pnl <= 0]); a call with [success = False] changes none of
    the three. *)
Theorem add_cycle_counter_invariant :
  (forall (now : Z) (calls : list Spec.cycle_call),
      let s := Spec.run (TradingStats.init now) calls in
      (TradingStats.completed_cycles s
         = TradingStats.profitable_cycles s + TradingStats.losing_cycles s)%Z) /\
  (forall (s : TradingStats.t) (buy sell qty pnl fees : float) (ba sa : Z),
      let s' := TradingStats.add_cycle s true buy sell qty pnl ba sa fees in
      TradingStats.completed_cycles s' = (TradingStats.completed_cycles s + 1)%Z /\
      (Py.gtb pnl 0%float = true ->
         TradingStats.profitable_cycles s' = (TradingStats.profitable_cycles s + 1)%Z /\
         TradingStats.losing_cycles s' = TradingStats.losing_cycles s) /\
      (Py.gtb pnl 0%float = false ->
         TradingStats.profitable_cycles s' = TradingStats.profitable_cycles s /\
         TradingStats.losing_cycles s' = (TradingStats.losing_cycles s + 1)%Z) /\
      (PrimFloat.leb pnl 0%float = true ->
         TradingStats.profitable_cycles s' = TradingStats.profitable_cycles s /\
         TradingStats.losing_cycles s' = (TradingStats.losing_cycles s + 1)%Z)) /\
  (forall (s : TradingStats.t) (buy sell qty pnl fees : float) (ba sa : Z),
      let s' := TradingStats.add_cycle s false buy sell qty pnl ba sa fees in
      TradingStats.completed_cycles s' = TradingStats.completed_cycles s /\
      TradingStats.profitable_cycles s' = TradingStats.profitable_cycles s /\
      TradingStats.losing_cycles s' = TradingStats.losing_cycles s).
Proof.
  split; [| split].
  - intros now calls s. apply run_counters. reflexivity.
  - intros s buy sell qty pnl fees ba sa s'.
    assert (Hgt : Py.gtb pnl 0%float = true ->
         TradingStats.profitable_cycles s' = (TradingStats.profitable_cycles s + 1)%Z /\
         TradingStats.losing_cycles s' = TradingStats.losing_cycles s).
    { intros H. unfold s', TradingStats.add_cycle. simpl. rewrite H. split; reflexivity. }
    assert (Hng : Py.gtb pnl 0%float = false ->
         TradingStats.profitable_cycles s' = TradingStats.profitable_cycles s /\
         TradingStats.losing_cycles s' = (TradingStats.losing_cycles s + 1)%Z).
    { intros H. unfold s', TradingStats.add_cycle. simpl. rewrite H. split; reflexivity. }
    split; [reflexivity |].
    split; [exact Hgt |].
    split; [exact Hng |].
    intros H. apply Hng. apply leb_zero_not_gtb. exact H.
  - intros s buy sell qty pnl fees ba sa s'. repeat split.
Qed.

(** The invariant and the kinds of call on a session of three calls: a win, a
    failure and a loss. *)
Lemma add_cycle_counter_invariant_witness :
  let win := Spec.mk_call true 100 101 1 1 0 2 0 in
  let failure := Spec.mk_call false 100 0 1 0 1 0 0 in
  let loss := Spec.mk_call true 100 99 1 (-1) 0 3 0 in
  let s := Spec.run (TradingStats.init 0) [win; failure; loss] in
  ((TradingStats.completed_cycles s, TradingStats.profitable_cycles s,
    TradingStats.losing_cycles s) = (2, 1, 1)%Z) /\
  (TradingStats.completed_cycles s
     = TradingStats.profitable_cycles s + TradingStats.losing_cycles s)%Z /\
  (TradingStats.losing_cycles
    (TradingStats.add_cycle (TradingStats.init 0) true 100 99 1 (-1) 0 3 0) = 1%Z).
Proof.
  split; [reflexivity |].
  split.
  - exact (proj1 add_cycle_counter_invariant 0%Z
             [Spec.mk_call true 100 101 1 1 0 2 0;
              Spec.mk_call false 100 0 1 0 1 0 0;
              Spec.mk_call true 100 99 1 (-1) 0 3 0]).
  - exact (proj2 (proj2 (proj2 (proj2 (proj1 (proj2 add_cycle_counter_invariant)
             (TradingStats.init 0) 100%float 99%float 1%float (-1)%float 0%float 0%Z 3%Z)))
             eq_refl)).
Defined.

(** ** TrendTracker: downtrend detection *)

Section Downtrend.

Local Abbreviation later_lower l :=
  (fun i => PrimFloat.ltb (nth i l 0%float) (nth (i - 1) l 0%float)).

(** Counting by index from 2 in [a :: l] is counting by index from 1 in
    [l]. *)
Lemma count_from_two (a : float) (l : list float) (k : nat) :
  length (filter (later_lower (a :: l)) (seq 2 k))
  = length (filter (later_lower l) (seq 1 k)).
Proof.
  rewrite <- (seq_shift k 1), filter_map_swap, length_map.
  f_equal. apply filter_ext_in. intros i Hi.
  apply in_seq in Hi. destruct i as [| i]; [lia |].
  simpl. rewrite Nat.sub_0_r. reflexivity.
Qed.

Lemma filter_cons_length {A : Type} (f : A -> bool) (x : A) (r : list A) :
  length (filter f (x :: r)) = (if f x then 1 else 0) + length (filter f r).
Proof. simpl. destruct (f x); reflexivity. Qed.

(** The index loop of [is_downtrend] counts the strictly decreasing
    consecutive pairs. *)
Lemma downtrend_count_pairs (l : list float) :
  downtrend_count l = Z.of_nat (Spec.decreasing_pairs l).
Proof.
  unfold downtrend_count, Spec.decreasing_pairs. f_equal.
  induction l as [| a [| b l] IH]; try reflexivity.
  change (length (a :: b :: l) - 1) with (S (length l)).
  change (seq 1 (S (length l))) with (1 :: seq 2 (length l)).
  change (Spec.consecutive_pairs (a :: b :: l))
    with ((a, b) :: Spec.consecutive_pairs (b :: l)).
  rewrite !filter_cons_length, count_from_two.
  replace (length l) with (length (b :: l) - 1) at 1 by (simpl; lia).
  rewrite IH. reflexivity.
Qed.

Lemma consecutive_pairs_length (l : list float) :
  length (Spec.consecutive_pairs l) = length l - 1.
Proof.
  unfold Spec.consecutive_pairs. rewrite length_combine.
  destruct l as [| a l]; [reflexivity |]. cbn [tl length]. lia.
Qed.

Lemma filter_all {A : Type} (f : A -> bool) (l : list A) :
  length l <= length (filter f l) <-> Forall (fun x => f x = true) l.
Proof.
  induction l as [| x l IH]; simpl.
  - split; [constructor | lia].
  - pose proof (filter_length_le f l) as Hle.
    destruct (f x) eqn:E; simpl; split; intros H.
    + constructor; [exact E |]. apply IH. lia.
    + inversion H; subst. apply le_n_S. apply IH. assumption.
    + lia.
    + inversion H; subst. congruence.
Qed.

Lemma recent_prices_length (self : MarketTrendTracker.t) :
  length (Spec.recent_prices self) = Nat.min 5 (length (price_history self)).
Proof.
  unfold Spec.recent_prices, Py.last_n.
  rewrite length_map, length_skipn. lia.
Qed.

Lemma is_downtrend_count (self : MarketTrendTracker.t) :
  is_downtrend self = true <->
  3 <= length (Spec.recent_prices self) /\
  length (Spec.recent_prices self) - 1
    <= Spec.decreasing_pairs (Spec.recent_prices self).
Proof.
  pose proof (recent_prices_length self) as Hn.
  unfold is_downtrend. fold (Spec.recent_prices self).
  rewrite downtrend_count_pairs.
  destruct (Z.ltb_spec (Z.of_nat (length (price_history self))) 3) as [H1 | H1].
  - split; [discriminate | lia].
  - destruct (Z.ltb_spec (Z.of_nat (length (Spec.recent_prices self))) 3) as [H2 | H2].
    + split; [discriminate | lia].
    + rewrite Z.leb_le. split; intros H; [split |]; lia.
Qed.

End Downtrend.

(** C6. [is_downtrend] is false when fewer than 3 points are recorded. With
    [n] (at most 5) the number of points among the last 5 recorded, it is
    true exactly when [n >= 3] and at least [n - 1] of the consecutive pairs
    of those points are strictly decreasing, that is, when all of them are.
    It is true for the recorded prices 10, 9, 8, 7, 6. *)
Theorem is_downtrend_spec :
  (forall self : MarketTrendTracker.t,
      length (price_history self) < 3 -> is_downtrend self = false) /\
  (forall self : MarketTrendTracker.t,
      let recent := Spec.recent_prices self in
      let n := length recent in
      n <= 5 /\
      (is_downtrend self = true <-> 3 <= n /\ n - 1 <= Spec.decreasing_pairs recent) /\
      (is_downtrend self = true <->
         3 <= n /\
         Forall (fun p => PrimFloat.ltb (snd p) (fst p) = true)
                (Spec.consecutive_pairs recent))) /\
  (forall (t0 t1 t2 t3 t4 losses last cooldowns : Z),
      is_downtrend
        (MarketTrendTracker.mk
           [(t0, 10%float); (t1, 9%float); (t2, 8%float); (t3, 7%float); (t4, 6%float)]
           losses last cooldowns) = true).
Proof.
  split; [| split].
  - intros self H. unfold is_downtrend.
    destruct (Z.ltb_spec (Z.of_nat (length (price_history self))) 3); [reflexivity | lia].
  - intros self recent n.
    pose proof (recent_prices_length self) as Hn. subst n recent.
    split; [lia |].
    split; [apply is_downtrend_count |].
    rewrite is_downtrend_count.
    set (recent := Spec.recent_prices self).
    unfold Spec.decreasing_pairs.
    rewrite <- (consecutive_pairs_length recent).
    rewrite (filter_all Spec.strictly_decreasing (Spec.consecutive_pairs recent)).
    reflexivity.
  - intros. reflexivity.
Qed.

(** With two recorded points, both falling, there is no downtrend; with the
    last five of six recorded points falling there is one. *)
Lemma is_downtrend_spec_witness :
  is_downtrend (MarketTrendTracker.mk [(0%Z, 10%float); (5%Z, 9%float)] 0 0 0) = false /\
  (is_downtrend
     (MarketTrendTracker.mk
        [(0%Z, 5%float); (1%Z, 10%float); (2%Z, 9%float); (3%Z, 8%float);
         (4%Z, 7%float); (5%Z, 6%float)] 0 0 0) = true <->
   3 <= 5 /\ 5 - 1 <= 4).
Proof.
  split.
  - apply (proj1 is_downtrend_spec
             (MarketTrendTracker.mk [(0%Z, 10%float); (5%Z, 9%float)] 0 0 0)).
    simpl. lia.
  - exact (proj1 (proj2 (proj1 (proj2 is_downtrend_spec)
             (MarketTrendTracker.mk
                [(0%Z, 5%float); (1%Z, 10%float); (2%Z, 9%float); (3%Z, 8%float);
                 (4%Z, 7%float); (5%Z, 6%float)] 0 0 0)))).
Defined.

(** ** PriceOracle: the outlier filter *)

Section OutlierFilter.

Lemma binary_insert_length (run : list float) (pivot : float) :
  length (Py.binary_insert run pivot) = S (length run).
Proof.
  unfold Py.binary_insert.
  rewrite length_app. cbn [length]. rewrite length_firstn, length_skipn. lia.
Qed.

Lemma sorted_length (l : list float) : length (Py.sorted l) = length l.
Proof.
  unfold Py.sorted. destruct (Py.count_run l) as [n descending].
  assert (H : forall rest run,
             length (fold_left Py.binary_insert rest run)
             = length rest + length run).
  { induction rest as [| x rest IH]; intros run; cbn [fold_left length];
      [reflexivity |].
    rewrite IH, binary_insert_length. lia. }
  rewrite H.
  assert (Hrun : length (if descending then rev (firstn n l) else firstn n l)
                 = length (firstn n l))
    by (destruct descending; [apply length_rev | reflexivity]).
  rewrite Hrun, Nat.add_comm, <- length_app, firstn_skipn.
  reflexivity.
Qed.

(** [statistics.median] raises on the empty list only. *)
Lemma median_defined (l : list float) :
  l <> [] -> exists m, Py.median l = Ok m.
Proof.
  intros H. unfold Py.median. rewrite sorted_length.
  destruct l as [| x l]; [contradiction |].
  cbn [length Nat.eqb].
  destruct (Nat.eqb (S (length l) mod 2) 1); eexists; reflexivity.
Qed.

(** The filter, unfolded: short lists come back as they are; longer ones
    are filtered around their median, and the first price is kept when
    nothing else is. *)
Lemma filter_outlier_prices_cases (prices : list float) (pct : float) :
  (length prices <= 2 /\ Oracle.filter_outlier_prices prices pct = Ok prices) \/
  (2 < length prices /\
   exists m, Py.median prices = Ok m /\
     ((filter (Spec.within m pct) prices <> [] /\
       Oracle.filter_outlier_prices prices pct = Ok (filter (Spec.within m pct) prices)) \/
      (filter (Spec.within m pct) prices = [] /\
       Oracle.filter_outlier_prices prices pct = Ok [nth 0 prices 0%float]))).
Proof.
  unfold Oracle.filter_outlier_prices.
  destruct (Nat.leb_spec (length prices) 2) as [Hle | Hgt].
  - left. split; [exact Hle | reflexivity].
  - right. split; [exact Hgt |].
    destruct (median_defined prices) as [m Hm].
    { intros E. subst prices. simpl in Hgt. lia. }
    exists m. split; [exact Hm |].
    rewrite Hm. cbn [Py.bind]. fold (Spec.within m pct).
    destruct (filter (Spec.within m pct) prices) as [| y kept] eqn:E.
    + right. split; reflexivity.
    + left. split; [discriminate | reflexivity].
Qed.

Lemma subsequence_refl {A : Type} (l : list A) : Spec.subsequence l l.
Proof. induction l; constructor; assumption. Qed.

Lemma subsequence_nil_l {A : Type} (l : list A) : Spec.subsequence [] l.
Proof. induction l; constructor; assumption. Qed.

Lemma subsequence_filter {A : Type} (f : A -> bool) (l : list A) :
  Spec.subsequence (filter f l) l.
Proof.
  induction l as [| x l IH]; simpl; [constructor |].
  destruct (f x); constructor; assumption.
Qed.

Lemma subsequence_In {A : Type} (l1 l2 : list A) :
  Spec.subsequence l1 l2 -> forall x, In x l1 -> In x l2.
Proof.
  induction 1 as [| y l1 l2 _ IH | y l1 l2 _ IH]; intros x Hx.
  - exact Hx.
  - destruct Hx as [-> | Hx]; [left; reflexivity | right; apply IH; exact Hx].
  - right. apply IH. exact Hx.
Qed.

(** Whatever the input, the filter returns, and what it returns is a
    subsequence of the input. *)
Lemma filter_outlier_prices_subsequence (prices : list float) (pct : float) :
  exists l, Oracle.filter_outlier_prices prices pct = Ok l /\
            Spec.subsequence l prices.
Proof.
  destruct (filter_outlier_prices_cases prices pct)
    as [[_ E] | [Hgt [m [_ [[_ E] | [_ E]]]]]]; rewrite E; eexists; split;
    try reflexivity.
  - apply subsequence_refl.
  - apply subsequence_filter.
  - destruct prices as [| x prices]; [simpl in Hgt; lia |].
    simpl. constructor. apply subsequence_nil_l.
Qed.

End OutlierFilter.

(** C7. On a non-empty list of prices the outlier filter returns a non-empty
    list: when no price passes the test it returns the first price alone. On
    a list of at most 2 prices it returns the list unchanged. *)
Theorem filter_outlier_prices_nonempty :
  (forall (prices : list float) (pct : float),
      prices <> [] ->
      exists l, Oracle.filter_outlier_prices prices pct = Ok l /\ l <> []) /\
  (forall (prices : list float) (pct : float),
      length prices <= 2 -> Oracle.filter_outlier_prices prices pct = Ok prices) /\
  (forall (prices : list float) (pct m : float),
      2 < length prices ->
      Py.median prices = Ok m ->
      filter (Spec.within m pct) prices = [] ->
      Oracle.filter_outlier_prices prices pct = Ok [nth 0 prices 0%float]).
Proof.
  split; [| split].
  - intros prices pct Hne.
    destruct (filter_outlier_prices_cases prices pct)
      as [[_ E] | [_ [m [_ [[Hk E] | [_ E]]]]]]; rewrite E; eexists; split;
      try reflexivity; try assumption.
    discriminate.
  - intros prices pct Hle.
    destruct (filter_outlier_prices_cases prices pct) as [[_ E] | [Hgt _]];
      [exact E | lia].
  - intros prices pct m Hgt Hm Hk.
    destruct (filter_outlier_prices_cases prices pct)
      as [[Hle _] | [_ [m' [Hm' [[Hk' _] | [_ E]]]]]].
    + lia.
    + rewrite Hm in Hm'. injection Hm' as <-. contradiction.
    + exact E.
Qed.

(** Four prices whose median, 51, is within 2% of none of them: the first
    price comes back alone. Two prices, far apart, come back as they are. *)
Lemma filter_outlier_prices_nonempty_witness :
  (exists l, Oracle.filter_outlier_prices [1; 2; 100; 200]%float 2%float = Ok l /\ l <> []) /\
  Oracle.filter_outlier_prices [99.5; 80]%float 1.5%float = Ok [99.5; 80]%float /\
  Oracle.filter_outlier_prices [1; 2; 100; 200]%float 2%float = Ok [1%float].
Proof.
  split; [| split].
  - apply (proj1 filter_outlier_prices_nonempty [1; 2; 100; 200]%float 2%float).
    discriminate.
  - apply (proj1 (proj2 filter_outlier_prices_nonempty) [99.5; 80]%float 1.5%float).
    simpl. lia.
  - apply (proj2 (proj2 filter_outlier_prices_nonempty)
             [1; 2; 100; 200]%float 2%float 51%float).
    + simpl. lia.
    + reflexivity.
    + reflexivity.
Defined.

(** C10. For every list of prices and every threshold, the outlier filter
    returns a list whose every element is an element of the input, in the
    same relative order as in the input. *)
Theorem filter_outlier_prices_preserves_order :
  forall (prices : list float) (max_deviation_percent : float),
    exists l,
      Oracle.filter_outlier_prices prices max_deviation_percent = Ok l /\
      (forall x, In x l -> In x prices) /\
      Spec.subsequence l prices.
Proof.
  intros prices pct.
  destruct (filter_outlier_prices_subsequence prices pct) as [l [E Hs]].
  exists l. split; [exact E |]. split; [| exact Hs].
  apply subsequence_In. exact Hs.
Qed.

(** ** PriceOracle: [get_robust_market_prices] *)

Section RobustPrices.

Local Ltac run_bind :=
  match goal with
  | |- context [Py.bind ?m _] =>
      destruct m; cbn [Py.bind Py.try_except]
  end.

Lemma robust_empty_bid (book : Oracle.orderbook) (depth : nat) :
  Oracle.bid book = [] ->
  exists best_ask,
    Oracle.get_robust_market_prices (Ok book) depth = Ok (None, best_ask).
Proof.
  intros H. unfold Oracle.get_robust_market_prices, Oracle.robust_body.
  cbn [Py.bind]. rewrite H, firstn_nil. cbn.
  repeat run_bind; eexists; reflexivity.
Qed.

Lemma robust_empty_ask (book : Oracle.orderbook) (depth : nat) :
  Oracle.ask book = [] ->
  exists best_bid,
    Oracle.get_robust_market_prices (Ok book) depth = Ok (best_bid, None).
Proof.
  intros H. unfold Oracle.get_robust_market_prices, Oracle.robust_body.
  cbn [Py.bind]. rewrite H, firstn_nil. cbn.
  repeat run_bind; try (eexists; reflexivity);
    rewrite andb_false_r; eexists; reflexivity.
Qed.

End RobustPrices.

(** What [get_robust_market_prices] does without a reply or without a side
    of the book. It never lets an exception through. When the gateway call
    raises it returns [(None, None)]; when the bid side is empty the bid it
    returns is [None], and the callers take the result for no quote; when the
    ask side is empty the ask it returns is [None], whatever the bid. *)
Lemma get_robust_market_prices_missing_side :
  (forall (reply : Oracle.gateway_reply) (depth : nat),
      exists r, Oracle.get_robust_market_prices reply depth = Ok r) /\
  (forall (e : Py.exn) (depth : nat),
      Oracle.get_robust_market_prices (Raise e) depth = Ok (None, None)) /\
  (forall (book : Oracle.orderbook) (depth : nat),
      Oracle.bid book = [] ->
      exists best_ask,
        Oracle.get_robust_market_prices (Ok book) depth = Ok (None, best_ask)) /\
  (forall (book : Oracle.orderbook) (depth : nat),
      Oracle.ask book = [] ->
      exists best_bid,
        Oracle.get_robust_market_prices (Ok book) depth = Ok (best_bid, None)) /\
  (forall (reply : Oracle.gateway_reply) (depth : nat),
      (match reply with
       | Raise _ => True
       | Ok book => Oracle.bid book = []
       end) ->
      exists r, Oracle.get_robust_market_prices reply depth = Ok r /\
                Oracle.unavailable r = true).
Proof.
  split; [| split; [| split; [| split]]].
  - intros reply depth. eexists. reflexivity.
  - intros e depth. reflexivity.
  - apply robust_empty_bid.
  - apply robust_empty_ask.
  - intros [book | e] depth H.
    + destruct (robust_empty_bid book depth H) as [a E].
      exists (None, a). split; [exact E | reflexivity].
    + exists (None, None). split; reflexivity.
Qed.

(** C8, on the code as it is. On a book with a bid and no ask
    [get_robust_market_prices] returns the bid with [None] for the ask: the
    callers, which test the bid alone, take it for a quote, and the opening
    leg and the closing leg raise [TypeError] on it. On a book with an ask
    and no bid the bid returned is [None], and the callers take the result
    for no quote. *)
Theorem get_robust_market_prices_no_asks :
  Oracle.ask Spec.bids_only_book = [] /\
  Oracle.get_robust_market_prices (Ok Spec.bids_only_book) Oracle.default_depth
    = Ok (Some 100.5%float, None) /\
  Oracle.unavailable (Some 100.5%float, None) = false /\
  (forall tracker quoted_at placement placed_at,
      BuyLeg.start tracker (Some 100.5%float, None) quoted_at placement placed_at
      = Raise TypeError) /\
  (forall quantity buy_price placement placed_at,
      Lifecycle.start (Lifecycle.V3.potential_pnl buy_price quantity) buy_price
        (Some 100.5%float, None) placement placed_at = Raise TypeError) /\
  Oracle.bid Spec.asks_only_book = [] /\
  Oracle.get_robust_market_prices (Ok Spec.asks_only_book) Oracle.default_depth
    = Ok (None, Some 100.75%float) /\
  Oracle.unavailable (None, Some 100.75%float) = true.
Proof. repeat split. Qed.

(** C1, on the code as it is. On a crossed book with three levels a side the
    first pair is inverted, the weighted pair is inverted too, and the pair
    of medians that is returned is not checked: the bid returned, 100.25, is
    above the ask returned, 99.75. *)
Theorem get_robust_market_prices_crossed_book :
  Oracle.get_robust_market_prices (Ok Spec.crossed_book) Oracle.default_depth
    = Ok (Some 100.25%float, Some 99.75%float) /\
  length (Oracle.bid Spec.crossed_book) = 3 /\
  length (Oracle.ask Spec.crossed_book) = 3 /\
  Oracle.unavailable (Some 100.25%float, Some 99.75%float) = false /\
  PrimFloat.ltb 100.25%float 99.75%float = false /\
  Py.geb 100.25%float 99.75%float = true.
Proof. repeat split. Qed.

(** C3, on the code as it is. The outlier filter is applied to the two bid
    levels below the best, which is too short a list for it to drop anything,
    and its result is not used: the weighted bid is taken over the three raw
    levels, 80.00 included. It is 87.3725, more than 1% away from the best
    bid 99.98, so it replaces it: the pair returned is (87.3725, 100.02). *)
Theorem get_robust_market_prices_outlier_book :
  Oracle.filter_outlier_prices [99.50; 80.00]%float 1.5%float
    = Ok [99.50; 80.00]%float /\
  Oracle.weighted_price [99.98; 99.50; 80.00]%float [1; 2; 5]%float (Some 99.98%float)
    = Ok (Some 87.3725%float) /\
  Oracle.get_robust_market_prices (Ok Spec.outlier_book) Oracle.default_depth
    = Ok (Some 87.3725%float, Some 100.02%float) /\
  PrimFloat.ltb 87.3725%float 99%float = true /\
  PrimFloat.ltb 87.3725%float 100.02%float = true.
Proof. repeat split. Qed.

(** ** PricingPolicy: the closing leg *)

Section ClosingPolicy.

(** First order of the leg, highest band. *)
Lemma initial_highest_band (best_ask entry_price potential_pnl : float) :
  Py.geb potential_pnl 3.0%float = true ->
  SellPolicy.initial best_ask entry_price potential_pnl
  = (1.50%float, PrimFloat.add best_ask 1.50%float).
Proof. intros H. unfold SellPolicy.initial. rewrite H. reflexivity. Qed.

(** A re-price before the deadline, highest band. *)
Lemma reprice_highest_band (elapsed : Z) (best_ask potential_pnl : float)
    (adjustment_count : Z) (offset : float) :
  (elapsed < SellPolicy.max_wait_time)%Z ->
  Py.geb potential_pnl 3.0%float = true ->
  SellPolicy.reprice elapsed best_ask potential_pnl adjustment_count offset
  = (Py.max (PrimFloat.sub 1.20%float
               (PrimFloat.mul (Py.of_int adjustment_count) 0.15%float)) 0.50%float,
     PrimFloat.add best_ask
       (Py.max (PrimFloat.sub 1.20%float
                  (PrimFloat.mul (Py.of_int adjustment_count) 0.15%float)) 0.50%float)).
Proof.
  intros He H. unfold SellPolicy.reprice.
  destruct (Z.leb_spec SellPolicy.max_wait_time elapsed); [lia |].
  rewrite H. reflexivity.
Qed.

(** A re-price at or after the deadline: one tick above the best ask,
    whatever the potential P&L. *)
Lemma reprice_forced_exit (elapsed : Z) (best_ask potential_pnl : float)
    (adjustment_count : Z) (offset : float) :
  (SellPolicy.max_wait_time <= elapsed)%Z ->
  SellPolicy.reprice elapsed best_ask potential_pnl adjustment_count offset
  = (offset, PrimFloat.add best_ask 0.01%float).
Proof.
  intros He. unfold SellPolicy.reprice.
  destruct (Z.leb_spec SellPolicy.max_wait_time elapsed); [reflexivity | lia].
Qed.

End ClosingPolicy.

(** C2, as the code has it. In the highest band (potential P&L >= 3.00, for
    instance 3.5) the first order of a closing leg, placed with
    [adjustment_count = 0], is priced 1.50 above the best ask. A re-price
    before the forced-exit deadline takes the offset
    [max(1.20 - adjustment_count * 0.15, 0.50)], which is 0.75 at
    [adjustment_count = 3]. *)
Theorem sell_offset_highest_band :
  Py.geb 3.5%float 3.0%float = true /\
  (forall best_ask entry_price potential_pnl : float,
      Py.geb potential_pnl 3.0%float = true ->
      SellPolicy.initial best_ask entry_price potential_pnl
      = (1.50%float, PrimFloat.add best_ask 1.50%float)) /\
  (forall (elapsed : Z) (best_ask potential_pnl : float) (adjustment_count : Z)
          (offset : float),
      (elapsed < SellPolicy.max_wait_time)%Z ->
      Py.geb potential_pnl 3.0%float = true ->
      SellPolicy.reprice elapsed best_ask potential_pnl adjustment_count offset
      = (Py.max (PrimFloat.sub 1.20%float
                   (PrimFloat.mul (Py.of_int adjustment_count) 0.15%float)) 0.50%float,
         PrimFloat.add best_ask
           (Py.max (PrimFloat.sub 1.20%float
                      (PrimFloat.mul (Py.of_int adjustment_count) 0.15%float))
                   0.50%float))) /\
  (forall (elapsed : Z) (best_ask potential_pnl offset : float),
      (elapsed < SellPolicy.max_wait_time)%Z ->
      Py.geb potential_pnl 3.0%float = true ->
      SellPolicy.reprice elapsed best_ask potential_pnl 3 offset
      = (0.75%float, PrimFloat.add best_ask 0.75%float)).
Proof.
  split; [reflexivity |]. split; [| split].
  - exact initial_highest_band.
  - exact reprice_highest_band.
  - intros elapsed best_ask potential_pnl offset He Hp.
    rewrite (reprice_highest_band _ _ _ _ _ He Hp). reflexivity.
Qed.

(** With a potential P&L of 3.5 and the best ask at 100: the first order at
    101.5, the third re-price, 95 seconds in, at 100.75. *)
Lemma sell_offset_highest_band_witness :
  SellPolicy.initial 100%float 99%float 3.5%float = (1.50%float, 101.5%float) /\
  SellPolicy.reprice 95 100%float 3.5%float 3 1.50%float
  = (0.75%float, 100.75%float).
Proof.
  split.
  - exact (proj1 (proj2 sell_offset_highest_band) 100%float 99%float 3.5%float eq_refl).
  - exact (proj2 (proj2 (proj2 sell_offset_highest_band)) 95%Z 100%float 3.5%float
             1.50%float eq_refl eq_refl).
Defined.

(** C2, as the claim has it, fails: at [adjustment_count = 3] the offset of
    the highest band is 0.75, which is neither 1.05 nor
    [max(1.50 - 3 * 0.15, 0.50)]. *)
Lemma sell_offset_at_three_is_not_1_05 :
  fst (SellPolicy.reprice 95 100%float 3.5%float 3 1.50%float) = 0.75%float /\
  fst (SellPolicy.reprice 95 100%float 3.5%float 3 1.50%float) <> 1.05%float /\
  fst (SellPolicy.reprice 95 100%float 3.5%float 3 1.50%float)
    <> Py.max (PrimFloat.sub 1.50%float (PrimFloat.mul (Py.of_int 3) 0.15%float)) 0.50%float.
Proof.
  split; [reflexivity |].
  split; apply (float_neq _ _ 0.75%float); reflexivity.
Qed.

(** ** OrderLifecycle: the forced exit of a closing leg *)

Section ForcedExit.

Import Lifecycle.

Variables (quantity entry_price : float).
Variables (l : leg) (o : observation).
Variables (best_bid best_ask : float).

Hypothesis not_filled : order_status o <> Ok true.
Hypothesis quoted : quote o = (Some best_bid, Some best_ask).
Hypothesis bid_true : Py.truthy best_bid = true.
Hypothesis deadline : (SellPolicy.max_wait_time <= now o - order_start_time l)%Z.

(** Once the adjusting step runs at or after the deadline, the order is
    priced one tick above the best ask, whatever the formula of the
    potential P&L gives. *)
Lemma adjust_forced_exit
    (pnl_of : option float -> option float -> result float) (pnl : float) :
  pnl_of (Some best_bid) (Some best_ask) = Ok pnl ->
  exists l',
    adjust pnl_of l o (now o - order_start_time l) = Ok (Resting l') /\
    current_price l' = PrimFloat.add best_ask 0.01%float /\
    adjustment_count l' = (adjustment_count l + 1)%Z.
Proof.
  intros Hp. unfold adjust. rewrite quoted. cbn [Py.truthy_opt].
  rewrite bid_true. cbn [negb]. rewrite Hp. cbn [Py.bind Py.number].
  rewrite (reprice_forced_exit _ _ _ _ _ deadline).
  destruct (placement o); eexists; repeat split.
Qed.

(** volume_bot_maker_only_v3.py: the step runs when the last price is at
    least 30 seconds old. *)
Lemma v3_forced_exit :
  (SellPolicy.adjustment_interval <= now o - last_adjustment l)%Z ->
  exists l',
    V3.place_maker_sell_order_turn quantity entry_price l o = Ok (Resting l') /\
    current_price l' = PrimFloat.add best_ask 0.01%float.
Proof.
  intros Hdue.
  destruct (adjust_forced_exit (V3.potential_pnl entry_price quantity)
              (PrimFloat.mul (PrimFloat.sub best_ask entry_price) quantity) eq_refl)
    as [l' [E [Hp _]]].
  exists l'. split; [| exact Hp].
  unfold V3.place_maker_sell_order_turn, turn, V3.adjust_due.
  apply Z.leb_le in Hdue. rewrite Hdue.
  destruct (order_status o) as [[|] | e]; [contradiction | exact E | exact E].
Qed.

(** shorter.py: the step runs at the deadline, however old the last price. *)
Lemma shorter_forced_exit (is_short : bool) :
  exists l',
    Shorter.place_maker_sell_order_turn quantity entry_price is_short l o
      = Ok (Resting l') /\
    current_price l' = PrimFloat.add best_ask 0.01%float.
Proof.
  destruct (adjust_forced_exit (Shorter.potential_pnl is_short entry_price quantity)
              (if is_short
               then PrimFloat.mul (PrimFloat.sub entry_price best_bid) quantity
               else PrimFloat.mul (PrimFloat.sub best_ask entry_price) quantity))
    as [l' [E [Hp _]]].
  { destruct is_short; reflexivity. }
  exists l'. split; [| exact Hp].
  unfold Shorter.place_maker_sell_order_turn, turn, Shorter.adjust_due.
  pose proof deadline as Hd. apply Z.leb_le in Hd. rewrite Hd, orb_true_r.
  destruct (order_status o) as [[|] | e]; [contradiction | exact E | exact E].
Qed.

End ForcedExit.

(** C4, on the code as it is. A closing leg is looked at 1200 seconds after
    its start and 13 seconds after its last price. In shorter.py the deadline
    alone triggers the adjusting step, and the order is priced again at best
    ask + 0.01. In volume_bot_maker_only_v3.py the trigger is the 30-second
    interval alone: the turn leaves the order as it is, at its band price. *)
Theorem forced_exit_trigger_at_deadline :
  let l := Spec.deadline_leg in
  let o := Spec.deadline_observation in
  (Lifecycle.now o - Lifecycle.order_start_time l = 1200)%Z /\
  (Lifecycle.now o - Lifecycle.last_adjustment l = 13)%Z /\
  Lifecycle.V3.adjust_due 1200 13 = false /\
  Lifecycle.Shorter.adjust_due 1200 13 = true /\
  Lifecycle.V3.place_maker_sell_order_turn 0.4%float 95%float l o
    = Ok (Lifecycle.Resting l) /\
  Lifecycle.Shorter.place_maker_sell_order_turn 0.4%float 95%float false l o
    = Ok (Lifecycle.Resting
            (Lifecycle.mk_leg 8 (PrimFloat.add 100%float 0.01%float) 0.3%float 40 0 1201)).
Proof. repeat split. Qed.

(** * Further properties *)

(** ** TrendTracker: the price history *)

Section PriceHistory.

Local Abbreviation in_window now :=
  (fun tp : Z * float => ((now - 1800)%Z <? fst tp)%Z).

(** Recording a point after points that are all inside the window keeps
    them all, in their order, with the new point last. *)
Lemma add_price_point_app (self : MarketTrendTracker.t)
    (older recent : list (Z * float)) (now : Z) (price : float) :
  price_history self = older ++ recent ->
  Forall (fun tp => (now - 1800 < fst tp)%Z) recent ->
  price_history (add_price_point self now price)
  = filter (in_window now) older ++ recent ++ [(now, price)].
Proof.
  intros E Hin. unfold add_price_point. cbn [price_history].
  rewrite E, <- app_assoc, filter_app, filter_app.
  f_equal. f_equal.
  - clear E. induction Hin as [| tp recent Htp _ IH]; [reflexivity |].
    apply Z.ltb_lt in Htp. cbn [filter]. cbv beta. rewrite Htp, IH. reflexivity.
  - cbn [filter fst]. cbv beta. cbn [fst].
    destruct (Z.ltb_spec (now - 1800) now); [reflexivity | lia].
Qed.

Lemma last_n_app {A : Type} (older recent : list A) :
  Py.last_n (length recent) (older ++ recent) = recent.
Proof.
  unfold Py.last_n. rewrite length_app.
  replace (length older + length recent - length recent) with (length older) by lia.
  rewrite skipn_app, skipn_all, Nat.sub_diag. reflexivity.
Qed.

End PriceHistory.

(** X1. [add_price_point] leaves a history whose every point is less than
    1800 seconds old; the point just recorded is its last one, and the points
    before it are points of the old history, in their old order. The loss
    counter and the cooldown fields are not touched. *)
Theorem add_price_point_window :
  forall (self : MarketTrendTracker.t) (now : Z) (price : float),
    let self' := add_price_point self now price in
    Forall (fun tp => (now - 1800 < fst tp)%Z) (price_history self') /\
    (exists kept,
        price_history self' = kept ++ [(now, price)] /\
        Spec.subsequence kept (price_history self)) /\
    consecutive_losses self' = consecutive_losses self /\
    last_cooldown_time self' = last_cooldown_time self /\
    MarketTrendTracker.total_cooldowns self' = MarketTrendTracker.total_cooldowns self.
Proof.
  intros self now price self'. split; [| split; [| repeat split]].
  - unfold self', add_price_point. cbn [price_history].
    apply Forall_forall. intros tp Hin. apply filter_In in Hin.
    destruct Hin as [_ H]. apply Z.ltb_lt in H. exact H.
  - exists (filter (fun tp => ((now - 1800)%Z <? fst tp)%Z) (price_history self)).
    split; [| apply subsequence_filter].
    unfold self'.
    rewrite (add_price_point_app self (price_history self) [] now price).
    + reflexivity.
    + rewrite app_nil_r. reflexivity.
    + constructor.
Qed.

(** X2. Five quotes recorded one after the other within half an hour, each
    strictly lower than the one before, make [is_downtrend] true, whatever
    the history held before. *)
Theorem five_falling_quotes_downtrend :
  forall (self : MarketTrendTracker.t) (t1 t2 t3 t4 t5 : Z) (p1 p2 p3 p4 p5 : float),
    (t1 <= t2 <= t3)%Z -> (t3 <= t4 <= t5)%Z -> (t5 - 1800 < t1)%Z ->
    PrimFloat.ltb p2 p1 = true -> PrimFloat.ltb p3 p2 = true ->
    PrimFloat.ltb p4 p3 = true -> PrimFloat.ltb p5 p4 = true ->
    is_downtrend
      (add_price_point
         (add_price_point
            (add_price_point
               (add_price_point (add_price_point self t1 p1) t2 p2) t3 p3) t4 p4)
         t5 p5) = true.
Proof.
  intros self t1 t2 t3 t4 t5 p1 p2 p3 p4 p5 H12 H45 Hw L2 L3 L4 L5.
  set (s1 := add_price_point self t1 p1).
  pose proof (add_price_point_app self (price_history self) [] t1 p1
                (eq_sym (app_nil_r _)) (Forall_nil _)) as E1.
  fold s1 in E1. cbn [app] in E1.
  set (s2 := add_price_point s1 t2 p2).
  pose proof (add_price_point_app s1 _ [(t1, p1)] t2 p2 E1) as E2.
  fold s2 in E2. cbn [app] in E2.
  specialize (E2 ltac:(repeat constructor; cbn [fst]; lia)).
  set (s3 := add_price_point s2 t3 p3).
  pose proof (add_price_point_app s2 _ [(t1, p1); (t2, p2)] t3 p3 E2) as E3.
  fold s3 in E3. cbn [app] in E3.
  specialize (E3 ltac:(repeat constructor; cbn [fst]; lia)).
  set (s4 := add_price_point s3 t4 p4).
  pose proof (add_price_point_app s3 _ [(t1, p1); (t2, p2); (t3, p3)] t4 p4 E3) as E4.
  fold s4 in E4. cbn [app] in E4.
  specialize (E4 ltac:(repeat constructor; cbn [fst]; lia)).
  set (s5 := add_price_point s4 t5 p5).
  pose proof (add_price_point_app s4 _ [(t1, p1); (t2, p2); (t3, p3); (t4, p4)] t5 p5 E4) as E5.
  fold s5 in E5. cbn [app] in E5.
  specialize (E5 ltac:(repeat constructor; cbn [fst]; lia)).
  apply is_downtrend_count. unfold Spec.recent_prices. rewrite E5.
  match goal with
  | |- context [Py.last_n 5 (?older ++ ?recent)] =>
      pose proof (last_n_app older recent) as HL
  end.
  cbn [length] in HL. rewrite !HL.
  unfold Spec.decreasing_pairs, Spec.consecutive_pairs, Spec.strictly_decreasing.
  cbn [map snd tl combine filter fst length].
  rewrite L2, L3, L4, L5. cbn [length]. lia.
Qed.

(** Five quotes five seconds apart, falling from 10 to 6, after an older
    rise. *)
Lemma five_falling_quotes_downtrend_witness :
  is_downtrend
    (add_price_point
       (add_price_point
          (add_price_point
             (add_price_point
                (add_price_point
                   (MarketTrendTracker.mk [(0%Z, 5%float); (5%Z, 12%float)] 0 0 0)
                   10 10%float) 15 9%float) 20 8%float) 25 7%float)
       30 6%float) = true.
Proof.
  apply five_falling_quotes_downtrend; try reflexivity; lia.
Defined.

(** ** TrendTracker: the cooldown *)

Lemma cooldown_wait_steps (now cooldown_end : Z) :
  (exists k, 0 <= k /\ cooldown_end = now + 10 * k)%Z ->
  cooldown_wait now cooldown_end = cooldown_end.
Proof.
  funelim (cooldown_wait now cooldown_end); intros [k [Hk E]].
  - apply H. exists (k - 1)%Z. lia.
  - lia.
Qed.

Lemma cooldown_wait_past (now cooldown_end : Z) :
  (cooldown_end <= now)%Z -> cooldown_wait now cooldown_end = now.
Proof.
  funelim (cooldown_wait now cooldown_end); intros Hle; [lia | reflexivity].
Qed.

(** X3. A cooldown of [duration_minutes >= 0] minutes, on a clock that only
    [time.sleep] moves, ends exactly [60 * duration_minutes] seconds after it
    began (a negative duration ends at once). It adds one to
    [total_cooldowns], stamps [last_cooldown_time] with the clock at its
    start, and keeps the price history. *)
Theorem do_cooldown_duration :
  forall (self : MarketTrendTracker.t) (now duration_minutes : Z),
    snd (do_cooldown self now duration_minutes)
      = (now + 60 * Z.max 0 duration_minutes)%Z /\
    MarketTrendTracker.total_cooldowns (fst (do_cooldown self now duration_minutes))
      = (MarketTrendTracker.total_cooldowns self + 1)%Z /\
    last_cooldown_time (fst (do_cooldown self now duration_minutes)) = now /\
    price_history (fst (do_cooldown self now duration_minutes)) = price_history self.
Proof.
  intros self now d. split; [| repeat split].
  unfold do_cooldown. cbn [snd].
  destruct (Z.le_gt_cases 0 d) as [Hd | Hd].
  - rewrite cooldown_wait_steps; [lia |]. exists (6 * d)%Z. lia.
  - rewrite cooldown_wait_past; lia.
Qed.

(** ** TradingStats: what a session adds up *)

Section StatsTotals.

Lemma run_app (s : TradingStats.t) (calls : list Spec.cycle_call) (c : Spec.cycle_call) :
  Spec.run s (calls ++ [c]) = Spec.apply_call (Spec.run s calls) c.
Proof. unfold Spec.run. rewrite fold_left_app. reflexivity. Qed.

Lemma successes_app (calls : list Spec.cycle_call) (c : Spec.cycle_call) :
  Spec.successes (calls ++ [c])
  = (Spec.successes calls + if Spec.c_success c then 1 else 0)%Z.
Proof.
  unfold Spec.successes. rewrite filter_app, length_app. cbn [filter].
  destruct (Spec.c_success c); cbn [length]; lia.
Qed.

Lemma total_app (l : list Z) (x : Z) : Spec.total (l ++ [x]) = (Spec.total l + x)%Z.
Proof.
  unfold Spec.total. induction l as [| y l IH]; cbn [app fold_right]; [lia |].
  rewrite IH. lia.
Qed.

End StatsTotals.

(** X4. After any sequence of [add_cycle] calls on a fresh [TradingStats],
    [cycle_details] has one entry per call, failed ones included;
    [completed_cycles] is the number of calls with [success = True]; and the
    two adjustment totals are the sums over all the calls, failed ones
    included. *)
Theorem add_cycle_totals :
  forall (now : Z) (calls : list Spec.cycle_call),
    let s := Spec.run (TradingStats.init now) calls in
    length (TradingStats.cycle_details s) = length calls /\
    TradingStats.completed_cycles s = Spec.successes calls /\
    TradingStats.total_buy_adjustments s
      = Spec.total (map Spec.c_buy_adjustments calls) /\
    TradingStats.total_sell_adjustments s
      = Spec.total (map Spec.c_sell_adjustments calls).
Proof.
  intros now calls. cbv zeta.
  induction calls as [| c calls IH] using rev_ind.
  - repeat split.
  - destruct IH as [Hd [Hc [Hb Hs]]].
    rewrite run_app, successes_app, !map_app, length_app.
    cbn [map length]. rewrite !total_app.
    unfold Spec.apply_call at 1 2 3 4. unfold TradingStats.add_cycle.
    cbn [TradingStats.cycle_details TradingStats.completed_cycles
         TradingStats.total_buy_adjustments TradingStats.total_sell_adjustments].
    rewrite length_app, Hd, Hc, Hb, Hs. cbn [length].
    destruct (Spec.c_success c); repeat split; lia.
Qed.

(** ** shorter.py: direction and statistics *)

Section Direction.

Import MarketDirectionTracker.

Lemma record_all_app (tracker : MarketDirectionTracker.t) (pnls : list float) (pnl : float) :
  Spec.record_all tracker (pnls ++ [pnl])
  = fst (record_cycle_result (Spec.record_all tracker pnls) pnl).
Proof. unfold Spec.record_all. rewrite fold_left_app. reflexivity. Qed.

End Direction.

(** X5. Starting from a fresh tracker (direction "LONG"), after the results
    of any number of cycles the direction is "LONG" when an even number of
    them were losses ([pnl < -0.50]) and "SHORT" when an odd number were. *)
Theorem direction_parity :
  forall pnls : list float,
    MarketDirectionTracker.current_direction
      (Spec.record_all MarketDirectionTracker.init pnls)
    = if Nat.even (length (filter Spec.is_loss pnls))
      then "LONG"%string else "SHORT"%string.
Proof.
  induction pnls as [| pnl pnls IH] using rev_ind; [reflexivity |].
  rewrite record_all_app, filter_app, length_app. cbn [filter].
  unfold MarketDirectionTracker.record_cycle_result. unfold Spec.is_loss at 2.
  destruct (PrimFloat.ltb pnl (-0.50)%float); cbn [fst length].
  - unfold MarketDirectionTracker.flip_direction.
    cbn [MarketDirectionTracker.current_direction]. rewrite IH.
    rewrite Nat.add_1_r, Nat.even_succ, <- Nat.negb_even.
    destruct (Nat.even (length (filter Spec.is_loss pnls))); reflexivity.
  - cbn [MarketDirectionTracker.current_direction]. rewrite IH, Nat.add_0_r.
    reflexivity.
Qed.

Section DirectionalTotals.

Lemma run_directional_app (s : DirectionalStats.t)
    (calls : list Spec.directional_call) (c : Spec.directional_call) :
  Spec.run_directional s (calls ++ [c])
  = Spec.apply_directional_call (Spec.run_directional s calls) c.
Proof. unfold Spec.run_directional. rewrite fold_left_app. reflexivity. Qed.

(** What one [add_cycle] of shorter.py does to the counters. *)
Lemma directional_add_cycle_counters (s : DirectionalStats.t)
    (direction : String.string) (buy sell qty pnl fees : float) (ba sa : Z) :
  let s' := DirectionalStats.add_cycle s direction buy sell qty pnl ba sa fees in
  (DirectionalStats.long_cycles s' + DirectionalStats.short_cycles s'
   = DirectionalStats.long_cycles s + DirectionalStats.short_cycles s + 1)%Z /\
  (DirectionalStats.profitable_cycles s' + DirectionalStats.losing_cycles s'
   = DirectionalStats.profitable_cycles s + DirectionalStats.losing_cycles s + 1)%Z /\
  length (DirectionalStats.cycle_details s')
  = S (length (DirectionalStats.cycle_details s)) /\
  DirectionalStats.direction_flips s' = DirectionalStats.direction_flips s /\
  DirectionalStats.failed_buys s' = DirectionalStats.failed_buys s /\
  DirectionalStats.failed_sells s' = DirectionalStats.failed_sells s /\
  DirectionalStats.total_fees_paid s'
  = PrimFloat.add (DirectionalStats.total_fees_paid s) fees.
Proof.
  cbv zeta. unfold DirectionalStats.add_cycle.
  cbn [DirectionalStats.long_cycles DirectionalStats.short_cycles
       DirectionalStats.profitable_cycles DirectionalStats.losing_cycles
       DirectionalStats.cycle_details DirectionalStats.direction_flips
       DirectionalStats.failed_buys DirectionalStats.failed_sells
       DirectionalStats.total_fees_paid].
  rewrite length_app. cbn [length].
  destruct (String.eqb direction "LONG"), (Py.gtb pnl 0%float); repeat split; lia.
Qed.

End DirectionalTotals.

(** X6. shorter.py's [add_cycle] has no success flag: after any sequence of
    calls on a fresh [TradingStats], [long_cycles + short_cycles],
    [profitable_cycles + losing_cycles] and the length of [cycle_details]
    are all the number of calls. A call whose direction is not the string
    "LONG" is counted as a short cycle. *)
Theorem directional_add_cycle_invariant :
  (forall (now : Z) (calls : list Spec.directional_call),
      let s := Spec.run_directional (DirectionalStats.init now) calls in
      (DirectionalStats.long_cycles s + DirectionalStats.short_cycles s
       = Z.of_nat (length calls))%Z /\
      (DirectionalStats.profitable_cycles s + DirectionalStats.losing_cycles s
       = Z.of_nat (length calls))%Z /\
      length (DirectionalStats.cycle_details s) = length calls) /\
  (forall (s : DirectionalStats.t) (direction : String.string)
          (buy sell qty pnl fees : float) (ba sa : Z),
      direction <> "LONG"%string ->
      let s' := DirectionalStats.add_cycle s direction buy sell qty pnl ba sa fees in
      DirectionalStats.short_cycles s' = (DirectionalStats.short_cycles s + 1)%Z /\
      DirectionalStats.long_cycles s' = DirectionalStats.long_cycles s).
Proof.
  split.
  - intros now calls. cbv zeta.
    induction calls as [| c calls IH] using rev_ind.
    + repeat split.
    + destruct IH as [Hd [Hp Hl]].
      rewrite run_directional_app, length_app. cbn [length].
      unfold Spec.apply_directional_call.
      destruct (directional_add_cycle_counters
                  (Spec.run_directional (DirectionalStats.init now) calls)
                  (Spec.dc_direction c) (Spec.dc_buy_price c) (Spec.dc_sell_price c)
                  (Spec.dc_quantity c) (Spec.dc_pnl c) (Spec.dc_fees_paid c)
                  (Spec.dc_buy_adjustments c) (Spec.dc_sell_adjustments c))
        as [H1 [H2 [H3 _]]].
      repeat split; lia.
  - intros s direction buy sell qty pnl fees ba sa Hne. cbv zeta.
    unfold DirectionalStats.add_cycle.
    cbn [DirectionalStats.long_cycles DirectionalStats.short_cycles].
    destruct (String.eqb_spec direction "LONG"); [contradiction |].
    split; reflexivity.
Qed.

(** A cycle logged with the direction written in lower case counts as a
    short cycle. *)
Lemma directional_add_cycle_invariant_witness :
  DirectionalStats.short_cycles
    (DirectionalStats.add_cycle (DirectionalStats.init 0) "long"%string
       100 101 1 1 0 0 0) = 1%Z.
Proof.
  exact (proj1 (proj2 directional_add_cycle_invariant (DirectionalStats.init 0)
                  "long"%string 100%float 101%float 1%float 1%float 0%float 0%Z 0%Z
                  ltac:(discriminate))).
Defined.

(** ** PriceOracle: further behaviour of [get_robust_market_prices] *)

Section RobustPricesMore.

Lemma filter_outlier_prices_ok (prices : list float) (pct : float) :
  exists l, Oracle.filter_outlier_prices prices pct = Ok l.
Proof.
  destruct (filter_outlier_prices_subsequence prices pct) as [l [E _]].
  exists l. exact E.
Qed.

(** The body with the two calls of the outlier filter, whose results are
    not used, stepped over. *)
Lemma robust_body_unfold (book : Oracle.orderbook) (depth : nat) :
  Oracle.robust_body (Ok book) depth =
  (let bid_prices := map Oracle.price (firstn depth (Oracle.bid book)) in
   let bid_sizes := map Oracle.quantity (firstn depth (Oracle.bid book)) in
   let ask_prices := map Oracle.price (firstn depth (Oracle.ask book)) in
   let ask_sizes := map Oracle.quantity (firstn depth (Oracle.ask book)) in
   weighted_bid <- Oracle.weighted_price (firstn 3 bid_prices) (firstn 3 bid_sizes)
                     (hd_error bid_prices) ;;
   weighted_ask <- Oracle.weighted_price (firstn 3 ask_prices) (firstn 3 ask_sizes)
                     (hd_error ask_prices) ;;
   best_bid <- Oracle.checked_best (hd_error bid_prices) weighted_bid ;;
   best_ask <- Oracle.checked_best (hd_error ask_prices) weighted_ask ;;
   if Py.truthy_opt best_bid && Py.truthy_opt best_ask then
     inverted <- Py.geb_opt best_bid best_ask ;;
     if inverted then
       still <- Py.geb_opt weighted_bid weighted_ask ;;
       if still then
         mb <- Oracle.median_fallback bid_prices ;;
         ma <- Oracle.median_fallback ask_prices ;;
         Ok (Some mb, Some ma)
       else Ok (weighted_bid, weighted_ask)
     else Ok (best_bid, best_ask)
   else Ok (best_bid, best_ask)).
Proof.
  unfold Oracle.robust_body. cbn [Py.bind]. cbv zeta.
  destruct (filter_outlier_prices_ok
              (tl (map Oracle.price (firstn depth (Oracle.bid book)))) 1.5%float)
    as [fb Eb].
  destruct (filter_outlier_prices_ok
              (tl (map Oracle.price (firstn depth (Oracle.ask book)))) 1.5%float)
    as [fa Ea].
  rewrite Eb, Ea. reflexivity.
Qed.

End RobustPricesMore.

(** X7. When the sizes of the top three bid levels, or of the top three ask
    levels, add up to zero, the weighted average divides by zero inside the
    [try] block and [get_robust_market_prices] returns [(None, None)],
    even though the book has prices on both sides. *)
Theorem get_robust_market_prices_zero_size :
  forall (book : Oracle.orderbook) (depth : nat),
    let bids := firstn depth (Oracle.bid book) in
    let asks := firstn depth (Oracle.ask book) in
    bids <> [] -> asks <> [] ->
    PrimFloat.eqb (Py.sum (firstn 3 (map Oracle.quantity bids))) 0%float = true \/
    PrimFloat.eqb (Py.sum (firstn 3 (map Oracle.quantity asks))) 0%float = true ->
    Oracle.get_robust_market_prices (Ok book) depth = Ok (None, None).
Proof.
  intros book depth bids asks Hb Ha Hz.
  unfold Oracle.get_robust_market_prices. rewrite robust_body_unfold. cbv zeta.
  fold bids. fold asks.
  assert (Nb : forall f : Oracle.level -> float,
             Py.nonempty (firstn 3 (map f bids)) = true)
    by (intros f; destruct bids; [contradiction | reflexivity]).
  assert (Na : forall f : Oracle.level -> float,
             Py.nonempty (firstn 3 (map f asks)) = true)
    by (intros f; destruct asks; [contradiction | reflexivity]).
  unfold Oracle.weighted_price. rewrite !Nb, !Na. cbn [andb].
  unfold Py.div at 1.
  destruct (PrimFloat.eqb (Py.sum (firstn 3 (map Oracle.quantity bids))) 0%float) eqn:Eb.
  - reflexivity.
  - cbn [Py.bind]. unfold Py.div at 1.
    destruct Hz as [Hz | Hz]; [discriminate |]. rewrite Hz. reflexivity.
Qed.

(** A book whose only bid has size zero, and one whose two asks have sizes
    that cancel. *)
Lemma get_robust_market_prices_zero_size_witness :
  Oracle.get_robust_market_prices
    (Ok (Oracle.mk_book (Oracle.levels [(100.5, 0)]%float)
                        (Oracle.levels [(100.75, 1)]%float))) 10
  = Ok (None, None) /\
  Oracle.get_robust_market_prices
    (Ok (Oracle.mk_book (Oracle.levels [(100.5, 2)]%float)
                        (Oracle.levels [(100.75, 1); (101, -1)]%float))) 10
  = Ok (None, None).
Proof.
  split.
  - apply get_robust_market_prices_zero_size;
      [discriminate | discriminate | left; reflexivity].
  - apply get_robust_market_prices_zero_size;
      [discriminate | discriminate | right; reflexivity].
Defined.

(** X8. [get_robust_market_prices] returns two non-zero prices with the bid
    at or above the ask only out of its last fallback: both the checked best
    prices and the weighted averages were inverted, and the pair returned is
    the pair of medians. Any other pair of non-zero prices it returns has
    passed the test [bid >= ask] as false. *)
Theorem inverted_pair_is_median_fallback :
  forall (book : Oracle.orderbook) (depth : nat) (b a : float),
    Oracle.get_robust_market_prices (Ok book) depth = Ok (Some b, Some a) ->
    Py.truthy b = true -> Py.truthy a = true ->
    Py.geb b a = true ->
    Oracle.median_fallback (map Oracle.price (firstn depth (Oracle.bid book))) = Ok b /\
    Oracle.median_fallback (map Oracle.price (firstn depth (Oracle.ask book))) = Ok a.
Proof.
  intros book depth b a E Tb Ta Hinv.
  unfold Oracle.get_robust_market_prices in E. rewrite robust_body_unfold in E.
  cbv zeta in E.
  destruct (Oracle.weighted_price _ _ (hd_error (map Oracle.price (firstn depth (Oracle.bid book)))))
    as [wb | e]; cbn [Py.bind Py.try_except] in E; [| discriminate].
  destruct (Oracle.weighted_price _ _ (hd_error (map Oracle.price (firstn depth (Oracle.ask book)))))
    as [wa | e]; cbn [Py.bind Py.try_except] in E; [| discriminate].
  destruct (Oracle.checked_best _ wb) as [bb | e];
    cbn [Py.bind Py.try_except] in E; [| discriminate].
  destruct (Oracle.checked_best _ wa) as [ba | e];
    cbn [Py.bind Py.try_except] in E; [| discriminate].
  destruct (Py.truthy_opt bb && Py.truthy_opt ba) eqn:Et.
  - destruct bb as [bb |], ba as [ba |]; cbn [Py.truthy_opt andb] in Et;
      try rewrite andb_false_r in Et; try discriminate Et.
    cbn [Py.geb_opt Py.bind] in E.
    destruct (Py.geb bb ba) eqn:Einv.
    + destruct wb as [wb |], wa as [wa |];
        cbn [Py.geb_opt Py.bind Py.try_except] in E; try discriminate E.
      destruct (Py.geb wb wa) eqn:Estill.
      * destruct (Oracle.median_fallback (map Oracle.price (firstn depth (Oracle.bid book))))
          as [mb | e]; cbn [Py.bind Py.try_except] in E; [| discriminate].
        destruct (Oracle.median_fallback (map Oracle.price (firstn depth (Oracle.ask book))))
          as [ma | e]; cbn [Py.bind Py.try_except] in E; [| discriminate].
        injection E as -> ->. split; reflexivity.
      * cbn [Py.try_except] in E. injection E as -> ->. congruence.
    + cbn [Py.try_except] in E. injection E as -> ->. congruence.
  - cbn [Py.try_except] in E. injection E as -> ->.
    cbn [Py.truthy_opt] in Et. rewrite Tb, Ta in Et. discriminate.
Qed.

(** The crossed book: the pair returned is inverted, and it is the pair of
    the medians of the two sides. *)
Lemma inverted_pair_is_median_fallback_witness :
  Oracle.median_fallback [100.5; 100.25; 100]%float = Ok 100.25%float /\
  Oracle.median_fallback [99.5; 99.75; 100]%float = Ok 99.75%float.
Proof.
  exact (inverted_pair_is_median_fallback Spec.crossed_book 10
           100.25%float 99.75%float eq_refl eq_refl eq_refl eq_refl).
Defined.

Section TopFive.

Lemma hd_error_firstn {A : Type} (n : nat) (l : list A) :
  hd_error (firstn (S n) l) = hd_error l.
Proof. destruct l; reflexivity. Qed.

Lemma median_fallback_top_five (prices : list float) :
  Oracle.median_fallback (firstn 5 prices) = Oracle.median_fallback prices.
Proof.
  unfold Oracle.median_fallback.
  rewrite firstn_firstn, Nat.min_id, length_firstn.
  destruct prices as [| p1 [| p2 [| p3 [| p4 [| p5 rest]]]]]; reflexivity.
Qed.

Lemma truncated_side (f : Oracle.level -> float) (depth : nat) (l : list Oracle.level) :
  5 <= depth ->
  map f (firstn depth (firstn 5 l)) = firstn 5 (map f (firstn depth l)).
Proof.
  intros H. rewrite firstn_map, !firstn_firstn.
  rewrite (Nat.min_r depth 5), (Nat.min_l 5 depth) by lia. reflexivity.
Qed.

End TopFive.

(** X9. With [depth >= 5] (the callers use 10) the quote depends on the top
    five levels of each side only: cutting both sides of the book down to
    five levels changes nothing in what [get_robust_market_prices] returns.
    In particular the outlier filter, which is run on all the levels below
    the best, has no effect on the result. *)
Theorem get_robust_market_prices_top_five :
  forall (book : Oracle.orderbook) (depth : nat),
    5 <= depth ->
    Oracle.get_robust_market_prices (Ok book) depth
    = Oracle.get_robust_market_prices
        (Ok (Oracle.mk_book (firstn 5 (Oracle.bid book)) (firstn 5 (Oracle.ask book))))
        depth.
Proof.
  intros book depth H.
  unfold Oracle.get_robust_market_prices. rewrite !robust_body_unfold.
  cbn [Oracle.bid Oracle.ask]. cbv zeta.
  rewrite !(truncated_side _ depth _ H).
  rewrite !median_fallback_top_five.
  rewrite !firstn_firstn. cbn [Nat.min].
  rewrite !(hd_error_firstn 4).
  reflexivity.
Qed.

(** Ten levels a side, the lower ones far from the market: the quote is that
    of the top five. *)
Lemma get_robust_market_prices_top_five_witness :
  let bids := Oracle.levels
    [(100, 1); (99.9, 1); (99.8, 1); (99.7, 1); (99.6, 1);
     (50, 9); (40, 9); (30, 9); (20, 9); (10, 9)]%float in
  let asks := Oracle.levels
    [(100.1, 1); (100.2, 1); (100.3, 1); (100.4, 1); (100.5, 1);
     (150, 9); (160, 9); (170, 9); (180, 9); (190, 9)]%float in
  Oracle.get_robust_market_prices (Ok (Oracle.mk_book bids asks)) 10
  = Oracle.get_robust_market_prices
      (Ok (Oracle.mk_book (firstn 5 bids) (firstn 5 asks))) 10.
Proof.
  cbv zeta.
  apply (get_robust_market_prices_top_five
           (Oracle.mk_book
              (Oracle.levels
                 [(100, 1); (99.9, 1); (99.8, 1); (99.7, 1); (99.6, 1);
                  (50, 9); (40, 9); (30, 9); (20, 9); (10, 9)]%float)
              (Oracle.levels
                 [(100.1, 1); (100.2, 1); (100.3, 1); (100.4, 1); (100.5, 1);
                  (150, 9); (160, 9); (170, 9); (180, 9); (190, 9)]%float)) 10).
  lia.
Defined.

(** ** PricingPolicy: the distance from the top of the book *)

Section Offsets.

Lemma all_from_spec (f : Z -> bool) (n : nat) :
  forall z, Spec.all_from f z n = true ->
            forall k, (z <= k < z + Z.of_nat n)%Z -> f k = true.
Proof.
  induction n as [| n IH]; intros z H k Hk; [lia |].
  cbn [Spec.all_from] in H. apply andb_true_iff in H. destruct H as [Hz Hrest].
  destruct (Z.eq_dec k z) as [-> | Hne]; [exact Hz |].
  apply (IH (z + 1)%Z Hrest). lia.
Qed.

Lemma sell_offsets_checked :
  Spec.all_from (fun n => forallb Spec.offset_in_range (Spec.sell_offsets n)) 1
    (Z.to_nat 100000)
  = true.
Proof. vm_compute. reflexivity. Qed.

Lemma sell_offsets_in_range (adjustment_count : Z) :
  (1 <= adjustment_count <= 100000)%Z ->
  Forall (fun d => Spec.offset_in_range d = true) (Spec.sell_offsets adjustment_count).
Proof.
  intros H. apply Forall_forall. apply forallb_forall.
  apply (all_from_spec _ _ _ sell_offsets_checked).
  rewrite Z2Nat.id; lia.
Qed.

End Offsets.

(** X10. Every re-price of a closing leg, in whatever band and also at the
    forced exit, asks best ask plus an offset of at least one tick (0.01) and
    at most 1.05: the chain never prices a sell at or below the best ask it
    was given. (Checked for adjustment counts 1 to 100000; the count starts
    at 1 and grows by one per adjusting step.) *)
Theorem sell_reprice_offset_range :
  forall (elapsed : Z) (best_ask potential_pnl : float) (adjustment_count : Z)
         (offset : float),
    (1 <= adjustment_count <= 100000)%Z ->
    exists d,
      snd (SellPolicy.reprice elapsed best_ask potential_pnl adjustment_count offset)
        = PrimFloat.add best_ask d /\
      PrimFloat.leb 0.01%float d = true /\
      PrimFloat.leb d 1.05%float = true.
Proof.
  intros elapsed best_ask pnl count offset Hc.
  pose proof (sell_offsets_in_range count Hc) as H.
  unfold Spec.sell_offsets in H. cbv zeta in H.
  repeat match goal with
         | Hf : Forall _ (_ :: _) |- _ =>
             let Hd := fresh "Hd" in
             inversion_clear Hf as [| ? ? Hd Hf'];
             apply andb_true_iff in Hd; rename Hf' into Hf
         end.
  unfold SellPolicy.reprice. cbv zeta.
  repeat match goal with
         | |- context [if ?c then _ else _] =>
             lazymatch c with
             | (_ <=? 3)%Z => fail
             | _ => destruct c
             end
         end;
    cbn [snd]; eexists; (split; [reflexivity | assumption]).
Qed.

(** The third re-price in the highest band: 0.75 above the best ask. *)
Lemma sell_reprice_offset_range_witness :
  exists d,
    snd (SellPolicy.reprice 95 100%float 3.5%float 3 1.50%float)
      = PrimFloat.add 100%float d /\
    PrimFloat.leb 0.01%float d = true /\
    PrimFloat.leb d 1.05%float = true.
Proof.
  apply (sell_reprice_offset_range 95 100%float 3.5%float 3 1.50%float). lia.
Defined.

(** X11. A re-price of an opening (buy) leg bids, up to the sixth, the best
    bid minus an offset between one tick and 0.16, the floor 0.05 being
    reached at the third; from the seventh on it bids the best bid itself. *)
Theorem buy_reprice_schedule :
  forall (best_bid offset : float) (adjustment_count : Z),
    (1 <= adjustment_count)%Z ->
    ((7 <= adjustment_count)%Z ->
       BuyPolicy.reprice best_bid adjustment_count offset = (offset, best_bid)) /\
    ((adjustment_count <= 6)%Z ->
       exists d,
         BuyPolicy.reprice best_bid adjustment_count offset
           = (d, PrimFloat.sub best_bid d) /\
         PrimFloat.leb 0.01%float d = true /\ PrimFloat.leb d 0.16%float = true) /\
    ((3 <= adjustment_count <= 6)%Z ->
       exists d,
         BuyPolicy.reprice best_bid adjustment_count offset
           = (d, PrimFloat.sub best_bid d) /\
         PrimFloat.leb d 0.05%float = true).
Proof.
  intros best_bid offset count H1. unfold BuyPolicy.reprice.
  split; [| split]; intros H.
  - destruct (Z.leb_spec count 3); [lia |].
    destruct (Z.leb_spec count 6); [lia | reflexivity].
  - assert (Hc : (count = 1 \/ count = 2 \/ count = 3 \/ count = 4
                  \/ count = 5 \/ count = 6)%Z) by lia.
    destruct Hc as [-> | [-> | [-> | [-> | [-> | ->]]]]];
      eexists; (split; [reflexivity | split; reflexivity]).
  - assert (Hc : (count = 3 \/ count = 4 \/ count = 5 \/ count = 6)%Z) by lia.
    destruct Hc as [-> | [-> | [-> | ->]]];
      eexists; (split; reflexivity).
Qed.

(** The first, the third and the seventh re-price with the best bid at
    100. *)
Lemma buy_reprice_schedule_witness :
  BuyPolicy.reprice 100%float 7 0.01%float = (0.01%float, 100%float) /\
  (exists d, BuyPolicy.reprice 100%float 1 0.2%float
             = (d, PrimFloat.sub 100%float d) /\
             PrimFloat.leb 0.01%float d = true /\ PrimFloat.leb d 0.16%float = true) /\
  (exists d, BuyPolicy.reprice 100%float 3 0.1%float
             = (d, PrimFloat.sub 100%float d) /\
             PrimFloat.leb d 0.05%float = true).
Proof.
  split; [| split].
  - apply (proj1 (buy_reprice_schedule 100%float 0.01%float 7 ltac:(lia))). lia.
  - apply (proj1 (proj2 (buy_reprice_schedule 100%float 0.2%float 1 ltac:(lia)))). lia.
  - apply (proj2 (proj2 (buy_reprice_schedule 100%float 0.1%float 3 ltac:(lia)))). lia.
Defined.

(** ** OrderLifecycle: the loop of the closing leg *)

Section SellLoop.

Import Lifecycle.

Variable adjust_due : Z -> Z -> bool.
Variable pnl_of : option float -> option float -> result float.

(** What one turn can do to the leg. *)
Lemma turn_outcome (l : leg) (o : observation) (out : outcome) :
  turn adjust_due pnl_of l o = Ok out ->
  match out with
  | Filled p id n =>
      order_status o = Ok true /\
      p = current_price l /\ id = order_id l /\ n = adjustment_count l
  | Resting l' =>
      order_status o <> Ok true /\
      order_start_time l' = order_start_time l /\
      (adjustment_count l <= adjustment_count l' <= adjustment_count l + 1)%Z /\
      (last_adjustment l' = last_adjustment l \/ last_adjustment l' = placed_at o)
  end.
Proof.
  unfold turn.
  assert (Hadj : forall elapsed l',
             adjust pnl_of l o elapsed = Ok (Resting l') ->
             order_start_time l' = order_start_time l /\
             (adjustment_count l <= adjustment_count l' <= adjustment_count l + 1)%Z /\
             (last_adjustment l' = last_adjustment l \/ last_adjustment l' = placed_at o)).
  { intros elapsed l'. unfold adjust.
    destruct (quote o) as [best_bid best_ask].
    destruct (negb (Py.truthy_opt best_bid)).
    - intros E. injection E as <-. cbn. repeat split; lia.
    - destruct (pnl_of best_bid best_ask) as [pnl | e]; cbn [Py.bind]; [| discriminate].
      destruct (Py.number best_ask) as [ask | e]; cbn [Py.bind]; [| discriminate].
      destruct (SellPolicy.reprice _ _ _ _ _) as [offset' price'].
      destruct (placement o); intros E; injection E as <-; cbn;
        repeat split; lia. }
  assert (Hfill : forall elapsed p id n,
             adjust pnl_of l o elapsed <> Ok (Filled p id n)).
  { intros elapsed p id n. unfold adjust.
    destruct (quote o) as [best_bid best_ask].
    destruct (negb (Py.truthy_opt best_bid)); [discriminate |].
    destruct (pnl_of best_bid best_ask) as [pnl | e]; cbn [Py.bind]; [| discriminate].
    destruct (Py.number best_ask) as [ask | e]; cbn [Py.bind]; [| discriminate].
    destruct (SellPolicy.reprice _ _ _ _ _) as [offset' price'].
    destruct (placement o); discriminate. }
  destruct (order_status o) as [[|] | e] eqn:Es.
  - intros E. injection E as <-. repeat split.
  - destruct (adjust_due _ _).
    + destruct out as [p id n | l']; intros E.
      * exfalso. exact (Hfill _ _ _ _ E).
      * split; [discriminate | exact (Hadj _ _ E)].
    + intros E. injection E as <-. split; [discriminate |].
      repeat split; lia.
  - destruct (adjust_due _ _).
    + destruct out as [p id n | l']; intros E.
      * exfalso. exact (Hfill _ _ _ _ E).
      * split; [discriminate | exact (Hadj _ _ E)].
    + intros E. injection E as <-. split; [discriminate |].
      repeat split; lia.
Qed.

Lemma run_outcome (observations : list observation) :
  forall (l : leg) (out : outcome),
    Loop.run (turn adjust_due pnl_of) l observations = Ok out ->
    match out with
    | Filled p id n =>
        (adjustment_count l <= n <= adjustment_count l + Z.of_nat (length observations))%Z /\
        Exists (fun o => order_status o = Ok true) observations
    | Resting l' =>
        order_start_time l' = order_start_time l /\
        (adjustment_count l <= adjustment_count l'
           <= adjustment_count l + Z.of_nat (length observations))%Z /\
        Forall (fun o => order_status o <> Ok true) observations
    end.
Proof.
  induction observations as [| o rest IH]; intros l out E.
  - cbn [Loop.run] in E. injection E as <-. cbn [length]. repeat split; try lia.
    constructor.
  - cbn [Loop.run] in E.
    destruct (turn adjust_due pnl_of l o) as [r | e] eqn:Et; cbn [Py.bind] in E;
      [| discriminate].
    pose proof (turn_outcome l o r Et) as Hr.
    destruct r as [p id n | l1].
    + injection E as <-. destruct Hr as [Hs [_ [_ Hn]]].
      split; [cbn [length]; lia | left; exact Hs].
    + destruct Hr as [Hs [Hst [Hc _]]].
      specialize (IH l1 out E).
      destruct out as [p id n | l'].
      * destruct IH as [Hn Hex].
        split; [cbn [length]; lia | right; exact Hex].
      * destruct IH as [Hst' [Hc' Hall]].
        split; [congruence |]. split; [cbn [length]; lia |].
        constructor; assumption.
Qed.

End SellLoop.

(** X12. The loop of a closing leg, whatever its trigger and its P&L formula
    (so in both files), is left only by a fill: over any number of turns the
    leg either reports the fill of some turn or is still resting with no fill
    seen. Its start time never changes, and its
    adjustment count never goes down and grows by at most one a turn. *)
Theorem sell_loop_outcome :
  forall (adjust_due : Z -> Z -> bool)
         (pnl_of : option float -> option float -> result float)
         (l : Lifecycle.leg) (observations : list Lifecycle.observation)
         (out : Lifecycle.outcome),
    Loop.run (Lifecycle.turn adjust_due pnl_of) l observations = Ok out ->
    match out with
    | Lifecycle.Filled p id n =>
        (Lifecycle.adjustment_count l <= n
           <= Lifecycle.adjustment_count l + Z.of_nat (length observations))%Z /\
        Exists (fun o => Lifecycle.order_status o = Ok true) observations
    | Lifecycle.Resting l' =>
        Lifecycle.order_start_time l' = Lifecycle.order_start_time l /\
        (Lifecycle.adjustment_count l <= Lifecycle.adjustment_count l'
           <= Lifecycle.adjustment_count l + Z.of_nat (length observations))%Z /\
        Forall (fun o => Lifecycle.order_status o <> Ok true) observations
    end.
Proof.
  intros adjust_due pnl_of l observations out E.
  exact (run_outcome adjust_due pnl_of observations l out E).
Qed.

(** The leg at its deadline, looked at twice by volume_bot_maker_only_v3.py:
    no fill, so it is still resting, started at the same time. *)
Lemma sell_loop_outcome_witness :
  exists l',
    Loop.run (Lifecycle.V3.place_maker_sell_order_turn 0.4%float 95%float)
      Spec.deadline_leg [Spec.deadline_observation; Spec.deadline_observation]
    = Ok (Lifecycle.Resting l') /\
    Lifecycle.order_start_time l' = 0%Z.
Proof.
  eexists. split; [reflexivity |].
  exact (proj1 (sell_loop_outcome Lifecycle.V3.adjust_due
                  (Lifecycle.V3.potential_pnl 95%float 0.4%float)
                  Spec.deadline_leg
                  [Spec.deadline_observation; Spec.deadline_observation]
                  _ eq_refl)).
Defined.

Section SellLoopRetry.

Import Lifecycle.

(** X13. In volume_bot_maker_only_v3.py an adjusting step that fails, because
    no fresh quote is available or because the new order is rejected, still
    adds one to the adjustment count but keeps the order id and the time of
    the last adjustment; so at every later turn the step is due again, without
    another 30 seconds of waiting. *)
Theorem v3_failed_adjustment_retried :
  forall (quantity buy_price : float) (l l' : leg) (o : observation),
    V3.place_maker_sell_order_turn quantity buy_price l o = Ok (Resting l') ->
    V3.adjust_due (now o - order_start_time l) (now o - last_adjustment l) = true ->
    Py.truthy_opt (fst (quote o)) = false \/ (exists e, placement o = Raise e) ->
    adjustment_count l' = (adjustment_count l + 1)%Z /\
    order_id l' = order_id l /\
    last_adjustment l' = last_adjustment l /\
    (forall o' : observation,
        (now o <= now o')%Z ->
        V3.adjust_due (now o' - order_start_time l') (now o' - last_adjustment l') = true).
Proof.
  intros quantity buy_price l l' o E Hdue Hfail.
  unfold V3.place_maker_sell_order_turn, turn in E. rewrite Hdue in E.
  assert (Ea : adjust (V3.potential_pnl buy_price quantity) l o
                 (now o - order_start_time l) = Ok (Resting l')).
  { destruct (order_status o) as [[|] | e]; [discriminate | exact E | exact E]. }
  clear E.
  assert (H : adjustment_count l' = (adjustment_count l + 1)%Z /\
              order_id l' = order_id l /\
              last_adjustment l' = last_adjustment l).
  { unfold adjust in Ea. destruct (quote o) as [best_bid best_ask].
    cbn [fst] in Hfail.
    destruct (Py.truthy_opt best_bid).
    - destruct Hfail as [Hf | [e He]]; [discriminate |].
      cbn [negb] in Ea.
      destruct (V3.potential_pnl buy_price quantity best_bid best_ask) as [pnl | e'];
        cbn [Py.bind] in Ea; [| discriminate].
      destruct (Py.number best_ask) as [ask | e']; cbn [Py.bind] in Ea; [| discriminate].
      destruct (SellPolicy.reprice _ _ _ _ _) as [offset' price'].
      rewrite He in Ea. injection Ea as <-. repeat split.
    - cbn [negb] in Ea. injection Ea as <-. repeat split. }
  destruct H as [Hc [Hid Hla]].
  repeat split; try assumption.
  intros o' Hlater. unfold V3.adjust_due in *.
  apply Z.leb_le in Hdue. apply Z.leb_le. rewrite Hla. lia.
Qed.

End SellLoopRetry.

(** The leg 30 seconds after its last price, the gateway rejecting the new
    order: the count goes from 39 to 40 and the step is due again at once. *)
Lemma v3_failed_adjustment_retried_witness :
  exists l',
    Lifecycle.V3.place_maker_sell_order_turn 0.4%float 95%float Spec.deadline_leg
      (Lifecycle.mk_obs 1217 (Ok false) (Some 99.9%float, Some 100%float)
         (Raise RejectedOrder) 1218)
    = Ok (Lifecycle.Resting l') /\
    Lifecycle.adjustment_count l' = 40%Z /\
    Lifecycle.V3.adjust_due (1222 - Lifecycle.order_start_time l')
      (1222 - Lifecycle.last_adjustment l') = true.
Proof.
  eexists. split; [reflexivity |].
  pose proof (v3_failed_adjustment_retried 0.4%float 95%float Spec.deadline_leg _
                (Lifecycle.mk_obs 1217 (Ok false) (Some 99.9%float, Some 100%float)
                   (Raise RejectedOrder) 1218)
                eq_refl eq_refl (or_intror (ex_intro _ RejectedOrder eq_refl)))
    as [Hc [_ [_ Hdue]]].
  split; [exact Hc |].
  exact (Hdue (Lifecycle.mk_obs 1222 (Ok false) (None, None) (Raise RejectedOrder) 1222)
              ltac:(cbn; lia)).
Defined.

Section SellLoopDeadline.

Import Lifecycle.

Variables (quantity entry_price : float) (is_short : bool).

Let past_deadline (l : leg) (o : observation) : Prop :=
  order_status o <> Ok true /\
  (SellPolicy.max_wait_time <= now o - order_start_time l)%Z /\
  exists b a, quote o = (Some b, Some a).

Lemma shorter_turn_past_deadline (l : leg) (o : observation) :
  past_deadline l o ->
  exists l',
    Shorter.place_maker_sell_order_turn quantity entry_price is_short l o
      = Ok (Resting l') /\
    adjustment_count l' = (adjustment_count l + 1)%Z /\
    order_start_time l' = order_start_time l.
Proof.
  intros [Hs [Hd [b [a Hq]]]].
  unfold Shorter.place_maker_sell_order_turn, turn, Shorter.adjust_due.
  apply Z.leb_le in Hd. rewrite Hd, orb_true_r.
  assert (Ha : exists l',
             adjust (Shorter.potential_pnl is_short entry_price quantity) l o
               (now o - order_start_time l) = Ok (Resting l') /\
             adjustment_count l' = (adjustment_count l + 1)%Z /\
             order_start_time l' = order_start_time l).
  { unfold adjust. rewrite Hq. cbn [Py.truthy_opt].
    destruct (Py.truthy b); cbn [negb].
    - assert (Hp : exists pnl,
                 Shorter.potential_pnl is_short entry_price quantity (Some b) (Some a)
                 = Ok pnl) by (destruct is_short; eexists; reflexivity).
      destruct Hp as [pnl Hp]. rewrite Hp. cbn [Py.bind Py.number].
      destruct (SellPolicy.reprice _ _ _ _ _) as [offset' price'].
      destruct (placement o); eexists; repeat split.
    - eexists; repeat split. }
  destruct (order_status o) as [[|] | e]; [contradiction | exact Ha | exact Ha].
Qed.

Lemma shorter_run_past_deadline (observations : list observation) :
  forall l : leg,
    Forall (past_deadline l) observations ->
    exists l',
      Loop.run (Shorter.place_maker_sell_order_turn quantity entry_price is_short)
        l observations = Ok (Resting l') /\
      adjustment_count l'
        = (adjustment_count l + Z.of_nat (length observations))%Z.
Proof.
  induction observations as [| o rest IH]; intros l Hall.
  - exists l. split; [reflexivity | cbn [length]; lia].
  - inversion_clear Hall as [| ? ? Ho Hrest].
    destruct (shorter_turn_past_deadline l o Ho) as [l1 [E1 [Hc1 Hs1]]].
    assert (Hrest1 : Forall (past_deadline l1) rest).
    { eapply Forall_impl; [| exact Hrest].
      intros o' [Hs [Hd Hq]]. unfold past_deadline. rewrite Hs1. auto. }
    destruct (IH l1 Hrest1) as [l' [E' Hc']].
    exists l'. cbn [Loop.run]. rewrite E1. cbn [Py.bind].
    split; [exact E' |]. cbn [length]. lia.
Qed.

End SellLoopDeadline.

(** X14. In shorter.py, once a closing leg is 1200 seconds old, every turn
    that finds the order unfilled runs the adjusting step, however recent the
    last price: over [n] such turns (the book quoting both sides) the loop is
    not left and the adjustment count grows by exactly [n], one cancel and
    re-submission per poll. *)
Theorem shorter_adjusts_every_turn_past_deadline :
  forall (quantity entry_price : float) (is_short : bool)
         (l : Lifecycle.leg) (observations : list Lifecycle.observation),
    Forall (fun o =>
              Lifecycle.order_status o <> Ok true /\
              (SellPolicy.max_wait_time
                 <= Lifecycle.now o - Lifecycle.order_start_time l)%Z /\
              exists b a, Lifecycle.quote o = (Some b, Some a)) observations ->
    exists l',
      Loop.run (Lifecycle.Shorter.place_maker_sell_order_turn quantity entry_price is_short)
        l observations = Ok (Lifecycle.Resting l') /\
      Lifecycle.adjustment_count l'
        = (Lifecycle.adjustment_count l + Z.of_nat (length observations))%Z.
Proof.
  intros quantity entry_price is_short l observations H.
  apply shorter_run_past_deadline. exact H.
Qed.

(** Three polls five seconds apart after the deadline: three re-pricings. *)
Lemma shorter_adjusts_every_turn_past_deadline_witness :
  exists l',
    Loop.run (Lifecycle.Shorter.place_maker_sell_order_turn 0.4%float 95%float false)
      Spec.deadline_leg
      [Lifecycle.mk_obs 1200 (Ok false) (Some 99.9%float, Some 100%float) (Ok 8%Z) 1201;
       Lifecycle.mk_obs 1206 (Ok false) (Some 99.9%float, Some 100%float) (Ok 9%Z) 1207;
       Lifecycle.mk_obs 1212 (Ok false) (Some 99.8%float, Some 99.9%float) (Ok 10%Z) 1213]
    = Ok (Lifecycle.Resting l') /\
    Lifecycle.adjustment_count l' = (39 + 3)%Z.
Proof.
  apply (shorter_adjusts_every_turn_past_deadline 0.4%float 95%float false
           Spec.deadline_leg).
  repeat constructor; cbn; try discriminate; try lia; eexists; eexists; reflexivity.
Defined.

(** ** CycleController of volume_bot_maker_only_v3.py *)

Section CycleV3Facts.

Import Cycle CycleV3.

Variables (symbol : String.string) (quantity : float).

Lemma settle_tracker (balance_before fees_paid : float)
    (tracker : MarketTrendTracker.t) (r : replies)
    (pnl fees : float) (tracker' : MarketTrendTracker.t) :
  settle balance_before fees_paid tracker r = Ok (pnl, fees, tracker') ->
  tracker' = MarketTrendTracker.record_cycle_result tracker pnl /\
  exists a, account_after_sell r = Ok a /\
            pnl = PrimFloat.sub (balance a) balance_before.
Proof.
  unfold settle.
  destruct (account_after_sell r) as [a | e]; cbn [Py.bind]; [| discriminate].
  destruct (trades_after_sell r) as [ts | e]; cbn [Py.bind]; [| discriminate].
  intros E. injection E as <- <- <-. split; [reflexivity |].
  exists a. split; reflexivity.
Qed.

Lemma record_cycle_result_fields (tracker : MarketTrendTracker.t) (pnl : float) :
  let tracker' := MarketTrendTracker.record_cycle_result tracker pnl in
  MarketTrendTracker.total_cooldowns tracker' = MarketTrendTracker.total_cooldowns tracker /\
  price_history tracker' = price_history tracker /\
  (consecutive_losses tracker' = (consecutive_losses tracker + 1)%Z \/
   consecutive_losses tracker' = 0%Z).
Proof.
  cbv zeta. unfold MarketTrendTracker.record_cycle_result.
  destruct (PrimFloat.ltb pnl (-0.50)%float); cbn; auto.
Qed.

(** A completed cycle: [add_cycle] with [success = True] on the statistics,
    and a tracker whose loss counter was left alone or went through
    [record_cycle_result]. *)
Lemma completed_effect (stats : TradingStats.t)
    (tracker tracker' : MarketTrendTracker.t)
    (buy_price sell_price pnl fees : float) (ba sa : Z) :
  MarketTrendTracker.total_cooldowns tracker' = MarketTrendTracker.total_cooldowns tracker ->
  (consecutive_losses tracker' = consecutive_losses tracker \/
   consecutive_losses tracker' = (consecutive_losses tracker + 1)%Z \/
   consecutive_losses tracker' = 0%Z) ->
  Spec.cycle_effect stats
    (TradingStats.add_cycle stats true buy_price sell_price quantity pnl ba sa fees)
    tracker tracker' true.
Proof.
  intros Hc Hl. unfold Spec.cycle_effect.
  split; [exact Hc |]. split; [reflexivity |]. right. right.
  unfold TradingStats.add_cycle.
  cbn [TradingStats.failed_buys TradingStats.failed_sells TradingStats.completed_cycles
       TradingStats.profitable_cycles TradingStats.losing_cycles
       TradingStats.cycle_details].
  rewrite length_app. cbn [length].
  split; [reflexivity |]. split; [exact Hl |].
  split; [reflexivity |]. split; [reflexivity |]. split; [reflexivity |].
  split; [destruct (Py.gtb pnl 0%float); lia | lia].
Qed.

Lemma failed_buy_effect (stats : TradingStats.t) (tracker : MarketTrendTracker.t)
    (h : history) :
  Spec.cycle_effect stats (fail_buy stats) tracker (with_history tracker h) false.
Proof.
  unfold Spec.cycle_effect. split; [reflexivity |]. split; [reflexivity |].
  left. repeat split.
Qed.

Lemma failed_sell_effect (stats : TradingStats.t) (tracker : MarketTrendTracker.t)
    (h1 h2 : history) :
  Spec.cycle_effect stats (fail_sell stats) tracker
    (with_history (with_history tracker h1) h2) false.
Proof.
  unfold Spec.cycle_effect. split; [reflexivity |]. split; [reflexivity |].
  right. left. repeat split.
Qed.

Lemma run_trading_cycle_effect (stats stats' : TradingStats.t)
    (tracker tracker' : MarketTrendTracker.t) (r : replies) (ok : bool) :
  run_trading_cycle symbol quantity stats tracker r = Ok (ok, stats', tracker') ->
  Spec.cycle_effect stats stats' tracker tracker' ok.
Proof.
  unfold run_trading_cycle.
  destruct (buy_leg r (price_history tracker)) as [[buy h1] | e];
    cbn [Py.bind]; [| discriminate].
  destruct (success buy); cbn [negb].
  2: { intros E. injection E as <- <- <-. apply failed_buy_effect. }
  assert (Hsell : forall fees_paid,
    (sold <- sell_leg r (price buy) (price_history (with_history tracker h1)) ;;
     (let '(sell, h) := sold in
      if negb (success sell)
      then Ok (false, fail_sell stats, with_history (with_history tracker h1) h)
      else
        let '(cycle_pnl, fees_paid0, tracker0) :=
          Py.try_except
            (settle (balance_or_zero (account_before r)) fees_paid
               (with_history (with_history tracker h1) h) r)
            (fun _ => (0%float, fees_paid, with_history (with_history tracker h1) h)) in
        Ok (true,
            TradingStats.add_cycle stats true (price buy) (price sell) quantity
              cycle_pnl (adjustments buy) (adjustments sell) fees_paid0,
            tracker0))) = Ok (ok, stats', tracker') ->
    Spec.cycle_effect stats stats' tracker tracker' ok).
  { intros fees_paid.
    destruct (sell_leg r (price buy) (price_history (with_history tracker h1)))
      as [[sell h2] | e]; cbn [Py.bind]; [| discriminate].
    destruct (success sell); cbn [negb].
    2: { intros E. injection E as <- <- <-. apply failed_sell_effect. }
    destruct (settle _ fees_paid _ r) as [[[pnl fees] tr] | e] eqn:Es;
      cbn [Py.try_except]; intros E; injection E as <- <- <-.
    - apply settle_tracker in Es. destruct Es as [-> _].
      destruct (record_cycle_result_fields
                  (with_history (with_history tracker h1) h2) pnl) as [Hc [_ Hl]].
      apply completed_effect; [exact Hc |].
      cbn in Hl. destruct Hl as [Hl | Hl]; [right; left | right; right]; exact Hl.
    - apply completed_effect; [reflexivity | left; reflexivity]. }
  destruct (verify_position symbol r) as [[f |] | e].
  - apply Hsell.
  - intros E. injection E as <- <- <-. apply failed_buy_effect.
  - apply Hsell.
Qed.

End CycleV3Facts.

(** X15. A cycle of volume_bot_maker_only_v3.py that returns moves exactly
    one counter: [failed_buys] (the buy leg failed, or no position was found
    after it) or [failed_sells], returning [False] with the cycle log and the
    loss counter untouched; or [completed_cycles], returning [True] with one
    more cycle logged and one more profitable or losing cycle. It never
    changes the cooldown counts. *)
Theorem v3_cycle_moves_one_counter :
  forall (symbol : String.string) (quantity : float)
         (stats stats' : TradingStats.t) (tracker tracker' : MarketTrendTracker.t)
         (r : CycleV3.replies) (ok : bool),
    CycleV3.run_trading_cycle symbol quantity stats tracker r
      = Ok (ok, stats', tracker') ->
    Spec.cycle_effect stats stats' tracker tracker' ok.
Proof.
  intros symbol quantity stats stats' tracker tracker' r ok E.
  exact (run_trading_cycle_effect symbol quantity stats stats' tracker tracker' r ok E).
Qed.

(** A cycle that gains 0.4 on a fresh session. *)
Lemma v3_cycle_moves_one_counter_witness :
  exists stats' tracker',
    CycleV3.run_trading_cycle "ETH/USDT-P"%string 0.4%float
      (TradingStats.init 0) MarketTrendTracker.init (Spec.cycle_closing_at 1000.4%float)
    = Ok (true, stats', tracker') /\
    Spec.cycle_effect (TradingStats.init 0) stats' MarketTrendTracker.init tracker' true.
Proof.
  eexists. eexists. split; [reflexivity |].
  exact (v3_cycle_moves_one_counter "ETH/USDT-P"%string 0.4%float
           (TradingStats.init 0) _ MarketTrendTracker.init _
           (Spec.cycle_closing_at 1000.4%float) true eq_refl).
Defined.

Section CycleV3Settlement.

Import Cycle CycleV3.

Variables (symbol : String.string) (quantity : float).
Variables (stats : TradingStats.t) (tracker : MarketTrendTracker.t) (r : replies).
Variables (buy sell : leg_result) (h1 h2 : history).

Hypothesis bought : buy_leg r (price_history tracker) = Ok (buy, h1).
Hypothesis buy_ok : success buy = true.
Hypothesis position_seen : verify_position symbol r <> Ok None.
Hypothesis sold : sell_leg r (price buy) h1 = Ok (sell, h2).
Hypothesis sell_ok : success sell = true.

Lemma run_trading_cycle_settles :
  exists fees_paid,
    run_trading_cycle symbol quantity stats tracker r =
    (let '(cycle_pnl, fees_paid0, tracker0) :=
       Py.try_except
         (settle (balance_or_zero (account_before r)) fees_paid
            (with_history (with_history tracker h1) h2) r)
         (fun _ => (0%float, fees_paid, with_history (with_history tracker h1) h2)) in
     Ok (true,
         TradingStats.add_cycle stats true (price buy) (price sell) quantity
           cycle_pnl (adjustments buy) (adjustments sell) fees_paid0,
         tracker0)).
Proof.
  unfold run_trading_cycle. rewrite bought. cbn [Py.bind]. rewrite buy_ok. cbn [negb].
  destruct (verify_position symbol r) as [[f |] | e]; [| contradiction |];
    cbn [price_history with_history]; rewrite sold; cbn [Py.bind];
    rewrite sell_ok; cbn [negb]; eexists; reflexivity.
Qed.

End CycleV3Settlement.

(** X16. When both legs of a cycle of volume_bot_maker_only_v3.py have
    filled but the closing balance, or the trade list after it, cannot be
    read, the cycle is still logged as completed, with a P&L of 0: it counts
    as a losing cycle, and the tracker's loss counter is left as it was. *)
Theorem v3_cycle_unreadable_close :
  forall (symbol : String.string) (quantity : float)
         (stats : TradingStats.t) (tracker : MarketTrendTracker.t)
         (r : CycleV3.replies) (buy sell : Cycle.leg_result) (h1 h2 : Cycle.history),
    CycleV3.buy_leg r (price_history tracker) = Ok (buy, h1) ->
    Cycle.success buy = true ->
    CycleV3.verify_position symbol r <> Ok None ->
    CycleV3.sell_leg r (Cycle.price buy) h1 = Ok (sell, h2) ->
    Cycle.success sell = true ->
    (exists e, CycleV3.account_after_sell r = Raise e) \/
    (exists e, CycleV3.trades_after_sell r = Raise e) ->
    exists stats' tracker',
      CycleV3.run_trading_cycle symbol quantity stats tracker r
        = Ok (true, stats', tracker') /\
      TradingStats.cycle_details stats' <> [] /\
      TradingStats.d_pnl (last (TradingStats.cycle_details stats')
                               (TradingStats.mk_detail false 1 1 1 1 0 0 1 1))
        = 0%float /\
      TradingStats.losing_cycles stats' = (TradingStats.losing_cycles stats + 1)%Z /\
      TradingStats.profitable_cycles stats' = TradingStats.profitable_cycles stats /\
      consecutive_losses tracker' = consecutive_losses tracker.
Proof.
  intros symbol quantity stats tracker r buy sell h1 h2 Hb Hbo Hv Hs Hso Hfail.
  destruct (run_trading_cycle_settles symbol quantity stats tracker r buy sell h1 h2
              Hb Hbo Hv Hs Hso) as [fees E].
  rewrite E.
  assert (Hraise : exists e, CycleV3.settle (Cycle.balance_or_zero (CycleV3.account_before r))
                               fees
                               (CycleV3.with_history (CycleV3.with_history tracker h1) h2) r
                             = Raise e).
  { unfold CycleV3.settle.
    destruct Hfail as [[e He] | [e He]].
    - rewrite He. exists e. reflexivity.
    - destruct (CycleV3.account_after_sell r) as [a | e'];
        [rewrite He; exists e | exists e']; reflexivity. }
  destruct Hraise as [e He]. rewrite He. cbn [Py.try_except].
  eexists. eexists. split; [reflexivity |].
  unfold TradingStats.add_cycle.
  cbn [TradingStats.cycle_details TradingStats.losing_cycles
       TradingStats.profitable_cycles].
  split; [destruct (TradingStats.cycle_details stats); discriminate |].
  split; [rewrite last_last; reflexivity |].
  repeat split.
Qed.

Lemma v3_cycle_unreadable_close_witness :
  exists stats' tracker',
    CycleV3.run_trading_cycle "ETH/USDT-P"%string 0.4%float
      (TradingStats.init 0) (MarketTrendTracker.mk [] 2 0 0) Spec.cycle_closing_unread
    = Ok (true, stats', tracker') /\
    TradingStats.cycle_details stats' <> [] /\
    TradingStats.d_pnl (last (TradingStats.cycle_details stats')
                             (TradingStats.mk_detail false 1 1 1 1 0 0 1 1))
      = 0%float /\
    TradingStats.losing_cycles stats' = (0 + 1)%Z /\
    TradingStats.profitable_cycles stats' = 0%Z /\
    consecutive_losses tracker' = 2%Z.
Proof.
  apply (v3_cycle_unreadable_close "ETH/USDT-P"%string 0.4%float (TradingStats.init 0)
           (MarketTrendTracker.mk [] 2 0 0) Spec.cycle_closing_unread
           (Cycle.mk_leg_result true 100 1) (Cycle.mk_leg_result true 101 2) [] []);
    try reflexivity.
  - discriminate.
  - left. exists GatewayError. reflexivity.
Defined.

(** X17. When the opening balance of a cycle of volume_bot_maker_only_v3.py
    cannot be read it is taken to be 0: if the cycle then completes and its
    closing balance is read, the P&L logged and given to the tracker is the
    closing balance minus 0, the whole balance of the account. *)
Theorem v3_cycle_unreadable_open :
  forall (symbol : String.string) (quantity : float)
         (stats : TradingStats.t) (tracker : MarketTrendTracker.t)
         (r : CycleV3.replies) (buy sell : Cycle.leg_result) (h1 h2 : Cycle.history)
         (e : Py.exn) (a : Cycle.account) (trades : list (option float)),
    CycleV3.account_before r = Raise e ->
    CycleV3.buy_leg r (price_history tracker) = Ok (buy, h1) ->
    Cycle.success buy = true ->
    CycleV3.verify_position symbol r <> Ok None ->
    CycleV3.sell_leg r (Cycle.price buy) h1 = Ok (sell, h2) ->
    Cycle.success sell = true ->
    CycleV3.account_after_sell r = Ok a ->
    CycleV3.trades_after_sell r = Ok trades ->
    let pnl := PrimFloat.sub (Cycle.balance a) 0%float in
    exists fees,
      CycleV3.run_trading_cycle symbol quantity stats tracker r
      = Ok (true,
            TradingStats.add_cycle stats true (Cycle.price buy) (Cycle.price sell)
              quantity pnl (Cycle.adjustments buy) (Cycle.adjustments sell) fees,
            MarketTrendTracker.record_cycle_result
              (CycleV3.with_history (CycleV3.with_history tracker h1) h2) pnl).
Proof.
  intros symbol quantity stats tracker r buy sell h1 h2 e a trades
         Hopen Hb Hbo Hv Hs Hso Ha Ht pnl.
  destruct (run_trading_cycle_settles symbol quantity stats tracker r buy sell h1 h2
              Hb Hbo Hv Hs Hso) as [fees E].
  rewrite E. unfold CycleV3.settle, Cycle.balance_or_zero.
  rewrite Hopen, Ha, Ht. cbn [Py.bind Py.try_except].
  eexists. reflexivity.
Qed.

(** A cycle that in fact lost 0.8 (the balance went from 1000 to 999.2)
    while the opening balance could not be read: it is logged with a profit
    of 999.2, and a loss streak of two is reset. *)
Lemma v3_cycle_unreadable_open_witness :
  exists stats' tracker',
    CycleV3.run_trading_cycle "ETH/USDT-P"%string 0.4%float
      (TradingStats.init 0) (MarketTrendTracker.mk [] 2 0 0)
      (Spec.cycle_opening_unread 999.2%float)
    = Ok (true, stats', tracker') /\
    TradingStats.profitable_cycles stats' = 1%Z /\
    consecutive_losses tracker' = 0%Z.
Proof.
  destruct (v3_cycle_unreadable_open "ETH/USDT-P"%string 0.4%float (TradingStats.init 0)
              (MarketTrendTracker.mk [] 2 0 0) (Spec.cycle_opening_unread 999.2%float)
              (Cycle.mk_leg_result true 100 1) (Cycle.mk_leg_result true 101 2) [] []
              GatewayError (Cycle.mk_account 999.2 []) [None]
              eq_refl eq_refl eq_refl ltac:(discriminate) eq_refl eq_refl eq_refl eq_refl)
    as [fees E].
  eexists. eexists. split; [exact E |]. split; reflexivity.
Defined.

(** ** The main loop of volume_bot_maker_only_v3.py *)

Section SessionV3Facts.

Variables (symbol : String.string) (quantity : float).

Lemma main_loop_body_invariant (n : Z) (stats stats' : TradingStats.t)
    (tracker tracker' : MarketTrendTracker.t) (it : SessionV3.iteration) :
  Spec.session_invariant n stats tracker ->
  SessionV3.main_loop_body symbol quantity stats tracker it = Ok (stats', tracker') ->
  Spec.session_invariant (n + 1) stats' tracker'.
Proof.
  unfold Spec.session_invariant, SessionV3.main_loop_body, should_cooldown.
  intros [Hl [Hc [Hp [Hd Hn]]]].
  destruct (Z.leb_spec 3 (consecutive_losses tracker)) as [Hcool | Hrun].
  - intros E. injection E as <- <-.
    unfold SessionV3.set_total_cooldowns, do_cooldown. cbn.
    repeat split; lia.
  - destruct (CycleV3.run_trading_cycle symbol quantity stats tracker (SessionV3.cycle it))
      as [[[ok s1] t1] | e] eqn:Er; cbn [Py.bind]; [| discriminate].
    intros E. injection E as <- <-.
    apply run_trading_cycle_effect in Er.
    destruct Er as [Ht [Hs [H | [H | H]]]].
    + destruct H as [_ [H1 [H2 [H3 [H4 [H5 [H6 H7]]]]]]].
      rewrite H7. repeat split; lia.
    + destruct H as [_ [H1 [H2 [H3 [H4 [H5 [H6 H7]]]]]]].
      rewrite H7. repeat split; lia.
    + destruct H as [_ [H1 [H2 [H3 [H4 [H5 H6]]]]]].
      rewrite H6. repeat split; lia.
Qed.

Lemma session_invariant_kept (iterations : list SessionV3.iteration) :
  forall (n : Z) (stats stats' : TradingStats.t)
         (tracker tracker' : MarketTrendTracker.t),
    Spec.session_invariant n stats tracker ->
    SessionV3.session symbol quantity stats tracker iterations = Ok (stats', tracker') ->
    Spec.session_invariant (n + Z.of_nat (length iterations)) stats' tracker'.
Proof.
  induction iterations as [| it rest IH]; intros n stats stats' tracker tracker' Hinv E.
  - cbn [SessionV3.session] in E. injection E as <- <-.
    cbn [length]. rewrite Z.add_0_r. exact Hinv.
  - cbn [SessionV3.session] in E.
    destruct (SessionV3.main_loop_body symbol quantity stats tracker it)
      as [[s1 t1] | e] eqn:Eb; cbn [Py.bind fst snd] in E; [| discriminate].
    pose proof (main_loop_body_invariant n stats s1 tracker t1 it Hinv Eb) as H1.
    specialize (IH (n + 1)%Z s1 stats' t1 tracker' H1 E).
    replace (n + Z.of_nat (length (it :: rest)))%Z
      with (n + 1 + Z.of_nat (length rest))%Z by (cbn [length]; lia).
    exact IH.
Qed.

End SessionV3Facts.

(** X18. In a session of volume_bot_maker_only_v3.py, started with fresh
    statistics and a fresh tracker, after any number of turns of the main
    loop: the loss counter is between 0 and 3, so a cycle never starts with
    three losses standing; the statistics' cooldown count is the tracker's;
    every completed cycle is logged once and counted once as profitable or
    losing; and each turn was exactly one of a completed cycle, a failed buy,
    a failed sell or a cooldown. *)
Theorem v3_session_invariant :
  forall (symbol : String.string) (quantity : float) (now : Z)
         (iterations : list SessionV3.iteration)
         (stats : TradingStats.t) (tracker : MarketTrendTracker.t),
    SessionV3.session symbol quantity (TradingStats.init now) MarketTrendTracker.init
      iterations = Ok (stats, tracker) ->
    Spec.session_invariant (Z.of_nat (length iterations)) stats tracker.
Proof.
  intros symbol quantity now iterations stats tracker E.
  apply (session_invariant_kept symbol quantity iterations 0%Z
           (TradingStats.init now) stats MarketTrendTracker.init tracker); [| exact E].
  unfold Spec.session_invariant. cbn. repeat split; lia.
Qed.

(** Three cycles that each lose 0.8, then two more turns: the fourth turn is
    the cooldown, the fifth a cycle again. *)
Lemma v3_session_invariant_witness :
  exists stats tracker,
    SessionV3.session "ETH/USDT-P"%string 0.4%float (TradingStats.init 0)
      MarketTrendTracker.init
      [SessionV3.mk_iteration 0 (Spec.cycle_closing_at 999.2%float);
       SessionV3.mk_iteration 300 (Spec.cycle_closing_at 999.2%float);
       SessionV3.mk_iteration 600 (Spec.cycle_closing_at 999.2%float);
       SessionV3.mk_iteration 900 (Spec.cycle_closing_at 999.2%float);
       SessionV3.mk_iteration 1500 (Spec.cycle_closing_at 1000.4%float)]
    = Ok (stats, tracker) /\
    TradingStats.completed_cycles stats = 4%Z /\
    TradingStats.total_cooldowns stats = 1%Z /\
    Spec.session_invariant 5 stats tracker.
Proof.
  eexists. eexists. split; [reflexivity |].
  split; [reflexivity |]. split; [reflexivity |].
  exact (v3_session_invariant "ETH/USDT-P"%string 0.4%float 0
           [SessionV3.mk_iteration 0 (Spec.cycle_closing_at 999.2%float);
            SessionV3.mk_iteration 300 (Spec.cycle_closing_at 999.2%float);
            SessionV3.mk_iteration 600 (Spec.cycle_closing_at 999.2%float);
            SessionV3.mk_iteration 900 (Spec.cycle_closing_at 999.2%float);
            SessionV3.mk_iteration 1500 (Spec.cycle_closing_at 1000.4%float)]
           _ _ eq_refl).
Defined.

(** ** CycleController and main loop of shorter.py *)

Section CycleShorterFacts.

Import Cycle CycleShorter.

Variables (symbol : String.string) (quantity : float).

Lemma completed_directional_effect (stats : DirectionalStats.t)
    (tracker tracker' : MarketDirectionTracker.t) (direction : String.string)
    (buy_price sell_price pnl : float) (ba sa : Z) :
  MarketDirectionTracker.current_direction tracker'
    = MarketDirectionTracker.current_direction tracker ->
  Spec.directional_cycle_effect stats
    (DirectionalStats.add_cycle stats direction buy_price sell_price quantity pnl
       ba sa 0%float)
    tracker tracker' true.
Proof.
  intros Hd. unfold Spec.directional_cycle_effect.
  destruct (directional_add_cycle_counters stats direction buy_price sell_price
              quantity pnl 0%float ba sa) as [H1 [H2 [H3 [H4 [_ [_ H7]]]]]].
  split; [exact Hd |]. split; [exact H4 |].
  split; [exact H1 |]. split; [exact H2 |]. split; [exact H3 | exact H7].
Qed.

Lemma failed_directional_effect (stats stats' : DirectionalStats.t)
    (tracker tracker' : MarketDirectionTracker.t) :
  stats' = stats \/ stats' = fail_buy stats \/ stats' = fail_sell stats ->
  MarketDirectionTracker.current_direction tracker'
    = MarketDirectionTracker.current_direction tracker ->
  Spec.directional_cycle_effect stats stats' tracker tracker' false.
Proof.
  intros Hs Hd. unfold Spec.directional_cycle_effect.
  split; [exact Hd |].
  destruct Hs as [-> | [-> | ->]]; repeat split.
Qed.

Lemma run_long_cycle_effect (stats stats' : DirectionalStats.t)
    (tracker tracker' : MarketDirectionTracker.t) (r : replies) (ok : bool) (pnl : float) :
  run_long_cycle symbol quantity stats tracker r = Ok (ok, pnl, stats', tracker') ->
  Spec.directional_cycle_effect stats stats' tracker tracker' ok.
Proof.
  unfold run_long_cycle.
  destruct (buy_leg r _) as [[buy h1] | e]; cbn [Py.bind]; [| discriminate].
  destruct (success buy); cbn [negb].
  2: { intros E. injection E as <- <- <- <-.
       apply failed_directional_effect; [auto | reflexivity]. }
  destruct (position_found symbol r); cbn [negb].
  2: { intros E. injection E as <- <- <- <-.
       apply failed_directional_effect; [auto | reflexivity]. }
  destruct (sell_leg r _ _ _) as [[sell h2] | e]; cbn [Py.bind]; [| discriminate].
  destruct (success sell); cbn [negb]; intros E; injection E as <- <- <- <-.
  - apply completed_directional_effect. reflexivity.
  - apply failed_directional_effect; [auto | reflexivity].
Qed.

Lemma run_short_cycle_effect (stats stats' : DirectionalStats.t)
    (tracker tracker' : MarketDirectionTracker.t) (r : replies) (ok : bool) (pnl : float) :
  run_short_cycle symbol quantity stats tracker r = Ok (ok, pnl, stats', tracker') ->
  Spec.directional_cycle_effect stats stats' tracker tracker' ok.
Proof.
  unfold run_short_cycle.
  destruct (quote r) as [best_bid best_ask].
  destruct (Py.truthy_opt best_bid); cbn [negb].
  2: { intros E. injection E as <- <- <- <-.
       apply failed_directional_effect; [auto | reflexivity]. }
  destruct (sell_leg r _ _ _) as [[sell h1] | e]; cbn [Py.bind]; [| discriminate].
  destruct (success sell); cbn [negb].
  2: { intros E. injection E as <- <- <- <-.
       apply failed_directional_effect; [auto | reflexivity]. }
  destruct (position_found symbol r); cbn [negb].
  2: { intros E. injection E as <- <- <- <-.
       apply failed_directional_effect; [auto | reflexivity]. }
  destruct (buy_leg r _) as [[buy h2] | e]; cbn [Py.bind]; [| discriminate].
  destruct (success buy); cbn [negb]; intros E; injection E as <- <- <- <-.
  - apply completed_directional_effect. reflexivity.
  - apply failed_directional_effect; [auto | reflexivity].
Qed.

Lemma main_loop_body_directional (stats stats' : DirectionalStats.t)
    (tracker tracker' : MarketDirectionTracker.t) (r : replies) :
  Spec.directional_invariant stats tracker ->
  main_loop_body symbol quantity stats tracker r = Ok (stats', tracker') ->
  Spec.directional_invariant stats' tracker'.
Proof.
  unfold main_loop_body, run_trading_cycle.
  intros [Hdir [Hf [Hp [Hd Hfee]]]].
  assert (Heff : forall ok pnl s1 t1,
             (if String.eqb (MarketDirectionTracker.current_direction tracker) "LONG"
              then run_long_cycle symbol quantity stats tracker r
              else run_short_cycle symbol quantity stats tracker r)
             = Ok (ok, pnl, s1, t1) ->
             Spec.directional_cycle_effect stats s1 tracker t1 ok).
  { intros ok pnl s1 t1.
    destruct (String.eqb _ _);
      [apply run_long_cycle_effect | apply run_short_cycle_effect]. }
  destruct (if String.eqb _ _ then _ else _) as [[[[ok pnl] s1] t1] | e];
    cbn [Py.bind]; [| discriminate].
  specialize (Heff ok pnl s1 t1 eq_refl).
  destruct Heff as [Hd1 [Hf1 Hrest]].
  destruct ok.
  - destruct Hrest as [H1 [H2 [H3 H4]]].
    assert (Hfee1 : DirectionalStats.total_fees_paid s1 = 0%float)
      by (rewrite H4, Hfee; reflexivity).
    unfold MarketDirectionTracker.record_cycle_result.
    destruct (PrimFloat.ltb pnl (-0.50)%float); intros E; injection E as <- <-.
    + unfold Spec.directional_invariant, count_flip, MarketDirectionTracker.flip_direction.
      cbn. rewrite Hd1, Hdir.
      split.
      * rewrite Hf1.
        replace (DirectionalStats.direction_flips stats + 1)%Z
          with (Z.succ (DirectionalStats.direction_flips stats)) by lia.
        rewrite Z.even_succ, <- Z.negb_even.
        destruct (Z.even (DirectionalStats.direction_flips stats)); reflexivity.
      * repeat split; try lia. exact Hfee1.
    + unfold Spec.directional_invariant. cbn. rewrite Hd1, Hdir, Hf1.
      repeat split; try lia. exact Hfee1.
  - destruct Hrest as [H1 [H2 [H3 [H4 [H5 H6]]]]].
    intros E. injection E as <- <-.
    unfold Spec.directional_invariant. rewrite Hd1, Hdir, Hf1, H5, H6.
    repeat split; try lia. exact Hfee.
Qed.

End CycleShorterFacts.

(** X19. In a session of shorter.py, started with fresh statistics and a
    fresh tracker, after any number of turns of the main loop: the direction
    is "LONG" when [direction_flips] is even and "SHORT" when it is odd; there
    are no more flips than completed cycles; every completed cycle is logged
    once and counted once as profitable or losing; and [total_fees_paid] is
    0, since both cycle functions pass 0 for the fees. *)
Theorem shorter_session_invariant :
  forall (symbol : String.string) (quantity : float) (now : Z)
         (cycles : list CycleShorter.replies)
         (stats : DirectionalStats.t) (tracker : MarketDirectionTracker.t),
    CycleShorter.session symbol quantity (DirectionalStats.init now)
      MarketDirectionTracker.init cycles = Ok (stats, tracker) ->
    Spec.directional_invariant stats tracker.
Proof.
  intros symbol quantity now cycles.
  assert (H0 : Spec.directional_invariant (DirectionalStats.init now)
                 MarketDirectionTracker.init).
  { unfold Spec.directional_invariant. cbn. repeat split; lia. }
  revert H0.
  generalize (DirectionalStats.init now) as s0, MarketDirectionTracker.init as t0.
  induction cycles as [| r rest IH]; intros s0 t0 H0 stats tracker E.
  - cbn [CycleShorter.session] in E. injection E as <- <-. exact H0.
  - cbn [CycleShorter.session] in E.
    destruct (CycleShorter.main_loop_body symbol quantity s0 t0 r)
      as [[s1 t1] | e] eqn:Eb; cbn [Py.bind fst snd] in E; [| discriminate].
    apply (IH s1 t1); [| exact E].
    exact (main_loop_body_directional symbol quantity s0 s1 t0 t1 r H0 Eb).
Qed.

(** A long cycle that loses 0.8, then a short cycle that gains 0.4: one flip,
    and the session goes on short. *)
Lemma shorter_session_invariant_witness :
  exists stats tracker,
    CycleShorter.session "ETH/USDT-P"%string 0.0006%float (DirectionalStats.init 0)
      MarketDirectionTracker.init
      [Spec.directional_cycle_closing_at 999.2%float;
       Spec.directional_cycle_closing_at 1000.4%float]
    = Ok (stats, tracker) /\
    (DirectionalStats.long_cycles stats, DirectionalStats.short_cycles stats,
     DirectionalStats.direction_flips stats) = (1, 1, 1)%Z /\
    MarketDirectionTracker.current_direction tracker = "SHORT"%string /\
    Spec.directional_invariant stats tracker.
Proof.
  eexists. eexists. split; [reflexivity |].
  split; [reflexivity |]. split; [reflexivity |].
  exact (shorter_session_invariant "ETH/USDT-P"%string 0.0006%float 0
           [Spec.directional_cycle_closing_at 999.2%float;
            Spec.directional_cycle_closing_at 1000.4%float]
           _ _ eq_refl).
Defined.

(** ** The opening leg and the downtrend *)

Section OpeningLeg.

(** A history that ends with five falling prices shows a downtrend. *)
Lemma falling_tail_downtrend (self : MarketTrendTracker.t) (older : list (Z * float))
    (t1 t2 t3 t4 t5 : Z) (p1 p2 p3 p4 p5 : float) :
  price_history self = older ++ [(t1, p1); (t2, p2); (t3, p3); (t4, p4); (t5, p5)] ->
  PrimFloat.ltb p2 p1 = true -> PrimFloat.ltb p3 p2 = true ->
  PrimFloat.ltb p4 p3 = true -> PrimFloat.ltb p5 p4 = true ->
  is_downtrend self = true.
Proof.
  intros E L2 L3 L4 L5.
  apply is_downtrend_count. unfold Spec.recent_prices. rewrite E.
  pose proof (last_n_app older [(t1, p1); (t2, p2); (t3, p3); (t4, p4); (t5, p5)]) as HL.
  cbn [length] in HL. rewrite !HL.
  unfold Spec.decreasing_pairs, Spec.consecutive_pairs, Spec.strictly_decreasing.
  cbn [map snd tl combine filter fst length].
  rewrite L2, L3, L4, L5. cbn [length]. lia.
Qed.

(** The downtrend test asks every consecutive pair of the recent prices to
    fall. *)
Lemma is_downtrend_all_pairs (self : MarketTrendTracker.t) :
  is_downtrend self = true ->
  Forall (fun p => Spec.strictly_decreasing p = true)
         (Spec.consecutive_pairs (Spec.recent_prices self)).
Proof.
  intros H. apply is_downtrend_count in H. destruct H as [_ H].
  apply filter_all. rewrite consecutive_pairs_length. exact H.
Qed.

Lemma consecutive_pairs_last (l : list float) (a b : float) :
  In (a, b) (Spec.consecutive_pairs (l ++ [a; b])).
Proof.
  unfold Spec.consecutive_pairs.
  induction l as [| x [| y l] IH].
  - left. reflexivity.
  - right. left. reflexivity.
  - right. exact IH.
Qed.

Lemma last_n_two {A : Type} (k : nat) (older : list A) (a b : A) :
  2 <= k -> exists kept, Py.last_n k (older ++ [a; b]) = kept ++ [a; b].
Proof.
  intros Hk. unfold Py.last_n. rewrite length_app. cbn [length].
  exists (skipn (length older + 2 - k) older).
  rewrite skipn_app.
  replace (length older + 2 - k - length older) with 0 by lia.
  reflexivity.
Qed.

(** A history whose last step is not a fall shows no downtrend. *)
Lemma rising_tail_no_downtrend (self : MarketTrendTracker.t) (older : list (Z * float))
    (t4 t5 : Z) (p4 p5 : float) :
  price_history self = older ++ [(t4, p4); (t5, p5)] ->
  PrimFloat.ltb p5 p4 = false ->
  is_downtrend self = false.
Proof.
  intros E L.
  destruct (is_downtrend self) eqn:Hd; [| reflexivity].
  apply is_downtrend_all_pairs in Hd.
  unfold Spec.recent_prices in Hd. rewrite E in Hd.
  destruct (last_n_two 5 older (t4, p4) (t5, p5) ltac:(lia)) as [kept Hk].
  rewrite Hk, map_app in Hd. cbn [map snd] in Hd.
  rewrite Forall_forall in Hd.
  specialize (Hd (p4, p5) (consecutive_pairs_last _ p4 p5)).
  unfold Spec.strictly_decreasing in Hd. cbn [fst snd] in Hd. congruence.
Qed.

End OpeningLeg.

(** X20. [place_maker_buy_order] records the fresh bid before it asks for
    the trend. When the four latest recorded prices fall, all less than 1800
    seconds old, and the fresh bid is lower still, the first order is placed
    0.3 below the bid (30 ticks). When the fresh bid is not lower than the
    latest recorded price, it is placed 0.2 below the bid (20 ticks). *)
Theorem buy_start_offset :
  (forall (tracker : MarketTrendTracker.t) (older : list (Z * float))
          (t1 t2 t3 t4 quoted_at : Z) (p1 p2 p3 p4 bid ask : float)
          (id placed_at : Z),
      price_history tracker = older ++ [(t1, p1); (t2, p2); (t3, p3); (t4, p4)] ->
      (quoted_at - 1800 < t1)%Z -> (quoted_at - 1800 < t2)%Z ->
      (quoted_at - 1800 < t3)%Z -> (quoted_at - 1800 < t4)%Z ->
      PrimFloat.ltb p2 p1 = true -> PrimFloat.ltb p3 p2 = true ->
      PrimFloat.ltb p4 p3 = true -> PrimFloat.ltb bid p4 = true ->
      Py.truthy bid = true ->
      BuyLeg.start tracker (Some bid, Some ask) quoted_at (Ok id) placed_at
      = Ok (Some (Lifecycle.mk_leg id (PrimFloat.sub bid 0.3%float) 0.3%float 0
                    placed_at placed_at),
            add_price_point tracker quoted_at bid)) /\
  (forall (tracker : MarketTrendTracker.t) (older : list (Z * float))
          (t4 quoted_at : Z) (p4 bid ask : float) (id placed_at : Z),
      price_history tracker = older ++ [(t4, p4)] ->
      (quoted_at - 1800 < t4)%Z ->
      PrimFloat.ltb bid p4 = false ->
      Py.truthy bid = true ->
      BuyLeg.start tracker (Some bid, Some ask) quoted_at (Ok id) placed_at
      = Ok (Some (Lifecycle.mk_leg id (PrimFloat.sub bid 0.2%float) 0.2%float 0
                    placed_at placed_at),
            add_price_point tracker quoted_at bid)).
Proof.
  split.
  - intros tracker older t1 t2 t3 t4 quoted_at p1 p2 p3 p4 bid ask id placed_at
           E W1 W2 W3 W4 L2 L3 L4 L5 Tb.
    unfold BuyLeg.start. cbn [Py.truthy_opt]. rewrite Tb.
    cbn [negb Py.number Py.bind].
    pose proof (add_price_point_app tracker older _ quoted_at bid E
                  ltac:(repeat constructor; cbn [fst]; assumption)) as Ea.
    cbn [app] in Ea.
    rewrite (falling_tail_downtrend _ _ _ _ _ _ _ _ _ _ _ _ Ea L2 L3 L4 L5).
    reflexivity.
  - intros tracker older t4 quoted_at p4 bid ask id placed_at E W4 L Tb.
    unfold BuyLeg.start. cbn [Py.truthy_opt]. rewrite Tb.
    cbn [negb Py.number Py.bind].
    pose proof (add_price_point_app tracker older _ quoted_at bid E
                  ltac:(repeat constructor; cbn [fst]; assumption)) as Ea.
    cbn [app] in Ea.
    rewrite (rising_tail_no_downtrend _ _ _ _ _ _ Ea L).
    reflexivity.
Qed.

(** Four quotes falling from 10 to 7, then a bid of 6: 5.7 is bid. The same
    four quotes, then a bid of 7.5: 7.3 is bid. *)
Lemma buy_start_offset_witness :
  let tracker :=
    MarketTrendTracker.mk
      [(0%Z, 10%float); (60%Z, 9%float); (120%Z, 8%float); (180%Z, 7%float)] 0 0 0 in
  BuyLeg.start tracker (Some 6%float, Some 6.1%float) 240 (Ok 1%Z) 241
  = Ok (Some (Lifecycle.mk_leg 1 (PrimFloat.sub 6%float 0.3%float) 0.3%float 0 241 241),
        add_price_point tracker 240 6%float) /\
  BuyLeg.start tracker (Some 7.5%float, Some 7.6%float) 240 (Ok 1%Z) 241
  = Ok (Some (Lifecycle.mk_leg 1 (PrimFloat.sub 7.5%float 0.2%float) 0.2%float 0 241 241),
        add_price_point tracker 240 7.5%float).
Proof.
  cbv zeta. split.
  - apply (proj1 buy_start_offset _ [] 0%Z 60%Z 120%Z 180%Z 240%Z
             10%float 9%float 8%float 7%float); try reflexivity.
  - apply (proj2 buy_start_offset _
             [(0%Z, 10%float); (60%Z, 9%float); (120%Z, 8%float)] 180%Z 240%Z 7%float);
      try reflexivity.
Defined.

(** X21. In the loop of the opening leg, from the seventh adjustment on
    (the count standing at 6 or more), an adjusting step that gets a quote
    with a non-zero bid re-submits the order at the best bid itself; it
    records that bid in the tracker and adds one to the count, whether or not
    the new order is accepted. *)
Theorem buy_turn_at_best_bid :
  forall (tracker : MarketTrendTracker.t) (l : Lifecycle.leg)
         (o : Lifecycle.observation) (quoted_at : Z) (bid ask : float),
    Lifecycle.order_status o <> Ok true ->
    (BuyPolicy.adjustment_interval
       <= Lifecycle.now o - Lifecycle.last_adjustment l)%Z ->
    Lifecycle.quote o = (Some bid, Some ask) ->
    Py.truthy bid = true ->
    (6 <= Lifecycle.adjustment_count l)%Z ->
    exists l',
      BuyLeg.turn tracker l o quoted_at
      = Ok (Lifecycle.Resting l', add_price_point tracker quoted_at bid) /\
      Lifecycle.current_price l' = bid /\
      Lifecycle.adjustment_count l' = (Lifecycle.adjustment_count l + 1)%Z.
Proof.
  intros tracker l o quoted_at bid ask Hs Hdue Hq Tb Hc.
  unfold BuyLeg.turn. apply Z.leb_le in Hdue. rewrite Hdue.
  assert (Ha : exists l',
             BuyLeg.adjust tracker l o quoted_at
             = Ok (Lifecycle.Resting l', add_price_point tracker quoted_at bid) /\
             Lifecycle.current_price l' = bid /\
             Lifecycle.adjustment_count l' = (Lifecycle.adjustment_count l + 1)%Z).
  { unfold BuyLeg.adjust. rewrite Hq. cbn [Py.truthy_opt]. rewrite Tb.
    cbn [negb Py.number Py.bind]. unfold BuyPolicy.reprice.
    destruct (Z.leb_spec (Lifecycle.adjustment_count l + 1) 3); [lia |].
    destruct (Z.leb_spec (Lifecycle.adjustment_count l + 1) 6); [lia |].
    destruct (Lifecycle.placement o); eexists; repeat split. }
  destruct (Lifecycle.order_status o) as [[|] | e]; [contradiction | exact Ha | exact Ha].
Qed.

Lemma buy_turn_at_best_bid_witness :
  exists l',
    BuyLeg.turn MarketTrendTracker.init
      (Lifecycle.mk_leg 7 99.99 0.01 6 0 400)
      (Lifecycle.mk_obs 460 (Ok false) (Some 100%float, Some 100.1%float) (Ok 8%Z) 461)
      459
    = Ok (Lifecycle.Resting l', add_price_point MarketTrendTracker.init 459 100%float) /\
    Lifecycle.current_price l' = 100%float /\
    Lifecycle.adjustment_count l' = (6 + 1)%Z.
Proof.
  apply (buy_turn_at_best_bid MarketTrendTracker.init
           (Lifecycle.mk_leg 7 99.99 0.01 6 0 400)
           (Lifecycle.mk_obs 460 (Ok false) (Some 100%float, Some 100.1%float) (Ok 8%Z) 461)
           459 100%float 100.1%float);
    try reflexivity; try discriminate; cbn; lia.
Defined.

(** X22. A quote with a non-zero bid and no ask (what
    [get_robust_market_prices] returns for a book without asks) passes the
    legs' test [if not best_bid]; the next line that does arithmetic on the
    ask, or formats it, raises [TypeError], outside every [try] block: the
    opening leg and the closing leg of both files let it through, at their
    start and in their adjusting step. *)
Theorem legs_raise_without_ask :
  forall (bid : float),
    Py.truthy bid = true ->
    (forall tracker quoted_at placement placed_at,
        BuyLeg.start tracker (Some bid, None) quoted_at placement placed_at
        = Raise TypeError) /\
    (forall quantity buy_price placement placed_at,
        Lifecycle.start (Lifecycle.V3.potential_pnl buy_price quantity) buy_price
          (Some bid, None) placement placed_at = Raise TypeError) /\
    (forall quantity entry_price is_short placement placed_at,
        Lifecycle.start (Lifecycle.Shorter.potential_pnl is_short entry_price quantity)
          entry_price (Some bid, None) placement placed_at = Raise TypeError) /\
    (forall quantity buy_price l o,
        Lifecycle.order_status o <> Ok true ->
        (SellPolicy.adjustment_interval
           <= Lifecycle.now o - Lifecycle.last_adjustment l)%Z ->
        Lifecycle.quote o = (Some bid, None) ->
        Lifecycle.V3.place_maker_sell_order_turn quantity buy_price l o
        = Raise TypeError) /\
    (forall tracker l o quoted_at,
        Lifecycle.order_status o <> Ok true ->
        (BuyPolicy.adjustment_interval
           <= Lifecycle.now o - Lifecycle.last_adjustment l)%Z ->
        Lifecycle.quote o = (Some bid, None) ->
        BuyLeg.turn tracker l o quoted_at = Raise TypeError) /\
    (forall quantity entry_price is_short l o,
        Lifecycle.order_status o <> Ok true ->
        (SellPolicy.adjustment_interval
           <= Lifecycle.now o - Lifecycle.last_adjustment l)%Z \/
        (SellPolicy.max_wait_time
           <= Lifecycle.now o - Lifecycle.order_start_time l)%Z ->
        Lifecycle.quote o = (Some bid, None) ->
        Lifecycle.Shorter.place_maker_sell_order_turn quantity entry_price is_short l o
        = Raise TypeError).
Proof.
  intros bid Tb. split; [| split; [| split; [| split; [| split]]]].
  - intros. unfold BuyLeg.start. cbn [Py.truthy_opt]. rewrite Tb. reflexivity.
  - intros. unfold Lifecycle.start. cbn [Py.truthy_opt]. rewrite Tb. reflexivity.
  - intros quantity entry_price is_short placement placed_at.
    unfold Lifecycle.start. cbn [Py.truthy_opt]. rewrite Tb.
    destruct is_short; reflexivity.
  - intros quantity buy_price l o Hs Hdue Hq.
    unfold Lifecycle.V3.place_maker_sell_order_turn, Lifecycle.turn,
      Lifecycle.V3.adjust_due.
    apply Z.leb_le in Hdue. rewrite Hdue.
    unfold Lifecycle.adjust. rewrite Hq. cbn [Py.truthy_opt]. rewrite Tb.
    destruct (Lifecycle.order_status o) as [[|] | e];
      [contradiction | reflexivity | reflexivity].
  - intros tracker l o quoted_at Hs Hdue Hq.
    unfold BuyLeg.turn. apply Z.leb_le in Hdue. rewrite Hdue.
    unfold BuyLeg.adjust. rewrite Hq. cbn [Py.truthy_opt]. rewrite Tb.
    destruct (Lifecycle.order_status o) as [[|] | e];
      [contradiction | reflexivity | reflexivity].
  - intros quantity entry_price is_short l o Hs Hdue Hq.
    unfold Lifecycle.Shorter.place_maker_sell_order_turn, Lifecycle.turn,
      Lifecycle.Shorter.adjust_due.
    assert (Hd : (SellPolicy.adjustment_interval
                    <=? Lifecycle.now o - Lifecycle.last_adjustment l)%Z
                 || (SellPolicy.max_wait_time
                       <=? Lifecycle.now o - Lifecycle.order_start_time l)%Z = true).
    { apply orb_true_iff. destruct Hdue as [H | H]; [left | right];
        apply Z.leb_le; exact H. }
    rewrite Hd.
    unfold Lifecycle.adjust. rewrite Hq. cbn [Py.truthy_opt]. rewrite Tb.
    destruct (Lifecycle.order_status o) as [[|] | e];
      [contradiction | destruct is_short; reflexivity
       | destruct is_short; reflexivity].
Qed.

(** A book with one bid and no ask: the quote is (100.5, None), and the
    opening leg raises on it. *)
Lemma legs_raise_without_ask_witness :
  Oracle.get_robust_market_prices
    (Ok (Oracle.mk_book (Oracle.levels [(100.5, 1)]%float) [])) 10
  = Ok (Some 100.5%float, None) /\
  BuyLeg.start MarketTrendTracker.init (Some 100.5%float, None) 0 (Ok 1%Z) 1
  = Raise TypeError.
Proof.
  split; [reflexivity |].
  exact (proj1 (legs_raise_without_ask 100.5%float eq_refl)
           MarketTrendTracker.init 0%Z (Ok 1%Z) 1%Z).
Defined.
